(** * Attendance and leave reconciliation: a shallow embedding

    The development follows the TypeScript sources of the workforce
    application:

    - [EmployeeDashboard.determineStatus] (check-in classifier),
    - [LeaveRequests.handleApprove] / [handleDecline] (leave reconciler),
    - [AdminDashboard.fetchDashboardData] (daily and weekly roll-ups),

    and, around them, the employee's page ([fetchData],
    [handleCheckIn], [handleCheckOut], [handleSubmitLeave] and its
    check-in card) with the row-level policies of the migrations, the
    admin's schedule page ([handleScheduleChange], [handleSave]), the
    durations and the list of the attendance pages, and the edge
    function that creates and deletes users.

    JavaScript built-ins used by that code ([parseInt], [String.split],
    [Date], [Math.round], number arithmetic) are modelled after the
    language specification; the persistence service is a state of
    tables whose operations may fail, as the client library reports
    failures in the [error] field of the result it returns. *)

From Stdlib Require Import ZArith List String Ascii Bool Lia.
From Stdlib Require Import QArith Qround Qpower Lqa.
From Stdlib Require Import DecimalString.
From Stdlib Require Import SpecFloat.
From Stdlib Require Import Permutation.
Import ListNotations.

Local Open Scope string_scope.
Local Open Scope Z_scope.

(** ** JavaScript strings and numbers

    A string holds the UTF-8 bytes of the text, as a string constant
    of this file does: a character that is not ASCII takes two to four
    bytes. *)

Module JS.

(** Integral numbers that may be [NaN].  Integers are kept exact,
    which is what double arithmetic does as long as every value stays
    a safe integer (magnitude below 2^53), as all clock values do. *)
Definition num := option Z.

Definition nmul (a b : num) : num :=
  match a, b with
  | Some x, Some y => Some (x * y)
  | _, _ => None
  end.

Definition nadd (a b : num) : num :=
  match a, b with
  | Some x, Some y => Some (x + y)
  | _, _ => None
  end.

(** [a <= b]: every comparison with [NaN] is false. *)
Definition nle (a b : num) : bool :=
  match a, b with
  | Some x, Some y => x <=? y
  | _, _ => false
  end.

Definition code (c : ascii) : Z := Z.of_nat (nat_of_ascii c).

(** The code points of StrWhiteSpaceChar, which [parseInt] skips:
    the white space TAB, VT, FF, SP, NBSP (U+00A0), ZWNBSP (U+FEFF)
    and the other space separators (U+1680, U+2000 to U+200A, U+202F,
    U+205F, U+3000), and the line terminators LF, CR, U+2028 and
    U+2029. *)
Definition isWhiteSpace (cp : Z) : bool :=
  ((9 <=? cp) && (cp <=? 13)) || (cp =? 32) || (cp =? 160)
  || (cp =? 5760) || ((8192 <=? cp) && (cp <=? 8202))
  || (cp =? 8232) || (cp =? 8233) || (cp =? 8239) || (cp =? 8287)
  || (cp =? 12288) || (cp =? 65279).

Definition isContinuation (c : ascii) : bool :=
  (128 <=? code c) && (code c <? 192).

(** The code point written by two bytes (U+0080 to U+07FF) and by
    three bytes (U+0800 to U+FFFF), when the bytes are such a
    sequence.  Every code point of [isWhiteSpace] takes at most three
    bytes. *)
Definition codePoint2 (b1 b2 : ascii) : option Z :=
  if (194 <=? code b1) && (code b1 <? 224) && isContinuation b2
  then Some ((code b1 - 192) * 64 + (code b2 - 128))
  else None.

Definition codePoint3 (b1 b2 b3 : ascii) : option Z :=
  let cp := (code b1 - 224) * 4096 + (code b2 - 128) * 64 + (code b3 - 128) in
  if (224 <=? code b1) && (code b1 <? 240) && isContinuation b2
     && isContinuation b3 && (2048 <=? cp)
  then Some cp
  else None.

Definition isWhiteSpaceOpt (cp : option Z) : bool :=
  match cp with
  | Some n => isWhiteSpace n
  | None => false
  end.

(** Value of [c] as a digit of the given radix (10 or 16). *)
Definition digitValue (radix : Z) (c : ascii) : option Z :=
  let n := code c in
  let v :=
    if (48 <=? n) && (n <=? 57) then Some (n - 48)
    else if (97 <=? n) && (n <=? 102) then Some (n - 87)
    else if (65 <=? n) && (n <=? 70) then Some (n - 55)
    else None in
  match v with
  | Some d => if d <? radix then Some d else None
  | None => None
  end.

(** [s] without the white space it starts with. *)
Fixpoint trimStart (s : string) : string :=
  match s with
  | String b1 r1 =>
      if isWhiteSpace (code b1) && (code b1 <? 128) then trimStart r1
      else
        match r1 with
        | String b2 r2 =>
            if isWhiteSpaceOpt (codePoint2 b1 b2) then trimStart r2
            else
              match r2 with
              | String b3 r3 =>
                  if isWhiteSpaceOpt (codePoint3 b1 b2 b3) then trimStart r3
                  else s
              | EmptyString => s
              end
        | EmptyString => s
        end
  | EmptyString => s
  end.

(** Longest prefix of radix digits, accumulated left to right;
    [None] when that prefix is empty. *)
Fixpoint digitsFrom (radix : Z) (acc : option Z) (s : string) : option Z :=
  match s with
  | String c r =>
      match digitValue radix c with
      | Some d =>
          digitsFrom radix
            (Some (match acc with Some a => a * radix + d | None => d end)) r
      | None => acc
      end
  | EmptyString => acc
  end.

Definition stripSign (s : string) : Z * string :=
  match s with
  | String "-" r => (-1, r)
  | String "+" r => (1, r)
  | _ => (1, s)
  end.

Definition stripHexPrefix (s : string) : Z * string :=
  match s with
  | String "0" (String "x" r) => (16, r)
  | String "0" (String "X" r) => (16, r)
  | _ => (10, s)
  end.

(** A Number that is not a time value: [NaN], an infinity, or a finite
    double.  The finite values met here are integers ([parseInt]
    returns one, and so do the product and the sum of two), held as
    the integer itself; the sign of a zero is not kept, since no
    operation used here tells [-0] from [+0]. *)
Inductive number : Type :=
  | NotANumber
  | Infinity (negative : bool)
  | Finite (n : Z).

(** The positive integer [a] rounded to 53 significant bits, to the
    nearest with ties going to the even mantissa. *)
Definition nearest53 (a : Z) : Z :=
  let k := Z.log2 a - 52 in
  if k <=? 0 then a
  else
    let m := Z.shiftr a k in
    let rest := a - Z.shiftl m k in
    let half := Z.shiftl 1 (k - 1) in
    let up := (half <? rest) || ((half =? rest) && Z.odd m) in
    Z.shiftl (if up then m + 1 else m) k.

(** The Number value for the integer [x]: the nearest double, and an
    infinity when that rounding reaches 2^1024. *)
Definition double (x : Z) : number :=
  let r := nearest53 (Z.abs x) in
  if r <? 2 ^ 1024 then Finite (Z.sgn x * r) else Infinity (x <? 0).

(** A clock value as a Number. *)
Definition toNumber (a : num) : number :=
  match a with
  | Some x => Finite x
  | None => NotANumber
  end.

(** [a * b]. *)
Definition mul (a b : number) : number :=
  match a, b with
  | NotANumber, _ | _, NotANumber => NotANumber
  | Infinity s, Infinity s' => Infinity (xorb s s')
  | Infinity s, Finite n | Finite n, Infinity s =>
      if n =? 0 then NotANumber else Infinity (xorb s (n <? 0))
  | Finite x, Finite y => double (x * y)
  end.

(** [a + b]. *)
Definition add (a b : number) : number :=
  match a, b with
  | NotANumber, _ | _, NotANumber => NotANumber
  | Infinity s, Infinity s' => if Bool.eqb s s' then Infinity s else NotANumber
  | Infinity s, Finite _ | Finite _, Infinity s => Infinity s
  | Finite x, Finite y => double (x + y)
  end.

(** [a > b]: every comparison with [NaN] is false. *)
Definition gt (a b : number) : bool :=
  match a, b with
  | NotANumber, _ | _, NotANumber => false
  | Infinity s, Infinity s' => negb s && s'
  | Infinity s, Finite _ => negb s
  | Finite _, Infinity s => s
  | Finite x, Finite y => y <? x
  end.

(** [parseInt(s)] with no radix argument: the Number value for the
    integer that the digits denote.  (For a decimal numeral of more
    than 20 significant digits the language also lets an engine read
    the digits after the 20th as zeros; the engines of the browsers
    read them all, as here.) *)
Definition parseInt (s : string) : number :=
  let '(sign, s1) := stripSign (trimStart s) in
  let '(radix, s2) := stripHexPrefix s1 in
  match digitsFrom radix None s2 with
  | Some v => double (sign * v)
  | None => NotANumber
  end.

(** [parseInt(x)] where [x] may be [undefined] (an array element out
    of range): [ToString(undefined)] has no digits. *)
Definition parseIntOpt (x : option string) : number :=
  match x with
  | Some s => parseInt s
  | None => NotANumber
  end.

(** [s.split(sep)] for a one-character separator. *)
Fixpoint splitAcc (sep : ascii) (cur : string) (s : string) : list string :=
  match s with
  | EmptyString => [cur]
  | String c r =>
      if Ascii.eqb c sep then cur :: splitAcc sep EmptyString r
      else splitAcc sep (cur ++ String c EmptyString) r
  end.

Definition split (sep : ascii) (s : string) : list string :=
  splitAcc sep EmptyString s.

(** [x || dflt] on a nullable string: [null] and the empty string are
    falsy. *)
Definition strOr (x : option string) (dflt : string) : string :=
  match x with
  | Some EmptyString | None => dflt
  | Some s => s
  end.

(** [x || 0] on a nullable count. *)
Definition numOr0 (x : option Z) : Z :=
  match x with
  | Some n => n
  | None => 0
  end.

End JS.

(** ** JavaScript dates

    A date is a time value: milliseconds since 1970-01-01T00:00:00Z, or
    [None] for an invalid date.  The day and calendar functions are the
    abstract operations of the language specification. *)

Module JSDate.

Definition msPerDay : Z := 86400000.
Definition msPerHour : Z := 3600000.
Definition msPerMinute : Z := 60000.
Definition msPerSecond : Z := 1000.

Definition Day (t : Z) : Z := t / msPerDay.
Definition TimeWithinDay (t : Z) : Z := t mod msPerDay.

Definition DaysInYear (y : Z) : Z :=
  if negb (y mod 4 =? 0) then 365
  else if negb (y mod 100 =? 0) then 366
  else if negb (y mod 400 =? 0) then 365
  else 366.

Definition DayFromYear (y : Z) : Z :=
  365 * (y - 1970) + (y - 1969) / 4 - (y - 1901) / 100 + (y - 1601) / 400.

Definition TimeFromYear (y : Z) : Z := msPerDay * DayFromYear y.

(** Walks down from an upper estimate to the largest year that starts
    on or before day [d]. *)
Fixpoint yearDown (fuel : nat) (d y : Z) : Z :=
  match fuel with
  | O => y
  | S k => if DayFromYear y <=? d then y else yearDown k d (y - 1)
  end.

Definition YearFromTime (t : Z) : Z :=
  let d := Day t in
  let est := 1970 + (if 0 <=? d then d / 365 else d / 366) + 1 in
  yearDown (Z.to_nat (Z.abs d / 100000 + 4)) d est.

Definition InLeapYear (t : Z) : bool := DaysInYear (YearFromTime t) =? 366.

Definition DayWithinYear (t : Z) : Z := Day t - DayFromYear (YearFromTime t).

(** Number of days of the year that precede month [m] (0 = January). *)
Definition monthStart (leap : bool) (m : Z) : Z :=
  let l := if leap then 1 else 0 in
  if m <=? 0 then 0
  else if m =? 1 then 31
  else if m =? 2 then 59 + l
  else if m =? 3 then 90 + l
  else if m =? 4 then 120 + l
  else if m =? 5 then 151 + l
  else if m =? 6 then 181 + l
  else if m =? 7 then 212 + l
  else if m =? 8 then 243 + l
  else if m =? 9 then 273 + l
  else if m =? 10 then 304 + l
  else 334 + l.

Definition MonthFromTime (t : Z) : Z :=
  let d := DayWithinYear t in
  let leap := InLeapYear t in
  if d <? monthStart leap 1 then 0
  else if d <? monthStart leap 2 then 1
  else if d <? monthStart leap 3 then 2
  else if d <? monthStart leap 4 then 3
  else if d <? monthStart leap 5 then 4
  else if d <? monthStart leap 6 then 5
  else if d <? monthStart leap 7 then 6
  else if d <? monthStart leap 8 then 7
  else if d <? monthStart leap 9 then 8
  else if d <? monthStart leap 10 then 9
  else if d <? monthStart leap 11 then 10
  else 11.

Definition DateFromTime (t : Z) : Z :=
  DayWithinYear t - monthStart (InLeapYear t) (MonthFromTime t) + 1.

Definition WeekDay (t : Z) : Z := (Day t + 4) mod 7.

Definition HourFromTime (t : Z) : Z := (t / msPerHour) mod 24.
Definition MinFromTime (t : Z) : Z := (t / msPerMinute) mod 60.
Definition SecFromTime (t : Z) : Z := (t / msPerSecond) mod 60.
Definition msFromTime (t : Z) : Z := t mod msPerSecond.

Definition MakeTime (h m s ms : Z) : Z :=
  h * msPerHour + m * msPerMinute + s * msPerSecond + ms.

(** Day number of the given year, month (0-based, any integer) and
    day of month (1-based, any integer). *)
Definition MakeDay (year month date : Z) : Z :=
  let ym := year + month / 12 in
  let mn := month mod 12 in
  DayFromYear ym + monthStart (DaysInYear ym =? 366) mn + date - 1.

Definition MakeDate (day time : Z) : Z := day * msPerDay + time.

Definition TimeClip (t : Z) : option Z :=
  if Z.abs t <=? 8640000000000000 then Some t else None.

(** The host's time zone: [LocalTZA t true] is the offset in force at
    the UTC instant [t]; [LocalTZA t false] the offset used to read the
    local time value [t]. *)
Record TimeZone : Type := {
  LocalTZA : Z -> bool -> Z
}.

Definition LocalTime (tz : TimeZone) (t : Z) : Z := t + LocalTZA tz t true.
Definition UTC (tz : TimeZone) (t : Z) : Z := t - LocalTZA tz t false.

Definition Date : Type := option Z.

Definition getHours (tz : TimeZone) (d : Date) : JS.num :=
  option_map (fun t => HourFromTime (LocalTime tz t)) d.

Definition getMinutes (tz : TimeZone) (d : Date) : JS.num :=
  option_map (fun t => MinFromTime (LocalTime tz t)) d.

Definition getSeconds (tz : TimeZone) (d : Date) : JS.num :=
  option_map (fun t => SecFromTime (LocalTime tz t)) d.

Definition getDate (tz : TimeZone) (d : Date) : JS.num :=
  option_map (fun t => DateFromTime (LocalTime tz t)) d.

Definition getDay (tz : TimeZone) (d : Date) : JS.num :=
  option_map (fun t => WeekDay (LocalTime tz t)) d.

(** [d.setDate(dt)]: the new time value of [d]. *)
Definition setDate (tz : TimeZone) (d : Date) (dt : JS.num) : Date :=
  match d, dt with
  | Some tv, Some n =>
      let t := LocalTime tz tv in
      let newDate :=
        MakeDate (MakeDay (YearFromTime t) (MonthFromTime t) n)
                 (TimeWithinDay t) in
      TimeClip (UTC tz newDate)
  | _, _ => None
  end.

(** [d.setHours(h, m, s, ms)]. *)
Definition setHours (tz : TimeZone) (d : Date) (h m s ms : Z) : Date :=
  match d with
  | Some tv =>
      let t := LocalTime tz tv in
      TimeClip (UTC tz (MakeDate (Day t) (MakeTime h m s ms)))
  | None => None
  end.

(** [a <= b] on dates compares the time values. *)
Definition le (a b : Date) : bool := JS.nle a b.

(** *** Date strings *)

Definition decimal (n : Z) : string :=
  NilZero.string_of_int (Z.to_int n).

Fixpoint zeros (k : nat) : string :=
  match k with
  | O => EmptyString
  | S k' => String "0" (zeros k')
  end.

(** Non-negative [n] in decimal, left-padded with zeros to [width]. *)
Definition pad (width : nat) (n : Z) : string :=
  let s := decimal n in
  (zeros (width - String.length s) ++ s)%string.

Fixpoint allDigits (s : string) : bool :=
  match s with
  | EmptyString => true
  | String c r =>
      match JS.digitValue 10 c with
      | Some _ => allDigits r
      | None => false
      end
  end.

(** Decimal field of a date string: digits only. *)
Definition field (s : string) (pos len : nat) : option Z :=
  let f := substring pos len s in
  if allDigits f && (String.length f =? len)%nat
  then JS.digitsFrom 10 None f else None.

Definition charAt (s : string) (pos : nat) (c : ascii) : bool :=
  match String.get pos s with
  | Some x => Ascii.eqb x c
  | None => false
  end.

Definition parseDay (s : string) : option Z :=
  match field s 0 4, field s 5 2, field s 8 2 with
  | Some y, Some m, Some d =>
      if charAt s 4 "-" && charAt s 7 "-"
         && (1 <=? m) && (m <=? 12) && (1 <=? d) && (d <=? 31)
      then Some (MakeDay y (m - 1) d) else None
  | _, _, _ => None
  end.

Definition parseClock (s : string) : option Z :=
  match field s 11 2, field s 14 2, field s 17 2, field s 20 3 with
  | Some h, Some m, Some sec, Some ms =>
      if charAt s 10 "T" && charAt s 13 ":" && charAt s 16 ":"
         && charAt s 19 "." && charAt s 23 "Z"
         && (h <=? 23) && (m <=? 59) && (sec <=? 59)
      then Some (MakeTime h m sec ms) else None
  | _, _, _, _ => None
  end.

(** The digits that [s] starts with, and the text that follows. *)
Fixpoint takeDigits (s : string) : string * string :=
  match s with
  | String c r =>
      match JS.digitValue 10 c with
      | Some _ => let '(d, rest) := takeDigits r in (String c d, rest)
      | None => (EmptyString, s)
      end
  | EmptyString => (EmptyString, s)
  end.

(** The whole milliseconds of a fraction of a second, given by its
    digits: the first three digits count. *)
Definition fractionMs (digits : string) : Z :=
  match JS.digitsFrom 10 None (substring 0 3 (digits ++ "00")) with
  | Some ms => ms
  | None => 0
  end.

(** The seconds part in front of the zone of a timestamp, [:ss] or
    [:ss.f...] with one to nine digits of fraction, or nothing: the
    milliseconds it stands for and the text that follows. *)
Definition parseSeconds (r : string) : option (Z * string) :=
  match r with
  | String ":" r1 =>
      match field r1 0 2 with
      | Some sec =>
          if sec <=? 59 then
            match substring 2 (String.length r1 - 2) r1 with
            | String "." r2 =>
                let '(digits, zone) := takeDigits r2 in
                if (1 <=? String.length digits)%nat
                   && (String.length digits <=? 9)%nat
                then Some (sec * msPerSecond + fractionMs digits, zone)
                else None
            | zone => Some (sec * msPerSecond, zone)
            end
          else None
      | None => None
      end
  | _ => Some (0, r)
  end.

(** The zone of a timestamp, [Z] or [+HH:mm] or [-HH:mm]: its offset
    from UTC. *)
Definition parseOffset (zone : string) : option Z :=
  match zone with
  | String "Z" EmptyString => Some 0
  | String sign r =>
      match field r 0 2, field r 3 2 with
      | Some h, Some m =>
          if (String.length r =? 5)%nat && charAt r 2 ":"
             && (h <=? 23) && (m <=? 59)
          then
            if Ascii.eqb sign "+" then Some (h * msPerHour + m * msPerMinute)
            else if Ascii.eqb sign "-"
            then Some (- (h * msPerHour + m * msPerMinute))
            else None
          else None
      | _, _ => None
      end
  | EmptyString => None
  end.

(** A timestamp with its zone, YYYY-MM-DDTHH:mm, then the seconds
    part, then the zone. *)
Definition parseTimestamp (s : string) : Date :=
  match parseDay s, field s 11 2, field s 14 2 with
  | Some d, Some h, Some m =>
      if charAt s 10 "T" && charAt s 13 ":" && (h <=? 23) && (m <=? 59)
      then
        match parseSeconds (substring 16 (String.length s - 16) s) with
        | Some (ms, zone) =>
            match parseOffset zone with
            | Some offset => TimeClip (MakeDate d (MakeTime h m 0 ms) - offset)
            | None => None
            end
        | None => None
        end
      else None
  | _, _, _ => None
  end.

(** [new Date(s)] for the interchange forms that the application
    exchanges with the persistence service: the date-only form
    YYYY-MM-DD of a date column, read as UTC midnight; the form
    YYYY-MM-DDTHH:mm:ss.sssZ that [toISOString] writes; and the
    timestamps with their zone, as the service prints a timestamp
    column (2024-01-10T04:11:00.25+00:00: the zone as an offset, and
    up to six digits of fraction, of which the milliseconds are
    kept).  Any other string is an invalid date here: among them a
    date and time with no zone, which the language reads in the
    host's zone, and the strings that the language leaves to the
    implementation; the application exchanges none of them.  A day
    number up to 31 is accepted in every month and carried over by
    [MakeDay]; the language leaves days past the end of a month to
    the implementation, and a date column never holds one. *)
Definition parse (s : string) : Date :=
  match String.length s with
  | 10%nat =>
      match parseDay s with
      | Some d => TimeClip (MakeDate d 0)
      | None => None
      end
  | 24%nat =>
      match parseDay s, parseClock s with
      | Some d, Some t => TimeClip (MakeDate d t)
      | _, _ => None
      end
  | _ => parseTimestamp s
  end.

Definition isoYear (y : Z) : string :=
  if (0 <=? y) && (y <=? 9999) then pad 4 y
  else ((if (y <? 0)%Z then "-" else "+") ++ pad 6 (Z.abs y))%string.

(** The text of [toISOString] for the time value [t]. *)
Definition isoString (t : Z) : string :=
  (isoYear (YearFromTime t) ++ "-" ++ pad 2 (MonthFromTime t + 1)
   ++ "-" ++ pad 2 (DateFromTime t)
   ++ "T" ++ pad 2 (HourFromTime t) ++ ":" ++ pad 2 (MinFromTime t)
   ++ ":" ++ pad 2 (SecFromTime t) ++ "." ++ pad 3 (msFromTime t)
   ++ "Z")%string.

(** [d.toISOString()]; [None] stands for the RangeError thrown on an
    invalid date. *)
Definition toISOString (d : Date) : option string := option_map isoString d.

Definition monthShort (m : Z) : string :=
  nth (Z.to_nat m)
    ["Jan"; "Feb"; "Mar"; "Apr"; "May"; "Jun";
     "Jul"; "Aug"; "Sep"; "Oct"; "Nov"; "Dec"] EmptyString.

(** date-fns [format(d, "MMM d")], in local time; [None] stands for
    the RangeError it throws on an invalid date. *)
Definition format_MMM_d (tz : TimeZone) (d : Date) : option string :=
  match d with
  | Some tv =>
      let t := LocalTime tz tv in
      Some (monthShort (MonthFromTime t) ++ " " ++ decimal (DateFromTime t))%string
  | None => None
  end.

(** *** Time zones *)

(** A zone with one constant offset from UTC. *)
Definition fixedZone (offset : Z) : TimeZone :=
  {| LocalTZA := fun _ _ => offset |}.

Definition utcZone : TimeZone := fixedZone 0.

(** A zone with daylight saving time between the UTC instants [from]
    and [till].  Local times skipped or repeated at a transition are
    read with the offset in force before it. *)
Definition dstZone (std dst from till : Z) : TimeZone :=
  {| LocalTZA := fun t isUTC =>
       if isUTC then
         if (from <=? t) && (t <? till) then dst else std
       else
         if (from + dst <=? t) && (t <? till + dst) then dst else std |}.

(** US Eastern time in 2024: UTC-5, and UTC-4 from 10 March 07:00Z to
    3 November 06:00Z. *)
Definition easternUS2024 : TimeZone :=
  dstZone (-5 * msPerHour) (-4 * msPerHour)
    (MakeDate (MakeDay 2024 2 10) (MakeTime 7 0 0 0))
    (MakeDate (MakeDay 2024 10 3) (MakeTime 6 0 0 0)).

End JSDate.

(** ** Employee dashboard: the check-in classifier *)

Module EmployeeDashboard.

Import JSDate.

(** A row of [attendance_schedule]. *)
Record ScheduleDay : Type := {
  day_of_week : Z;
  check_in_start : string;
  check_in_end : string;
  check_out_start : string;
  check_out_end : string;
  is_working_day : bool
}.

(** [.single()]: the row when the query matches exactly one, [null]
    otherwise. *)
Definition single {A : Type} (rows : list A) : option A :=
  match rows with
  | [r] => Some r
  | _ => None
  end.

(** The schedule part of [fetchData]: the row of today's weekday.
    [queryFails] stands for an error reported by the service, which
    also leaves [data] null. *)
Definition fetchTodaySchedule (tz : TimeZone) (now : Date) (queryFails : bool)
    (attendance_schedule : list ScheduleDay) : option ScheduleDay :=
  let dayOfWeek := getDay tz now in
  if queryFails then None
  else single (filter (fun r =>
                 match dayOfWeek with
                 | Some n => day_of_week r =? n
                 | None => false
                 end) attendance_schedule).

Definition checkInEndParts (s : ScheduleDay) : list string :=
  JS.split ":" (check_in_end s).

Definition checkInEndMinutes (s : ScheduleDay) : JS.number :=
  JS.add (JS.mul (JS.parseIntOpt (nth_error (checkInEndParts s) 0)) (JS.Finite 60))
         (JS.parseIntOpt (nth_error (checkInEndParts s) 1)).

(** The two numbers read from [check_in_end]: [parseInt] of the text
    before the first colon and of the text after it. *)
Definition checkInEndHour (s : ScheduleDay) : JS.number :=
  JS.parseIntOpt (nth_error (checkInEndParts s) 0).

Definition checkInEndMinute (s : ScheduleDay) : JS.number :=
  JS.parseIntOpt (nth_error (checkInEndParts s) 1).

Definition currentMinutes (tz : TimeZone) (checkInTime : Date) : JS.num :=
  JS.nadd (JS.nmul (getHours tz checkInTime) (Some 60))
          (getMinutes tz checkInTime).

Definition determineStatus (tz : TimeZone) (todaySchedule : option ScheduleDay)
    (checkInTime : Date) : string :=
  match todaySchedule with
  | None => "present"
  | Some s =>
      if JS.gt (JS.toNumber (currentMinutes tz checkInTime)) (checkInEndMinutes s)
      then "late" else "present"
  end.

(** Hour and minute of the local clock at the instant [t]. *)
Definition clock (tz : TimeZone) (t : Z) : Z * Z :=
  (HourFromTime (LocalTime tz t), MinFromTime (LocalTime tz t)).

(** Minutes since local midnight at the instant [t]. *)
Definition minutesSinceMidnight (tz : TimeZone) (t : Z) : Z :=
  fst (clock tz t) * 60 + snd (clock tz t).

(** The text of a [TIME] value: HH:MM:SS. *)
Definition timeOfDay (h m sec : Z) : string :=
  (pad 2 h ++ ":" ++ pad 2 m ++ ":" ++ pad 2 sec)%string.

(** A row whose check-in window ends at the given text. *)
Definition rowEndingAt (e : string) : ScheduleDay :=
  {| day_of_week := 1;
     check_in_start := "08:00:00"; check_in_end := e;
     check_out_start := "17:00:00"; check_out_end := "18:30:00";
     is_working_day := true |}.

(** Whether the minutes read from HH:MM:SS are [60 h + m]. *)
Definition readsClock (h m sec : nat) : bool :=
  match checkInEndMinutes
          (rowEndingAt (timeOfDay (Z.of_nat h) (Z.of_nat m) (Z.of_nat sec))) with
  | JS.Finite v => v =? Z.of_nat h * 60 + Z.of_nat m
  | _ => false
  end.

(** The default row seeded by the migration for a working day. *)
Definition defaultDay (dow : Z) (working : bool) : ScheduleDay :=
  {| day_of_week := dow;
     check_in_start := "08:00:00"; check_in_end := "09:30:00";
     check_out_start := "17:00:00"; check_out_end := "18:30:00";
     is_working_day := working |}.

End EmployeeDashboard.

(** ** The persistence service

    Tables are bags of rows.  Columns that the database fills by
    itself and that the modelled code never reads (generated keys,
    [created_at], [updated_at]) are left out.  Every operation returns
    the [error] field of the client library's result and has no effect
    when that field is set; which operations fail is an input of the
    model. *)

Module Supabase.

(** An error object: its [message], and whether it satisfies
    [instanceof Error]. *)
Record Exn : Type := {
  message : string;
  isError : bool
}.

Record LeaveRow : Type := {
  lr_id : string;
  lr_user_id : string;
  lr_start_date : string;
  lr_end_date : string;
  lr_reason : option string;
  lr_status : string;
  lr_approved_by : option string;
  lr_approved_at : option string
}.

Record AttendanceRow : Type := {
  at_user_id : string;
  at_check_in : Z;
  at_check_out : option Z;
  at_status : string;
  at_notes : option string
}.

Record NotificationRow : Type := {
  nt_user_id : string;
  nt_title : string;
  nt_message : string;
  nt_type : string;
  nt_is_read : bool;
  nt_related_type : option string;
  nt_related_id : option string
}.

Record Profile : Type := {
  pr_id : string;
  pr_full_name : string;
  pr_is_active : bool
}.

Record Database : Type := {
  leave_requests : list LeaveRow;
  attendance : list AttendanceRow;
  notifications : list NotificationRow;
  profiles : list Profile
}.

(** Outcome of each kind of request: [Some e] when the service
    reports the error [e]. *)
Record Faults : Type := {
  leaveSelectError : option Exn;
  leaveUpdateError : option Exn;
  attendanceInsertError : option Exn;
  notificationInsertError : option Exn
}.

Definition noFaults : Faults :=
  {| leaveSelectError := None; leaveUpdateError := None;
     attendanceInsertError := None; notificationInsertError := None |}.

(** Payload of an insert into [attendance]; columns left out take the
    defaults of the table. *)
Record AttendanceInsert : Type := {
  ai_user_id : string;
  ai_check_in : option string;
  ai_status : string;
  ai_notes : option string
}.

Record NotificationInsert : Type := {
  ni_user_id : string;
  ni_title : string;
  ni_message : string;
  ni_type : string;
  ni_related_type : option string;
  ni_related_id : option string
}.

(** The attendance row stored for a payload at database time [now]:
    [check_in] defaults to [now()], [notes] to the empty text.  [None]
    when the text given for [check_in] is not a timestamp. *)
Definition attendanceRowOf (now : Z) (p : AttendanceInsert) : option AttendanceRow :=
  match
    match ai_check_in p with
    | Some s => JSDate.parse s
    | None => Some now
    end
  with
  | Some t =>
      Some {| at_user_id := ai_user_id p;
              at_check_in := t;
              at_check_out := None;
              at_status := ai_status p;
              at_notes := Some (match ai_notes p with
                                | Some n => n
                                | None => EmptyString
                                end) |}
  | None => None
  end.

Fixpoint attendanceRowsOf (now : Z) (ps : list AttendanceInsert)
  : option (list AttendanceRow) :=
  match ps with
  | [] => Some []
  | p :: rest =>
      match attendanceRowOf now p, attendanceRowsOf now rest with
      | Some r, Some rs => Some (r :: rs)
      | _, _ => None
      end
  end.

Definition notificationRowOf (p : NotificationInsert) : NotificationRow :=
  {| nt_user_id := ni_user_id p;
     nt_title := ni_title p;
     nt_message := ni_message p;
     nt_type := ni_type p;
     nt_is_read := false;
     nt_related_type := ni_related_type p;
     nt_related_id := ni_related_id p |}.

(** The row [r] after [update({status, approved_by, approved_at})]. *)
Definition patchLeave (newStatus approvedBy approvedAt : string) (r : LeaveRow)
  : LeaveRow :=
  {| lr_id := lr_id r;
     lr_user_id := lr_user_id r;
     lr_start_date := lr_start_date r;
     lr_end_date := lr_end_date r;
     lr_reason := lr_reason r;
     lr_status := newStatus;
     lr_approved_by := Some approvedBy;
     lr_approved_at := Some approvedAt |}.

(** [from("leave_requests").update({status, approved_by,
    approved_at}).eq("id", id)]: every row with that id is patched,
    whatever its current status. *)
Definition updateLeave (f : Faults) (newStatus approvedBy approvedAt id : string)
    (db : Database) : option Exn * Database :=
  match leaveUpdateError f with
  | Some e => (Some e, db)
  | None =>
      (None,
       {| leave_requests :=
            map (fun r =>
                   if String.eqb (lr_id r) id
                   then patchLeave newStatus approvedBy approvedAt r
                   else r) (leave_requests db);
          attendance := attendance db;
          notifications := notifications db;
          profiles := profiles db |})
  end.

Definition invalidTimestamp : Exn :=
  {| message := "invalid input syntax for type timestamp with time zone";
     isError := false |}.

(** [from("attendance").insert(rows)]: one statement, all rows or
    none. *)
Definition insertAttendance (f : Faults) (now : Z) (ps : list AttendanceInsert)
    (db : Database) : option Exn * Database :=
  match attendanceInsertError f with
  | Some e => (Some e, db)
  | None =>
      match attendanceRowsOf now ps with
      | Some rows =>
          (None,
           {| leave_requests := leave_requests db;
              attendance := attendance db ++ rows;
              notifications := notifications db;
              profiles := profiles db |})
      | None => (Some invalidTimestamp, db)
      end
  end.

(** [from("notifications").insert(row)]. *)
Definition insertNotification (f : Faults) (p : NotificationInsert)
    (db : Database) : option Exn * Database :=
  match notificationInsertError f with
  | Some e => (Some e, db)
  | None =>
      (None,
       {| leave_requests := leave_requests db;
          attendance := attendance db;
          notifications := notifications db ++ [notificationRowOf p];
          profiles := profiles db |})
  end.

End Supabase.

(** ** Admin page of leave requests *)

Module LeaveRequests.

Import JSDate Supabase.

(** A request as the page holds it: the row, enriched with the name of
    its author when the profile was found. *)
Record LeaveRequest : Type := {
  id : string;
  user_id : string;
  start_date : string;
  end_date : string;
  reason : option string;
  status : string;
  user_full_name : option string
}.

Record Toast : Type := {
  title : string;
  description : string;
  destructive : bool
}.

(** What a handler runs in: the browser's time zone and clock, the
    signed-in user's id, and the fate of the requests it sends.  The
    page belongs to the admin area: the signed-in user is an admin,
    whom the row-level policies let read and write every row. *)
Record Env : Type := {
  tz : TimeZone;
  now : Z;
  user : option string;
  faults : Faults
}.

(** The database together with the state of the page. *)
Record Page : Type := {
  db : Database;
  requests : list LeaveRequest;
  processingId : option string;
  toasts : list Toast
}.

(** Computations over the page that end normally, end by throwing, or
    are cut short for lack of fuel ([None]). *)
Definition M (A : Type) : Type := Page -> option ((A + Exn) * Page).

Definition ret {A : Type} (a : A) : M A := fun pg => Some (inl a, pg).

Definition throw {A : Type} (e : Exn) : M A := fun pg => Some (inr e, pg).

Definition bind {A B : Type} (c : M A) (k : A -> M B) : M B :=
  fun pg =>
    match c pg with
    | Some (inl a, pg') => k a pg'
    | Some (inr e, pg') => Some (inr e, pg')
    | None => None
    end.

Notation "x <- c ;; k" := (bind c (fun x => k))
  (at level 61, c at next level, right associativity).
Notation "c ;;; k" := (bind c (fun _ => k))
  (at level 61, right associativity).

(** [try { body } catch (e) { handler e } finally { final }]. *)
Definition tryCatchFinally (body : M unit) (handler : Exn -> M unit)
    (final : M unit) : M unit :=
  fun pg =>
    match body pg with
    | Some (inl _, pg1) => final pg1
    | Some (inr e, pg1) =>
        match handler e pg1 with
        | Some (r, pg2) =>
            match final pg2 with
            | Some (inl _, pg3) => Some (r, pg3)
            | other => other
            end
        | None => None
        end
    | None => None
    end.

Definition outOfFuel {A : Type} : M A := fun _ => None.

Definition setProcessingId (x : option string) : M unit :=
  fun pg => Some (inl tt, {| db := db pg; requests := requests pg;
                             processingId := x; toasts := toasts pg |}).

Definition toast (t : Toast) : M unit :=
  fun pg => Some (inl tt, {| db := db pg; requests := requests pg;
                             processingId := processingId pg;
                             toasts := toasts pg ++ [t] |}).

Definition setRequests (rs : list LeaveRequest) : M unit :=
  fun pg => Some (inl tt, {| db := db pg; requests := rs;
                             processingId := processingId pg;
                             toasts := toasts pg |}).

(** A request to the service: its effect on the tables, and the
    [error] field of the result. *)
Definition call (op : Database -> option Exn * Database) : M (option Exn) :=
  fun pg =>
    let '(err, db') := op (db pg) in
    Some (inl err, {| db := db'; requests := requests pg;
                      processingId := processingId pg; toasts := toasts pg |}).

(** [if (error) throw error]. *)
Definition throwIf (err : option Exn) : M unit :=
  match err with
  | Some e => throw e
  | None => ret tt
  end.

(** date-fns [format] throws on an invalid date. *)
Definition formatOrThrow (tz : TimeZone) (d : Date) : M string :=
  match format_MMM_d tz d with
  | Some s => ret s
  | None => throw {| message := "Invalid time value"; isError := true |}
  end.

(** Text of [${x}] for a possibly missing name. *)
Definition interpolate (x : option string) : string :=
  match x with
  | Some s => s
  | None => "undefined"
  end.

(** The record pushed for the day held by the loop variable [t]. *)
Definition leaveRecord (request : LeaveRequest) (t : Z) : AttendanceInsert :=
  {| ai_user_id := user_id request;
     ai_check_in := Some (isoString t);
     ai_status := "leave";
     ai_notes := Some ("Approved leave: "
                       ++ JS.strOr (reason request) "No reason provided")%string |}.

(** The loop [for (let d = new Date(startDate); d <= endDate;
    d.setDate(d.getDate() + 1)) push(...)].  [None] when [fuel]
    iterations did not reach the end of the loop. *)
Fixpoint leaveLoop (fuel : nat) (tz : TimeZone) (request : LeaveRequest)
    (d endDate : Date) (acc : list AttendanceInsert)
  : option (list AttendanceInsert) :=
  if JSDate.le d endDate then
    match fuel, d with
    | S k, Some t =>
        leaveLoop k tz request
          (setDate tz d (JS.nadd (getDate tz d) (Some 1))) endDate
          (acc ++ [leaveRecord request t])
    | O, Some _ => None
    | _, None => Some acc
    end
  else Some acc.

Definition leaveAttendanceRecords (fuel : nat) (tz : TimeZone)
    (request : LeaveRequest) : option (list AttendanceInsert) :=
  let startDate := parse (start_date request) in
  let endDate := parse (end_date request) in
  leaveLoop fuel tz request startDate endDate [].

(** The notification sent to the author of an approved request. *)
Definition approvedNotice (request : LeaveRequest) (from to : string)
  : NotificationInsert :=
  {| ni_user_id := user_id request;
     ni_title := "Leave Request Approved";
     ni_message := ("Your leave request from " ++ from ++ " to "
                    ++ to ++ " has been approved.")%string;
     ni_type := "success";
     ni_related_type := Some "leave";
     ni_related_id := Some (id request) |}.

(** The notification sent to the author of a declined request. *)
Definition declinedNotice (request : LeaveRequest) (from to : string)
  : NotificationInsert :=
  {| ni_user_id := user_id request;
     ni_title := "Leave Request Declined";
     ni_message := ("Your leave request from " ++ from ++ " to "
                    ++ to ++ " has been declined.")%string;
     ni_type := "error";
     ni_related_type := Some "leave";
     ni_related_id := Some (id request) |}.

Definition approveBody (fuel : nat) (env : Env) (uid : string)
    (request : LeaveRequest) : M unit :=
  updateError <- call (updateLeave (faults env) "approved" uid
                         (isoString (now env)) (id request)) ;;
  throwIf updateError ;;;
  let startDate := parse (start_date request) in
  let endDate := parse (end_date request) in
  match leaveAttendanceRecords fuel (tz env) request with
  | None => outOfFuel
  | Some leaveAttendanceRecords =>
      (if (0 <? Z.of_nat (List.length leaveAttendanceRecords))
       then _ <- call (insertAttendance (faults env) (now env)
                         leaveAttendanceRecords) ;; ret tt
       else ret tt) ;;;
      from <- formatOrThrow (tz env) startDate ;;
      to <- formatOrThrow (tz env) endDate ;;
      _ <- call (insertNotification (faults env)
                   (approvedNotice request from to)) ;;
      toast {| title := "Leave approved";
               description := ("Leave request for "
                               ++ interpolate (user_full_name request)
                               ++ " has been approved.")%string;
               destructive := false |}
  end.

(** [handleApprove(request)].  The refresh it starts at the end
    ([fetchLeaveRequests()], not awaited) completes after the handler
    and is the separate step [fetchLeaveRequests] below. *)
Definition handleApprove (fuel : nat) (env : Env) (request : LeaveRequest)
  : M unit :=
  match user env with
  | None => ret tt
  | Some uid =>
      setProcessingId (Some (id request)) ;;;
      tryCatchFinally
        (approveBody fuel env uid request)
        (fun error =>
           toast {| title := "Error";
                    description := JS.strOr (Some (message error))
                                     "Failed to approve leave request";
                    destructive := true |})
        (setProcessingId None)
  end.

Definition declineBody (env : Env) (uid : string) (request : LeaveRequest)
  : M unit :=
  error <- call (updateLeave (faults env) "declined" uid
                   (isoString (now env)) (id request)) ;;
  throwIf error ;;;
  from <- formatOrThrow (tz env) (parse (start_date request)) ;;
  to <- formatOrThrow (tz env) (parse (end_date request)) ;;
  _ <- call (insertNotification (faults env)
               (declinedNotice request from to)) ;;
  toast {| title := "Leave declined";
           description := ("Leave request for "
                           ++ interpolate (user_full_name request)
                           ++ " has been declined.")%string;
           destructive := false |}.

(** [handleDecline(request)]. *)
Definition handleDecline (env : Env) (request : LeaveRequest) : M unit :=
  match user env with
  | None => ret tt
  | Some uid =>
      setProcessingId (Some (id request)) ;;;
      tryCatchFinally
        (declineBody env uid request)
        (fun error =>
           toast {| title := "Error";
                    description := if isError error then message error
                                   else "Failed to decline leave request";
                    destructive := true |})
        (setProcessingId None)
  end.

(** The page's copy of a row. *)
Definition requestOfRow (ps : list Profile) (r : LeaveRow) : LeaveRequest :=
  {| id := lr_id r;
     user_id := lr_user_id r;
     start_date := lr_start_date r;
     end_date := lr_end_date r;
     reason := lr_reason r;
     status := lr_status r;
     user_full_name :=
       match EmployeeDashboard.single
               (filter (fun p => String.eqb (pr_id p) (lr_user_id r)) ps) with
       | Some p => Some (pr_full_name p)
       | None => None
       end |}.

(** [fetchLeaveRequests()]: reload the list from the table.  (The
    order of the cards, by [created_at], is not modelled.) *)
Definition fetchLeaveRequests (env : Env) : M unit :=
  match leaveSelectError (faults env) with
  | Some _ =>
      toast {| title := "Error";
               description := "Failed to load leave requests";
               destructive := true |}
  | None =>
      fun pg =>
        setRequests (map (requestOfRow (profiles (db pg)))
                         (leave_requests (db pg))) pg
  end.

(** *** The view *)

Definition pendingRequests (rs : list LeaveRequest) : list LeaveRequest :=
  filter (fun r => String.eqb (status r) "pending") rs.

Definition approvedRequests (rs : list LeaveRequest) : list LeaveRequest :=
  filter (fun r => String.eqb (status r) "approved") rs.

Definition declinedRequests (rs : list LeaveRequest) : list LeaveRequest :=
  filter (fun r => String.eqb (status r) "declined") rs.

(** What the admin can trigger on the page. *)
Inductive Action : Type :=
| ClickDecline (request : LeaveRequest)
| ClickApprove (request : LeaveRequest).

Definition target (a : Action) : LeaveRequest :=
  match a with
  | ClickDecline r | ClickApprove r => r
  end.

(** The enabled buttons of [renderRequestCard(request, showActions)]:
    none without [showActions]; both are disabled while the request is
    being processed. *)
Definition renderRequestCard (pid : option string) (request : LeaveRequest)
    (showActions : bool) : list Action :=
  if showActions then
    match pid with
    | Some x => if String.eqb x (id request) then []
                else [ClickDecline request; ClickApprove request]
    | None => [ClickDecline request; ClickApprove request]
    end
  else [].

(** All enabled buttons of the three tabs. *)
Definition offeredActions (pg : Page) : list Action :=
  flat_map (fun r => renderRequestCard (processingId pg) r true)
           (pendingRequests (requests pg))
  ++ flat_map (fun r => renderRequestCard (processingId pg) r false)
              (approvedRequests (requests pg))
  ++ flat_map (fun r => renderRequestCard (processingId pg) r false)
              (declinedRequests (requests pg)).

Definition perform (fuel : nat) (env : Env) (a : Action) : M unit :=
  match a with
  | ClickDecline r => handleDecline env r
  | ClickApprove r => handleApprove fuel env r
  end.

(** A change of status that the life cycle of a request admits: none,
    or from pending to one of the two final states. *)
Definition allowedTransition (before after : string) : Prop :=
  after = before
  \/ (before = "pending" /\ (after = "approved" \/ after = "declined")).

(** The page shows the table as it is. *)
Definition fresh (pg : Page) : Prop :=
  requests pg = map (requestOfRow (profiles (db pg))) (leave_requests (db pg)).

(** The time values [t], [t] + 1 day, ... ([n] of them). *)
Definition daysFrom (n : nat) (t : Z) : list Z :=
  map (fun i => t + Z.of_nat i * msPerDay) (seq 0 n).

(** Number of days of the closed interval between two time values. *)
Definition dayCount (s e : Z) : nat :=
  if s <=? e then Z.to_nat ((e - s) / msPerDay + 1) else 0%nat.

End LeaveRequests.

(** ** Double-precision arithmetic

    The quotient and the product of the weekly rate are not integers,
    so they are rounded as IEEE 754 binary64 prescribes: the exact
    result is replaced by the nearest number of the form [m * 2^e]
    with [m] below 2^53, ties going to the even [m].  Values are kept
    as rationals; results are finite here (overflow to Infinity would
    take magnitudes of 2^1024). *)

Module Float64.

Definition pow2 (e : Z) : Q := ((2 # 1) ^ e)%Q.

(** Floor of the binary logarithm of a positive rational. *)
Definition ilog2 (q : Q) : Z :=
  let c := Z.log2 (Qnum q) - Z.log2 (Zpos (Qden q)) in
  if Qle_bool (pow2 c) q then c else c - 1.

(** Nearest integer, ties to even. *)
Definition rne (x : Q) : Z :=
  let f := Qfloor x in
  match (x - inject_Z f ?= 1 # 2)%Q with
  | Lt => f
  | Gt => f + 1
  | Eq => if Z.even f then f else f + 1
  end.

(** Exponent of the last mantissa bit of the doubles around [q]:
    52 below the leading bit, and never below that of the subnormal
    numbers. *)
Definition ulpExp (q : Q) : Z := Z.max (ilog2 q - 52) (-1074).

Definition roundPos (q : Q) : Q :=
  (inject_Z (rne (q / pow2 (ulpExp q))) * pow2 (ulpExp q))%Q.

(** The double nearest to [q]. *)
Definition RN (q : Q) : Q :=
  match (0 ?= q)%Q with
  | Lt => roundPos q
  | Gt => (- roundPos (- q))%Q
  | Eq => 0%Q
  end.

(** Unit roundoff: 2^-53. *)
Definition u : Q := 1 # 9007199254740992.

(** [a / b] for [b] other than zero. *)
Definition div (a b : Q) : Q := RN (a / b)%Q.

(** [a * b]. *)
Definition mul (a b : Q) : Q := RN (a * b)%Q.

(** [Math.round(x)]: the nearest integer, ties going up. *)
Definition round (x : Q) : Z := Qfloor (x + (1 # 2))%Q.

(** For comparison: the same quotient and product computed with the
    binary64 operations of the standard library's model of IEEE 754
    (53 bits of precision, exponents below 1024). *)
Definition ofSpec (x : spec_float) : option Q :=
  match x with
  | S754_zero _ => Some 0%Q
  | S754_finite s m e =>
      Some (inject_Z (if s then Zneg m else Zpos m) * pow2 e)%Q
  | _ => None
  end.

Definition specOfZ (n : Z) : spec_float := binary_normalize 53 1024 n 0 false.

Definition specPercent (p t : Z) : option Q :=
  ofSpec (SFmul 53 1024 (SFdiv 53 1024 (specOfZ p) (specOfZ t)) (specOfZ 100)).

Definition agreesWithSpec (p t : Z) : bool :=
  match specPercent p t with
  | Some v => Qeq_bool v (mul (div (inject_Z p) (inject_Z t)) (inject_Z 100))
  | None => false
  end.

(** Whether the Number value that [JS.double] gives for the integer
    [x] is the one of the standard library's conversion to binary64
    and, when finite, the one of [RN]. *)
Definition doubleAgreesWithSpec (x : Z) : bool :=
  match JS.double x, specOfZ x with
  | JS.Finite r, S754_zero _ => (r =? 0)%Z
  | JS.Finite r, S754_finite s m e =>
      Qeq_bool (inject_Z r) (inject_Z (if s then Zneg m else Zpos m) * pow2 e)
      && Qeq_bool (inject_Z r) (RN (inject_Z x))
  | JS.Infinity s, S754_infinity s' => Bool.eqb s s'
  | _, _ => false
  end.

End Float64.

(** ** Admin dashboard: daily and weekly roll-ups *)

Module AdminDashboard.

Import JSDate Supabase.

(** date-fns [startOfDay], [endOfDay], and [startOfWeek], [endOfWeek]
    with [weekStartsOn: 1], all on the local calendar. *)
Definition startOfDay (tz : TimeZone) (d : Date) : Date :=
  setHours tz d 0 0 0 0.

Definition endOfDay (tz : TimeZone) (d : Date) : Date :=
  setHours tz d 23 59 59 999.

Definition startOfWeek (tz : TimeZone) (d : Date) : Date :=
  match getDay tz d with
  | Some day =>
      let diff := (if day <? 1 then 7 else 0) + day - 1 in
      setHours tz (setDate tz d (JS.nadd (getDate tz d) (Some (- diff)))) 0 0 0 0
  | None => None
  end.

Definition endOfWeek (tz : TimeZone) (d : Date) : Date :=
  match getDay tz d with
  | Some day =>
      let diff := (if day <? 1 then -7 else 0) + 6 - (day - 1) in
      setHours tz (setDate tz d (JS.nadd (getDate tz d) (Some diff))) 23 59 59 999
  | None => None
  end.

(** Which of the three queries fail; a failed query yields [null]. *)
Record Faults : Type := {
  countFails : bool;
  todayFails : bool;
  weekFails : bool
}.

(** [from("profiles").select("*", {count: "exact", head: true})
    .eq("is_active", true)]. *)
Definition activeCount (fails : bool) (db : Database) : option Z :=
  if fails then None
  else Some (Z.of_nat (List.length (filter pr_is_active (profiles db)))).

(** [from("attendance").select("status").gte("check_in", lo)
    .lte("check_in", hi)]: the statuses of the rows in the window. *)
Definition statusBetween (fails : bool) (lo hi : string) (db : Database)
  : option (list string) :=
  if fails then None
  else
    match parse lo, parse hi with
    | Some l, Some h =>
        Some (map at_status
                (filter (fun a => (l <=? at_check_in a) && (at_check_in a <=? h))
                        (attendance db)))
    | _, _ => None
    end.

(** [rows?.filter(keep).length || 0]. *)
Definition countOr0 (keep : string -> bool) (rows : option (list string)) : Z :=
  match rows with
  | Some l => Z.of_nat (List.length (filter keep l))
  | None => 0
  end.

Definition isPresent (st : string) : bool := String.eqb st "present".
Definition isLate (st : string) : bool := String.eqb st "late".
Definition isLeave (st : string) : bool := String.eqb st "leave".
Definition isPresentOrLate (st : string) : bool := isPresent st || isLate st.

(** [Math.max(0, (employeeCount || 0) - totalAttendanceToday)]. *)
Definition absentOf (employeeCount : option Z) (totalAttendanceToday : Z) : Z :=
  Z.max 0 (JS.numOr0 employeeCount - totalAttendanceToday).

(** [weekTotal > 0 ? Math.round((weekPresent / weekTotal) * 100) : 0]
    with [weekTotal = (employeeCount || 0) * 5]. *)
Definition rateOf (employeeCount : option Z) (weekPresent : Z) : Z :=
  let weekTotal := JS.numOr0 employeeCount * 5 in
  if 0 <? weekTotal
  then Float64.round
         (Float64.mul (Float64.div (inject_Z weekPresent) (inject_Z weekTotal))
                      (inject_Z 100))
  else 0.

(** The attendance part of the statistics shown by the dashboard. *)
Record DashboardStats : Type := {
  totalEmployees : Z;
  presentToday : Z;
  lateToday : Z;
  absentToday : Z;
  onLeaveToday : Z;
  attendanceRate : Z
}.

(** The attendance part of [fetchDashboardData]; [None] when an
    exception skips [setStats]. *)
Definition fetchDashboardData (tz : TimeZone) (today : Date) (f : Faults)
    (db : Database) : option DashboardStats :=
  match toISOString (startOfDay tz today), toISOString (endOfDay tz today),
        toISOString (startOfWeek tz today), toISOString (endOfWeek tz today) with
  | Some todayStart, Some todayEnd, Some weekStart, Some weekEnd =>
      let employeeCount := activeCount (countFails f) db in
      let todayAttendance := statusBetween (todayFails f) todayStart todayEnd db in
      let presentToday := countOr0 isPresent todayAttendance in
      let lateToday := countOr0 isLate todayAttendance in
      let onLeaveToday := countOr0 isLeave todayAttendance in
      let totalAttendanceToday := countOr0 (fun _ => true) todayAttendance in
      let absentToday := absentOf employeeCount totalAttendanceToday in
      let weekAttendance := statusBetween (weekFails f) weekStart weekEnd db in
      let weekPresent := countOr0 isPresentOrLate weekAttendance in
      let attendanceRate := rateOf employeeCount weekPresent in
      Some {| totalEmployees := JS.numOr0 employeeCount;
              presentToday := presentToday;
              lateToday := lateToday;
              absentToday := absentToday;
              onLeaveToday := onLeaveToday;
              attendanceRate := attendanceRate |}
  | _, _, _, _ => None
  end.

End AdminDashboard.

(** ** Sample data used by the examples *)

Module Sample.

Import JSDate Supabase LeaveRequests.

Definition request (from to : string) (st : string) : LeaveRequest :=
  {| id := "req-1"; user_id := "emp-1";
     start_date := from; end_date := to;
     reason := Some "Family visit"; status := st;
     user_full_name := Some "Dana" |}.

Definition row (from to : string) (st : string) : LeaveRow :=
  {| lr_id := "req-1"; lr_user_id := "emp-1";
     lr_start_date := from; lr_end_date := to;
     lr_reason := Some "Family visit"; lr_status := st;
     lr_approved_by := None; lr_approved_at := None |}.

Definition database (from to : string) : Database :=
  {| leave_requests := [row from to "pending"];
     attendance := [];
     notifications := [];
     profiles := [{| pr_id := "emp-1"; pr_full_name := "Dana";
                     pr_is_active := true |}] |}.

(** The page right after loading the list. *)
Definition page (from to : string) : Page :=
  {| db := database from to;
     requests := map (requestOfRow (profiles (database from to)))
                     (leave_requests (database from to));
     processingId := None;
     toasts := [] |}.

(** 2024-01-09T10:00:00Z. *)
Definition clockTime : Z := 1704794400000.

Definition env (zone : TimeZone) (f : Faults) : Env :=
  {| tz := zone; now := clockTime; user := Some "admin-1"; faults := f |}.

Definition serviceError : Exn :=
  {| message := "permission denied for table attendance"; isError := false |}.

Definition attendanceInsertFails : Faults :=
  {| leaveSelectError := None; leaveUpdateError := None;
     attendanceInsertError := Some serviceError;
     notificationInsertError := None |}.

Definition notificationInsertFails : Faults :=
  {| leaveSelectError := None; leaveUpdateError := None;
     attendanceInsertError := None;
     notificationInsertError :=
       Some {| message := "permission denied for table notifications";
               isError := false |} |}.

(** Ten active employees and one inactive; twelve attendance records
    on Wednesday 2024-01-10 (a data anomaly) and one on the Sunday
    before, which belongs to the previous week. *)
Definition attendanceAt (t : Z) (st : string) : AttendanceRow :=
  {| at_user_id := "emp-1"; at_check_in := t; at_check_out := None;
     at_status := st; at_notes := Some EmptyString |}.

Definition crowdedDay : Database :=
  {| leave_requests := [];
     attendance :=
       attendanceAt 1704619800000 "present"
       :: repeat (attendanceAt 1704877200000 "present") 7
       ++ repeat (attendanceAt 1704879000000 "late") 3
       ++ repeat (attendanceAt 1704844800000 "leave") 2;
     notifications := [];
     profiles :=
       {| pr_id := "emp-0"; pr_full_name := "Gone"; pr_is_active := false |}
       :: repeat {| pr_id := "emp-1"; pr_full_name := "Dana";
                    pr_is_active := true |} 10 |}.

(** 2024-01-10T12:00:00Z. *)
Definition noon : Z := 1704888000000.

Definition noDashboardFaults : AdminDashboard.Faults :=
  {| AdminDashboard.countFails := false;
     AdminDashboard.todayFails := false;
     AdminDashboard.weekFails := false |}.

(** What the dashboard shows for [crowdedDay] at [noon], in UTC. *)
Definition crowdedStats : AdminDashboard.DashboardStats :=
  {| AdminDashboard.totalEmployees := 10;
     AdminDashboard.presentToday := 7;
     AdminDashboard.lateToday := 3;
     AdminDashboard.absentToday := 0;
     AdminDashboard.onLeaveToday := 2;
     AdminDashboard.attendanceRate := 20 |}.

(** Eight active employees; in the week of Monday 2024-01-08 all
    eight check in on Monday and on Tuesday, and seven on Wednesday
    morning, two of them late: 23 records within the week. *)
Definition tiedWeek : Database :=
  {| leave_requests := [];
     attendance :=
       repeat (attendanceAt 1704703800000 "present") 8
       ++ repeat (attendanceAt 1704790200000 "present") 8
       ++ repeat (attendanceAt 1704876600000 "present") 5
       ++ repeat (attendanceAt 1704879600000 "late") 2;
     notifications := [];
     profiles :=
       repeat {| pr_id := "emp-1"; pr_full_name := "Dana";
                 pr_is_active := true |} 8 |}.

(** What the dashboard shows for [tiedWeek] at [noon], in UTC. *)
Definition tiedStats : AdminDashboard.DashboardStats :=
  {| AdminDashboard.totalEmployees := 8;
     AdminDashboard.presentToday := 5;
     AdminDashboard.lateToday := 2;
     AdminDashboard.absentToday := 1;
     AdminDashboard.onLeaveToday := 0;
     AdminDashboard.attendanceRate := 57 |}.

(** The page reached by running [c], when it ends. *)
Definition after (c : M unit) (pg : Page) : option Page :=
  match c pg with
  | Some (_, pg') => Some pg'
  | None => None
  end.

End Sample.

(** ** Further definitions used by the properties below *)

Module DateText.

Import JSDate.

(** Whether [pad w n] is [w] digits long and reads back as [n]. *)
Definition padReads (w : nat) (n : nat) : bool :=
  let s := pad w (Z.of_nat n) in
  (String.length s =? w)%nat && allDigits s
  && match JS.digitsFrom 10 None s with
     | Some v => v =? Z.of_nat n
     | None => false
     end.

End DateText.

Module LeaveDays.

Import Supabase LeaveRequests.

(** The attendance row stored for the leave day that starts at [t]. *)
Definition leaveRow (request : LeaveRequest) (t : Z) : AttendanceRow :=
  {| at_user_id := user_id request;
     at_check_in := t;
     at_check_out := None;
     at_status := "leave";
     at_notes := Some ("Approved leave: "
                       ++ JS.strOr (reason request) "No reason provided")%string |}.

(** The error toast of [handleApprove]. *)
Definition approveErrorToast (error : Exn) : Toast :=
  {| title := "Error";
     description := JS.strOr (Some (message error))
                      "Failed to approve leave request";
     destructive := true |}.

(** The error toast of [handleDecline]. *)
Definition declineErrorToast (error : Exn) : Toast :=
  {| title := "Error";
     description := if isError error then message error
                    else "Failed to decline leave request";
     destructive := true |}.

(** Whether a status is one of the three that the table admits. *)
Definition validStatus (st : string) : Prop :=
  st = "pending" \/ st = "approved" \/ st = "declined".

(** The status that an action asks for. *)
Definition decision (a : Action) : string :=
  match a with
  | ClickDecline _ => "declined"
  | ClickApprove _ => "approved"
  end.

End LeaveDays.

Module DashboardWindow.

Import Supabase.

(** Whether the [check_in] of a row lies between two time values. *)
Definition inWindow (lo hi : Z) (a : AttendanceRow) : bool :=
  (lo <=? at_check_in a) && (at_check_in a <=? hi).

(** Number of attendance rows of the window whose status is kept. *)
Definition countIn (lo hi : Z) (keep : string -> bool) (db : Database) : Z :=
  Z.of_nat (List.length
              (filter (fun a => inWindow lo hi a && keep (at_status a))
                      (attendance db))).

(** The statuses that the day counters of the dashboard count. *)
Definition countedStatus (st : string) : Prop :=
  st = "present" \/ st = "late" \/ st = "leave".

End DashboardWindow.

Module DateParts.

Import JSDate.

(** No character of [s] is [sep]. *)
Fixpoint lacks (sep : ascii) (s : string) : bool :=
  match s with
  | EmptyString => true
  | String c r => negb (Ascii.eqb c sep) && lacks sep r
  end.

(** The date part of [isoString] for a year of four digits. *)
Definition dateText (t : Z) : string :=
  (pad 4 (YearFromTime t) ++ "-" ++ pad 2 (MonthFromTime t + 1)
   ++ "-" ++ pad 2 (DateFromTime t))%string.

End DateParts.

(** ** Row-level security

    The policies that the migrations declare for the tables that the
    employee's page writes and reads.  [uid] is [auth.uid()], the
    signed-in user.  The permissive policies of one command are
    alternatives, and a command that no policy covers reaches no row;
    a [FOR ALL] policy with only a [USING] clause also checks the rows
    written; an [UPDATE] with a filter reaches only rows that the
    user may also select. *)

Module Policies.

(** A row of [user_roles]. *)
Record RoleRow : Type := {
  ur_user_id : string;
  ur_role : string
}.

(** [has_role(_user_id, _role)]. *)
Definition has_role (user_roles : list RoleRow) (_user_id _role : string) : bool :=
  existsb (fun r => String.eqb (ur_user_id r) _user_id
                    && String.eqb (ur_role r) _role) user_roles.

(** Policies of [attendance]. *)
Definition users_can_view_own_attendance (roles : list RoleRow)
    (uid user_id : string) : bool :=
  String.eqb user_id uid || has_role roles uid "admin".

Definition users_can_insert_own_attendance (uid user_id : string) : bool :=
  String.eqb user_id uid.

Definition admins_can_manage_attendance (roles : list RoleRow) (uid : string)
  : bool :=
  has_role roles uid "admin".

Definition attendanceSelect (roles : list RoleRow) (uid user_id : string) : bool :=
  users_can_view_own_attendance roles uid user_id
  || admins_can_manage_attendance roles uid.

Definition attendanceInsert (roles : list RoleRow) (uid user_id : string) : bool :=
  users_can_insert_own_attendance uid user_id
  || admins_can_manage_attendance roles uid.

Definition attendanceUpdate (roles : list RoleRow) (uid user_id : string) : bool :=
  admins_can_manage_attendance roles uid
  && attendanceSelect roles uid user_id.

(** Policies of [gps_logs]; none covers more than the user's own
    rows on insert. *)
Definition users_can_insert_own_gps_logs (uid user_id : string) : bool :=
  String.eqb user_id uid.

Definition gpsInsert (uid user_id : string) : bool :=
  users_can_insert_own_gps_logs uid user_id.

(** Policies of [user_roles]. *)
Definition users_can_view_own_role (roles : list RoleRow)
    (uid user_id : string) : bool :=
  String.eqb user_id uid || has_role roles uid "admin".

Definition admins_can_manage_roles (roles : list RoleRow) (uid : string) : bool :=
  has_role roles uid "admin".

Definition rolesSelect (roles : list RoleRow) (uid user_id : string) : bool :=
  users_can_view_own_role roles uid user_id || admins_can_manage_roles roles uid.

(** Policies of [leave_requests]. *)
Definition users_can_insert_own_leave_requests (uid user_id : string) : bool :=
  String.eqb user_id uid.

Definition admins_can_manage_leave_requests (roles : list RoleRow)
    (uid : string) : bool :=
  has_role roles uid "admin".

Definition leaveInsert (roles : list RoleRow) (uid user_id : string) : bool :=
  users_can_insert_own_leave_requests uid user_id
  || admins_can_manage_leave_requests roles uid.

(** Policies of [notifications]: only the admins' policy covers an
    insert. *)
Definition admins_can_manage_notifications (roles : list RoleRow)
    (uid : string) : bool :=
  has_role roles uid "admin".

Definition notificationInsert (roles : list RoleRow) (uid : string) : bool :=
  admins_can_manage_notifications roles uid.

End Policies.

(** ** Handlers: state and exceptions

    Computations over a state that end normally or by throwing. *)

Module Handler.

Import Supabase.

Definition M (State A : Type) : Type := State -> (A + Exn) * State.

Definition ret {State A : Type} (a : A) : M State A := fun st => (inl a, st).

Definition throw {State A : Type} (e : Exn) : M State A :=
  fun st => (inr e, st).

Definition bind {State A B : Type} (c : M State A) (k : A -> M State B)
  : M State B :=
  fun st =>
    match c st with
    | (inl a, st') => k a st'
    | (inr e, st') => (inr e, st')
    end.

Notation "x <- c ;; k" := (bind c (fun x => k))
  (at level 61, c at next level, right associativity).
Notation "c ;;; k" := (bind c (fun _ => k))
  (at level 61, right associativity).

(** [try { body } catch (e) { handler e } finally { final }]. *)
Definition tryCatchFinally {State : Type} (body : M State unit)
    (handler : Exn -> M State unit) (final : M State unit) : M State unit :=
  fun st =>
    match body st with
    | (inl _, st1) => final st1
    | (inr e, st1) =>
        match handler e st1 with
        | (r, st2) =>
            match final st2 with
            | (inl _, st3) => (r, st3)
            | other => other
            end
        end
    end.

(** [if (error) throw error]. *)
Definition throwIf {State : Type} (err : option Exn) : M State unit :=
  match err with
  | Some e => throw e
  | None => ret tt
  end.

End Handler.

(** ** The employee's dashboard page *)

Module EmployeePage.

Import JSDate Supabase Policies EmployeeDashboard Handler.

(** An attendance row with its primary key. *)
Record Attendance : Type := {
  ar_id : string;
  ar_row : AttendanceRow
}.

(** [position.coords]. *)
Record Coords : Type := {
  latitude : Q;
  longitude : Q;
  accuracy : Q
}.

(** A row of [gps_logs], as sent. *)
Record GpsLog : Type := {
  gl_user_id : string;
  gl_coords : Coords
}.

Record Tables : Type := {
  tb_attendance : list Attendance;
  tb_gps_logs : list GpsLog;
  tb_leave_requests : list LeaveRow;
  tb_user_roles : list RoleRow;
  tb_notifications : list NotificationRow;
  tb_profiles : list Profile;
  tb_attendance_schedule : list ScheduleDay
}.

(** The fate of each request of the page: an error reported by the
    service, for whatever reason, or none. *)
Record Faults : Type := {
  gpsInsertFails : option Exn;
  checkInFails : option Exn;
  checkOutFails : option Exn;
  todaySelectFails : bool;
  scheduleSelectFails : bool;
  leaveInsertFails : option Exn;
  rolesSelectFails : bool;
  profileSelectFails : bool;
  notifyInsertFails : option Exn
}.

(** What a handler runs in.  [now] and [later] are two successive
    readings of the browser's clock ([new Date()]); [serverNow] is
    [now()] of the database and [serverOffset] the offset of the time
    zone in which it reads a timestamp written without one.
    [geolocation] is [None] when the browser has no geolocation,
    [Some None] when the position is refused.  [newId] is the key that
    the database generates for an inserted row. *)
Record Env : Type := {
  tz : TimeZone;
  now : Z;
  later : Z;
  serverNow : Z;
  serverOffset : Z;
  user : option string;
  geolocation : option (option Coords);
  newId : string;
  faults : Faults
}.

Record LeaveForm : Type := {
  start_date : string;
  end_date : string;
  reason : string
}.

Definition emptyForm : LeaveForm :=
  {| start_date := EmptyString; end_date := EmptyString;
     reason := EmptyString |}.

(** The tables together with the state of the page. *)
Record Page : Type := {
  tables : Tables;
  todayAttendance : option Attendance;
  todaySchedule : option ScheduleDay;
  loading : bool;
  checkingIn : bool;
  isLeaveDialogOpen : bool;
  leaveLoading : bool;
  leaveForm : LeaveForm;
  toasts : list LeaveRequests.Toast
}.

(** Computations over the page. *)
Definition M (A : Type) : Type := Handler.M Page A.

Definition setTables (x : Tables) (pg : Page) : Page :=
  {| tables := x; todayAttendance := todayAttendance pg;
     todaySchedule := todaySchedule pg; loading := loading pg;
     checkingIn := checkingIn pg; isLeaveDialogOpen := isLeaveDialogOpen pg;
     leaveLoading := leaveLoading pg; leaveForm := leaveForm pg;
     toasts := toasts pg |}.

Definition setTodayAttendance (x : option Attendance) : M unit :=
  fun pg =>
    (inl tt,
     {| tables := tables pg; todayAttendance := x;
        todaySchedule := todaySchedule pg; loading := loading pg;
        checkingIn := checkingIn pg; isLeaveDialogOpen := isLeaveDialogOpen pg;
        leaveLoading := leaveLoading pg; leaveForm := leaveForm pg;
        toasts := toasts pg |}).

Definition setTodaySchedule (x : option ScheduleDay) : M unit :=
  fun pg =>
    (inl tt,
     {| tables := tables pg; todayAttendance := todayAttendance pg;
        todaySchedule := x; loading := loading pg;
        checkingIn := checkingIn pg; isLeaveDialogOpen := isLeaveDialogOpen pg;
        leaveLoading := leaveLoading pg; leaveForm := leaveForm pg;
        toasts := toasts pg |}).

Definition setLoading (x : bool) : M unit :=
  fun pg =>
    (inl tt,
     {| tables := tables pg; todayAttendance := todayAttendance pg;
        todaySchedule := todaySchedule pg; loading := x;
        checkingIn := checkingIn pg; isLeaveDialogOpen := isLeaveDialogOpen pg;
        leaveLoading := leaveLoading pg; leaveForm := leaveForm pg;
        toasts := toasts pg |}).

Definition setCheckingIn (x : bool) : M unit :=
  fun pg =>
    (inl tt,
     {| tables := tables pg; todayAttendance := todayAttendance pg;
        todaySchedule := todaySchedule pg; loading := loading pg;
        checkingIn := x; isLeaveDialogOpen := isLeaveDialogOpen pg;
        leaveLoading := leaveLoading pg; leaveForm := leaveForm pg;
        toasts := toasts pg |}).

Definition setIsLeaveDialogOpen (x : bool) : M unit :=
  fun pg =>
    (inl tt,
     {| tables := tables pg; todayAttendance := todayAttendance pg;
        todaySchedule := todaySchedule pg; loading := loading pg;
        checkingIn := checkingIn pg; isLeaveDialogOpen := x;
        leaveLoading := leaveLoading pg; leaveForm := leaveForm pg;
        toasts := toasts pg |}).

Definition setLeaveLoading (x : bool) : M unit :=
  fun pg =>
    (inl tt,
     {| tables := tables pg; todayAttendance := todayAttendance pg;
        todaySchedule := todaySchedule pg; loading := loading pg;
        checkingIn := checkingIn pg; isLeaveDialogOpen := isLeaveDialogOpen pg;
        leaveLoading := x; leaveForm := leaveForm pg;
        toasts := toasts pg |}).

Definition setLeaveForm (x : LeaveForm) : M unit :=
  fun pg =>
    (inl tt,
     {| tables := tables pg; todayAttendance := todayAttendance pg;
        todaySchedule := todaySchedule pg; loading := loading pg;
        checkingIn := checkingIn pg; isLeaveDialogOpen := isLeaveDialogOpen pg;
        leaveLoading := leaveLoading pg; leaveForm := x;
        toasts := toasts pg |}).

Definition toast (t : LeaveRequests.Toast) : M unit :=
  fun pg =>
    (inl tt,
     {| tables := tables pg; todayAttendance := todayAttendance pg;
        todaySchedule := todaySchedule pg; loading := loading pg;
        checkingIn := checkingIn pg; isLeaveDialogOpen := isLeaveDialogOpen pg;
        leaveLoading := leaveLoading pg; leaveForm := leaveForm pg;
        toasts := (toasts pg ++ [t])%list |}).

(** A request that writes: its effect on the tables, and the [error]
    field of the result. *)
Definition call (op : Tables -> option Exn * Tables) : M (option Exn) :=
  fun pg => let '(err, tb) := op (tables pg) in (inl err, setTables tb pg).

(** A request that reads: the [data] field of the result. *)
Definition query {A : Type} (q : Tables -> A) : M A :=
  fun pg => (inl (q (tables pg)), pg).

(** *** The requests *)

Definition quoted (name : string) : string :=
  (String (ascii_of_nat 34) name ++ String (ascii_of_nat 34) EmptyString)%string.

(** The error of an insert that no policy admits. *)
Definition policyViolation (table : string) : Exn :=
  {| message := ("new row violates row-level security policy for table "
                 ++ quoted table)%string;
     isError := false |}.

(** The [CHECK] constraint on [attendance.status]. *)
Definition statusAdmitted (st : string) : bool :=
  String.eqb st "present" || String.eqb st "late"
  || String.eqb st "absent" || String.eqb st "leave".

Definition statusViolation : Exn :=
  {| message := ("new row for relation " ++ quoted "attendance"
                 ++ " violates check constraint "
                 ++ quoted "attendance_status_check")%string;
     isError := false |}.

(** [from("gps_logs").insert({user_id, latitude, longitude,
    accuracy})]. *)
Definition insertGpsLog (env : Env) (uid user_id : string) (c : Coords)
    (tb : Tables) : option Exn * Tables :=
  match gpsInsertFails (faults env) with
  | Some e => (Some e, tb)
  | None =>
      if gpsInsert uid user_id then
        (None,
         {| tb_attendance := tb_attendance tb;
            tb_gps_logs := (tb_gps_logs tb
                            ++ [{| gl_user_id := user_id; gl_coords := c |}])%list;
            tb_leave_requests := tb_leave_requests tb;
            tb_user_roles := tb_user_roles tb;
            tb_notifications := tb_notifications tb;
            tb_profiles := tb_profiles tb;
            tb_attendance_schedule := tb_attendance_schedule tb |})
      else (Some (policyViolation "gps_logs"), tb)
  end.

(** [from("attendance").insert({user_id, status})]: [check_in] takes
    its default [now()], [check_out] is null, [notes] empty. *)
Definition insertCheckIn (env : Env) (uid user_id status : string)
    (tb : Tables) : option Exn * Tables :=
  match checkInFails (faults env) with
  | Some e => (Some e, tb)
  | None =>
      if negb (statusAdmitted status) then (Some statusViolation, tb)
      else if attendanceInsert (tb_user_roles tb) uid user_id then
        (None,
         {| tb_attendance :=
              (tb_attendance tb
               ++ [{| ar_id := newId env;
                      ar_row := {| at_user_id := user_id;
                                   at_check_in := serverNow env;
                                   at_check_out := None;
                                   at_status := status;
                                   at_notes := Some EmptyString |} |}])%list;
            tb_gps_logs := tb_gps_logs tb;
            tb_leave_requests := tb_leave_requests tb;
            tb_user_roles := tb_user_roles tb;
            tb_notifications := tb_notifications tb;
            tb_profiles := tb_profiles tb;
            tb_attendance_schedule := tb_attendance_schedule tb |})
      else (Some (policyViolation "attendance"), tb)
  end.

(** The row after [update({check_out})]. *)
Definition withCheckOut (t : Z) (a : Attendance) : Attendance :=
  {| ar_id := ar_id a;
     ar_row := {| at_user_id := at_user_id (ar_row a);
                  at_check_in := at_check_in (ar_row a);
                  at_check_out := Some t;
                  at_status := at_status (ar_row a);
                  at_notes := at_notes (ar_row a) |} |}.

(** [from("attendance").update({check_out}).eq("id", id)]: the rows
    with that key that the user may update. *)
Definition updateCheckOut (env : Env) (uid check_out id : string)
    (tb : Tables) : option Exn * Tables :=
  match checkOutFails (faults env) with
  | Some e => (Some e, tb)
  | None =>
      match parse check_out with
      | None => (Some invalidTimestamp, tb)
      | Some t =>
          (None,
           {| tb_attendance :=
                map (fun a =>
                       if String.eqb (ar_id a) id
                          && attendanceUpdate (tb_user_roles tb) uid
                               (at_user_id (ar_row a))
                       then withCheckOut t a else a) (tb_attendance tb);
              tb_gps_logs := tb_gps_logs tb;
              tb_leave_requests := tb_leave_requests tb;
              tb_user_roles := tb_user_roles tb;
              tb_notifications := tb_notifications tb;
              tb_profiles := tb_profiles tb;
              tb_attendance_schedule := tb_attendance_schedule tb |})
      end
  end.

(** Clock of a timestamp written HH:MM:SS after the date. *)
Definition parseClockSeconds (s : string) : option Z :=
  match field s 11 2, field s 14 2, field s 17 2 with
  | Some h, Some m, Some sec =>
      if charAt s 10 "T" && charAt s 13 ":" && charAt s 16 ":"
         && (h <=? 23) && (m <=? 59) && (sec <=? 59)
      then Some (MakeTime h m sec 0) else None
  | _, _, _ => None
  end.

(** A timestamp YYYY-MM-DDTHH:MM:SS given without time zone, as the
    database reads it: in the zone of the session. *)
Definition timestampWithoutZone (offset : Z) (s : string) : option Z :=
  match String.length s with
  | 19%nat =>
      match parseDay s, parseClockSeconds s with
      | Some d, Some t => Some (MakeDate d t - offset)
      | _, _ => None
      end
  | _ => None
  end.

(** [from("attendance").select("*").eq("user_id", user_id)
    .gte("check_in", lo).lte("check_in", hi).single()]. *)
Definition selectToday (env : Env) (uid user_id lo hi : string) (tb : Tables)
  : option Attendance :=
  if todaySelectFails (faults env) then None
  else
    match timestampWithoutZone (serverOffset env) lo,
          timestampWithoutZone (serverOffset env) hi with
    | Some l, Some h =>
        single
          (filter (fun a =>
                     attendanceSelect (tb_user_roles tb) uid
                       (at_user_id (ar_row a))
                     && String.eqb (at_user_id (ar_row a)) user_id
                     && (l <=? at_check_in (ar_row a))
                     && (at_check_in (ar_row a) <=? h))
                  (tb_attendance tb))
    | _, _ => None
    end.

(** Payload of the insert into [leave_requests]. *)
Record LeaveInsert : Type := {
  li_user_id : string;
  li_start_date : string;
  li_end_date : string;
  li_reason : option string
}.

(** [from("leave_requests").insert(row).select().single()]: the
    error and the data.  The status takes its default; the date
    columns give back the date texts of the form's inputs as they
    are. *)
Definition insertLeave (env : Env) (uid : string) (p : LeaveInsert)
    (tb : Tables) : (option Exn * option LeaveRow) * Tables :=
  match leaveInsertFails (faults env) with
  | Some e => ((Some e, None), tb)
  | None =>
      if leaveInsert (tb_user_roles tb) uid (li_user_id p) then
        let row := {| lr_id := newId env;
                      lr_user_id := li_user_id p;
                      lr_start_date := li_start_date p;
                      lr_end_date := li_end_date p;
                      lr_reason := li_reason p;
                      lr_status := "pending";
                      lr_approved_by := None;
                      lr_approved_at := None |} in
        ((None, Some row),
         {| tb_attendance := tb_attendance tb;
            tb_gps_logs := tb_gps_logs tb;
            tb_leave_requests := (tb_leave_requests tb ++ [row])%list;
            tb_user_roles := tb_user_roles tb;
            tb_notifications := tb_notifications tb;
            tb_profiles := tb_profiles tb;
            tb_attendance_schedule := tb_attendance_schedule tb |})
      else ((Some (policyViolation "leave_requests"), None), tb)
  end.

(** [from("user_roles").select("user_id").eq("role", "admin")]. *)
Definition selectAdminRoles (env : Env) (uid : string) (tb : Tables)
  : option (list string) :=
  if rolesSelectFails (faults env) then None
  else
    Some (map ur_user_id
            (filter (fun r =>
                       rolesSelect (tb_user_roles tb) uid (ur_user_id r)
                       && String.eqb (ur_role r) "admin")
                    (tb_user_roles tb))).

(** [from("profiles").select("full_name").eq("id", id).single()];
    every signed-in user may read every profile. *)
Definition selectFullName (env : Env) (id : string) (tb : Tables)
  : option string :=
  if profileSelectFails (faults env) then None
  else
    option_map pr_full_name
      (single (filter (fun p => String.eqb (pr_id p) id) (tb_profiles tb))).

(** [from("notifications").insert(rows)]: one statement, all rows or
    none. *)
Definition insertNotifications (env : Env) (uid : string)
    (rows : list NotificationInsert) (tb : Tables) : option Exn * Tables :=
  match notifyInsertFails (faults env) with
  | Some e => (Some e, tb)
  | None =>
      if forallb (fun _ => notificationInsert (tb_user_roles tb) uid) rows then
        (None,
         {| tb_attendance := tb_attendance tb;
            tb_gps_logs := tb_gps_logs tb;
            tb_leave_requests := tb_leave_requests tb;
            tb_user_roles := tb_user_roles tb;
            tb_notifications :=
              (tb_notifications tb ++ map notificationRowOf rows)%list;
            tb_profiles := tb_profiles tb;
            tb_attendance_schedule := tb_attendance_schedule tb |})
      else (Some (policyViolation "notifications"), tb)
  end.

(** *** The handlers *)

(** date-fns [format(d, "h:mm a")], in local time; [None] stands for
    the RangeError it throws on an invalid date. *)
Definition format_h_mm_a (zone : TimeZone) (d : Date) : option string :=
  match d with
  | Some tv =>
      let t := LocalTime zone tv in
      let h := HourFromTime t in
      let hour12 := if h mod 12 =? 0 then 12 else h mod 12 in
      let dayPeriod := if h <? 12 then "AM" else "PM" in
      Some (decimal hour12 ++ ":" ++ pad 2 (MinFromTime t)
            ++ " " ++ dayPeriod)%string
  | None => None
  end.

Definition formatOrThrow (zone : TimeZone) (d : Date) : M string :=
  match format_h_mm_a zone d with
  | Some s => ret s
  | None => throw {| message := "Invalid time value"; isError := true |}
  end.

(** [x || null] on a string. *)
Definition orNull (x : string) : option string :=
  match x with
  | EmptyString => None
  | _ => Some x
  end.

(** Whether a string is truthy. *)
Definition truthy (x : string) : bool :=
  match x with
  | EmptyString => false
  | _ => true
  end.

(** The attendance and schedule parts of [fetchData()]. *)
Definition fetchData (env : Env) : M unit :=
  match user env with
  | None => ret tt
  | Some uid =>
      tryCatchFinally
        (let today :=
           LeaveRequests.interpolate
             (nth_error (JS.split "T" (isoString (now env))) 0) in
         attendanceData <- query (selectToday env uid uid
                                    (today ++ "T00:00:00")
                                    (today ++ "T23:59:59")) ;;
         setTodayAttendance attendanceData ;;;
         scheduleData <- query (fun tb =>
                                  fetchTodaySchedule (tz env) (Some (later env))
                                    (scheduleSelectFails (faults env))
                                    (tb_attendance_schedule tb)) ;;
         setTodaySchedule scheduleData)
        (fun _ => ret tt)
        (setLoading false)
  end.

(** The location part of [handleCheckIn]: a refused position is
    caught and logged to the console; the result of the insert is not
    read. *)
Definition logPosition (env : Env) (uid : string) : M unit :=
  match geolocation env with
  | Some (Some coords) =>
      _ <- call (insertGpsLog env uid uid coords) ;; ret tt
  | Some None => ret tt
  | None => ret tt
  end.

(** The toast of a successful check-in. *)
Definition checkedInToast (status time : string) : LeaveRequests.Toast :=
  {| LeaveRequests.title :=
       if String.eqb status "late" then "Checked in (Late)" else "Checked in!";
     LeaveRequests.description :=
       ("You checked in at " ++ time
        ++ (if String.eqb status "late"
            then " - marked as late" else EmptyString))%string;
     LeaveRequests.destructive := String.eqb status "late" |}.

(** The rest of the [try] block of [handleCheckIn]. *)
Definition checkInBody (env : Env) (uid : string) : M unit :=
  fun pg =>
    (let now := Some (now env) in
     let status := determineStatus (tz env) (todaySchedule pg) now in
     error <- call (insertCheckIn env uid uid status) ;;
     throwIf error ;;;
     time <- formatOrThrow (tz env) now ;;
     toast (checkedInToast status time)) pg.

(** [handleCheckIn()].  The refresh it starts at the end
    ([fetchData()], not awaited) is the separate step [fetchData]. *)
Definition handleCheckIn (env : Env) : M unit :=
  match user env with
  | None => ret tt
  | Some uid =>
      setCheckingIn true ;;;
      tryCatchFinally
        (logPosition env uid ;;; checkInBody env uid)
        (fun error =>
           toast {| LeaveRequests.title := "Error";
                    LeaveRequests.description :=
                      if isError error then message error
                      else "Failed to check in";
                    LeaveRequests.destructive := true |})
        (setCheckingIn false)
  end.

(** [handleCheckOut()]. *)
Definition handleCheckOut (env : Env) : M unit :=
  fun pg =>
    match user env, todayAttendance pg with
    | Some uid, Some today =>
        (setCheckingIn true ;;;
         tryCatchFinally
           (error <- call (updateCheckOut env uid (isoString (now env))
                             (ar_id today)) ;;
            throwIf error ;;;
            time <- formatOrThrow (tz env) (Some (later env)) ;;
            toast {| LeaveRequests.title := "Checked out!";
                     LeaveRequests.description :=
                       ("You checked out at " ++ time)%string;
                     LeaveRequests.destructive := false |})
           (fun error =>
              toast {| LeaveRequests.title := "Error";
                       LeaveRequests.description :=
                         JS.strOr (Some (message error)) "Failed to check out";
                       LeaveRequests.destructive := true |})
           (setCheckingIn false)) pg
    | _, _ => ret tt pg
    end.

(** The notification sent to an admin about a new request. *)
Definition newRequestNotice (form : LeaveForm) (full_name : option string)
    (leaveId : option string) (admin : string) : NotificationInsert :=
  {| ni_user_id := admin;
     ni_title := "New Leave Request";
     ni_message :=
       ("**" ++ JS.strOr full_name "Employee"
        ++ "** has requested leave from " ++ start_date form
        ++ " to " ++ end_date form ++ "."
        ++ (if truthy (reason form)
            then " Reason: " ++ reason form else EmptyString))%string;
     ni_type := "warning";
     ni_related_type := Some "leave";
     ni_related_id := leaveId |}.

(** [handleSubmitLeave()]. *)
Definition handleSubmitLeave (env : Env) : M unit :=
  fun pg =>
    let form := leaveForm pg in
    match user env, truthy (start_date form), truthy (end_date form) with
    | Some uid, true, true =>
        (setLeaveLoading true ;;;
         tryCatchFinally
           (fun pg1 =>
              let '(error, leaveData, tb) :=
                insertLeave env uid
                  {| li_user_id := uid;
                     li_start_date := start_date form;
                     li_end_date := end_date form;
                     li_reason := orNull (reason form) |} (tables pg1) in
              (throwIf error ;;;
               adminRoles <- query (selectAdminRoles env uid) ;;
               (match adminRoles with
                | Some ((_ :: _) as admins) =>
                    profile <- query (selectFullName env uid) ;;
                    let adminNotifications :=
                      map (newRequestNotice form profile
                             (match leaveData with
                              | Some row => orNull (lr_id row)
                              | None => None
                              end)) admins in
                    _ <- call (insertNotifications env uid adminNotifications) ;;
                    ret tt
                | _ => ret tt
                end) ;;;
               toast {| LeaveRequests.title := "Leave request submitted";
                        LeaveRequests.description :=
                          "Your request has been sent to admin for approval.";
                        LeaveRequests.destructive := false |} ;;;
               setIsLeaveDialogOpen false ;;;
               setLeaveForm emptyForm) (setTables tb pg1))
           (fun error =>
              toast {| LeaveRequests.title := "Error";
                       LeaveRequests.description :=
                         if isError error then message error
                         else "Failed to submit leave request";
                       LeaveRequests.destructive := true |})
           (setLeaveLoading false)) pg
    | _, _, _ =>
        toast {| LeaveRequests.title := "Error";
                 LeaveRequests.description :=
                   "Please fill in all required fields";
                 LeaveRequests.destructive := true |} pg
    end.

(** *** The view *)

Inductive Button : Type :=
| CheckIn
| CheckOut
| RequestLeave.

(** The enabled buttons of the check-in card on a day that is not
    marked as non-working. *)
Definition attendanceButtons (pg : Page) : list Button :=
  match todayAttendance pg with
  | Some a =>
      match at_check_out (ar_row a) with
      | Some _ => []
      | None => if checkingIn pg then [] else [CheckOut]
      end
  | None => ((if checkingIn pg then [] else [CheckIn]) ++ [RequestLeave])%list
  end.

(** The enabled buttons of the check-in card. *)
Definition buttons (pg : Page) : list Button :=
  match todaySchedule pg with
  | Some s => if negb (is_working_day s) then [] else attendanceButtons pg
  | None => attendanceButtons pg
  end.

(** *** Notions used to state the properties *)

(** The page with another log of positions. *)
Definition withGpsLogs (logs : list GpsLog) (pg : Page) : Page :=
  setTables
    {| tb_attendance := tb_attendance (tables pg);
       tb_gps_logs := logs;
       tb_leave_requests := tb_leave_requests (tables pg);
       tb_user_roles := tb_user_roles (tables pg);
       tb_notifications := tb_notifications (tables pg);
       tb_profiles := tb_profiles (tables pg);
       tb_attendance_schedule := tb_attendance_schedule (tables pg) |} pg.

(** The rows of [user_id] whose [check_in] falls in the UTC day of the
    instant [t], its bounds 00:00:00 and 23:59:59 being read in a
    session of offset [offset]. *)
Definition rowsOfDay (offset t : Z) (user_id : string) (tb : Tables)
  : list Attendance :=
  filter (fun a =>
            String.eqb (at_user_id (ar_row a)) user_id
            && (Day t * msPerDay - offset <=? at_check_in (ar_row a))
            && (at_check_in (ar_row a) <=? Day t * msPerDay + 86399000 - offset))
         (tb_attendance tb).

(** The row that a submitted form stores. *)
Definition submittedRow (env : Env) (uid : string) (form : LeaveForm) : LeaveRow :=
  {| lr_id := newId env;
     lr_user_id := uid;
     lr_start_date := start_date form;
     lr_end_date := end_date form;
     lr_reason := orNull (reason form);
     lr_status := "pending";
     lr_approved_by := None;
     lr_approved_at := None |}.

Definition submittedToast : LeaveRequests.Toast :=
  {| LeaveRequests.title := "Leave request submitted";
     LeaveRequests.description :=
       "Your request has been sent to admin for approval.";
     LeaveRequests.destructive := false |}.

(** The users that hold the admin role. *)
Definition admins (tb : Tables) : list string :=
  map ur_user_id
    (filter (fun r => String.eqb (ur_role r) "admin") (tb_user_roles tb)).

(** The toast of a successful check-out. *)
Definition checkedOutToast (time : string) : LeaveRequests.Toast :=
  {| LeaveRequests.title := "Checked out!";
     LeaveRequests.description := ("You checked out at " ++ time)%string;
     LeaveRequests.destructive := false |}.

(** The row that a check-in stores. *)
Definition checkInRow (env : Env) (uid status : string) : Attendance :=
  {| ar_id := newId env;
     ar_row := {| at_user_id := uid;
                  at_check_in := serverNow env;
                  at_check_out := None;
                  at_status := status;
                  at_notes := Some EmptyString |} |}.

End EmployeePage.

(** ** Durations shown by the attendance pages *)

Module Duration.

Import JSDate.

(** [a - b] on two time values: the double nearest to the difference,
    which is an integer as every double of that size is. *)
Definition minus (a b : Z) : Z := Qfloor (Float64.RN (inject_Z (a - b))).

(** [calculateDuration(checkIn, checkOut)] of the admin's attendance
    page and of the employee's history page, which differ by the text
    shown for a missing check-out.  [read] is [new Date(s)] on the
    timestamps that the service returns. *)
Definition calculateDurationWith (placeholder : string) (read : string -> Date)
    (checkIn : string) (checkOut : option string) : string :=
  match checkOut with
  | None | Some EmptyString => placeholder
  | Some checkOut =>
      match read checkIn, read checkOut with
      | Some start, Some end_ =>
          let diff := minus end_ start in
          let hours :=
            Qfloor (Float64.div (inject_Z diff) (inject_Z (1000 * 60 * 60))) in
          let minutes :=
            Qfloor (Float64.div (inject_Z (Z.rem diff (1000 * 60 * 60)))
                                (inject_Z (1000 * 60))) in
          (decimal hours ++ "h " ++ decimal minutes ++ "m")%string
      | _, _ => "NaNh NaNm"
      end
  end.

(** The admin's attendance page. *)
Definition calculateDuration : (string -> Date) -> string -> option string -> string :=
  calculateDurationWith "In progress".

End Duration.

(** ** Sample data of the employee's page *)

Module EmployeeSample.

Import JSDate Supabase Policies EmployeeDashboard EmployeePage.

Definition roles : list RoleRow :=
  [{| ur_user_id := "emp-1"; ur_role := "employee" |};
   {| ur_user_id := "admin-1"; ur_role := "admin" |};
   {| ur_user_id := "admin-2"; ur_role := "admin" |}].

(** The schedule seeded by the migration. *)
Definition seededSchedule : list ScheduleDay :=
  [defaultDay 0 false; defaultDay 1 true; defaultDay 2 true; defaultDay 3 true;
   defaultDay 4 true; defaultDay 5 true; defaultDay 6 false].

Definition tables : Tables :=
  {| tb_attendance := [];
     tb_gps_logs := [];
     tb_leave_requests := [];
     tb_user_roles := roles;
     tb_notifications := [];
     tb_profiles := [{| pr_id := "emp-1"; pr_full_name := "Dana";
                        pr_is_active := true |};
                     {| pr_id := "admin-1"; pr_full_name := "Ada";
                        pr_is_active := true |}];
     tb_attendance_schedule := seededSchedule |}.

(** The page on Wednesday 2024-01-10, before any check-in, with a
    leave form whose dates are out of order. *)
Definition page : Page :=
  {| EmployeePage.tables := tables;
     todayAttendance := None;
     todaySchedule := Some (defaultDay 3 true);
     loading := false;
     checkingIn := false;
     isLeaveDialogOpen := true;
     leaveLoading := false;
     leaveForm := {| start_date := "2024-01-12"; end_date := "2024-01-10";
                     reason := EmptyString |};
     toasts := [] |}.

Definition noFaults : Faults :=
  {| gpsInsertFails := None; checkInFails := None; checkOutFails := None;
     todaySelectFails := false; scheduleSelectFails := false;
     leaveInsertFails := None; rolesSelectFails := false;
     profileSelectFails := false; notifyInsertFails := None |}.

Definition checkInRefused : Faults :=
  {| gpsInsertFails := None; checkInFails := Some Sample.serviceError;
     checkOutFails := None;
     todaySelectFails := false; scheduleSelectFails := false;
     leaveInsertFails := None; rolesSelectFails := false;
     profileSelectFails := false; notifyInsertFails := None |}.

(** A browser in India (UTC+5:30) at 2024-01-10T04:11:00Z, which is
    09:41 local time; the database's session is in UTC. *)
Definition env (who newKey : string) (f : Faults) : Env :=
  {| tz := fixedZone 19800000;
     now := 1704859860000;
     later := 1704859861000;
     serverNow := 1704859860250;
     serverOffset := 0;
     user := Some who;
     geolocation := Some None;
     newId := newKey;
     faults := f |}.

(** The row of an earlier check-in of the day. *)
Definition earlier : Attendance :=
  {| ar_id := "row-0";
     ar_row := {| at_user_id := "emp-1"; at_check_in := 1704855600000;
                  at_check_out := None; at_status := "present";
                  at_notes := Some EmptyString |} |}.

(** The page once that row is loaded. *)
Definition checkedIn (who : string) : Page :=
  {| EmployeePage.tables :=
       {| tb_attendance := [{| ar_id := "row-0";
                               ar_row := {| at_user_id := who;
                                            at_check_in := 1704855600000;
                                            at_check_out := None;
                                            at_status := "present";
                                            at_notes := Some EmptyString |} |}];
          tb_gps_logs := [];
          tb_leave_requests := [];
          tb_user_roles := roles;
          tb_notifications := [];
          tb_profiles := [];
          tb_attendance_schedule := seededSchedule |};
     todayAttendance := Some {| ar_id := "row-0";
                                ar_row := {| at_user_id := who;
                                             at_check_in := 1704855600000;
                                             at_check_out := None;
                                             at_status := "present";
                                             at_notes := Some EmptyString |} |};
     todaySchedule := Some (defaultDay 3 true);
     loading := false;
     checkingIn := false;
     isLeaveDialogOpen := false;
     leaveLoading := false;
     leaveForm := emptyForm;
     toasts := [] |}.

End EmployeeSample.

(** ** The admin's page of the attendance schedule

    The page belongs to the admin area: the signed-in user is an
    admin, whom the policies of [attendance_schedule] let update
    every row. *)

Module SchedulePage.

Import Supabase EmployeeDashboard Handler.

(** A row of [attendance_schedule] with its primary key. *)
Record ScheduleRow : Type := {
  sr_id : string;
  sr_day : ScheduleDay
}.

(** The fate of the update sent for a day, for whatever reason, and
    the text that a [TIME] column gives back for a text it accepted. *)
Record Env : Type := {
  updateFails : ScheduleRow -> option Exn;
  timeColumn : string -> string
}.

(** The table together with the state of the page. *)
Record Page : Type := {
  table : list ScheduleRow;
  schedule : list ScheduleRow;
  saving : bool;
  toasts : list LeaveRequests.Toast
}.

Definition M (A : Type) : Type := Handler.M Page A.

(** The calls [handleScheduleChange(day.day_of_week, field, value)]
    that the page makes: the field with its new value. *)
Inductive Change : Type :=
| SetCheckInStart (value : string)
| SetCheckInEnd (value : string)
| SetCheckOutStart (value : string)
| SetCheckOutEnd (value : string)
| SetIsWorkingDay (value : bool).

(** [{ ...day, [field]: value }]. *)
Definition withField (c : Change) (day : ScheduleRow) : ScheduleRow :=
  let d := sr_day day in
  {| sr_id := sr_id day;
     sr_day :=
       {| day_of_week := day_of_week d;
          check_in_start := match c with
                            | SetCheckInStart v => v
                            | _ => check_in_start d
                            end;
          check_in_end := match c with
                          | SetCheckInEnd v => v
                          | _ => check_in_end d
                          end;
          check_out_start := match c with
                             | SetCheckOutStart v => v
                             | _ => check_out_start d
                             end;
          check_out_end := match c with
                           | SetCheckOutEnd v => v
                           | _ => check_out_end d
                           end;
          is_working_day := match c with
                            | SetIsWorkingDay v => v
                            | _ => is_working_day d
                            end |} |}.

(** [handleScheduleChange(dayIndex, field, value)]. *)
Definition handleScheduleChange (dayIndex : Z) (c : Change) : M unit :=
  fun pg =>
    (inl tt,
     {| table := table pg;
        schedule := map (fun day =>
                           if day_of_week (sr_day day) =? dayIndex
                           then withField c day else day) (schedule pg);
        saving := saving pg;
        toasts := toasts pg |}).

(** The row [r] after the update sent for [day]. *)
Definition stored (env : Env) (day r : ScheduleRow) : ScheduleRow :=
  {| sr_id := sr_id r;
     sr_day :=
       {| day_of_week := day_of_week (sr_day r);
          check_in_start := timeColumn env (check_in_start (sr_day day));
          check_in_end := timeColumn env (check_in_end (sr_day day));
          check_out_start := timeColumn env (check_out_start (sr_day day));
          check_out_end := timeColumn env (check_out_end (sr_day day));
          is_working_day := is_working_day (sr_day day) |} |}.

(** [from("attendance_schedule").update({check_in_start, check_in_end,
    check_out_start, check_out_end, is_working_day}).eq("id",
    day.id)]. *)
Definition updateDay (env : Env) (day : ScheduleRow) (tb : list ScheduleRow)
  : option Exn * list ScheduleRow :=
  match updateFails env day with
  | Some e => (Some e, tb)
  | None =>
      (None,
       map (fun r => if String.eqb (sr_id r) (sr_id day)
                     then stored env day r else r) tb)
  end.

Definition call (op : list ScheduleRow -> option Exn * list ScheduleRow)
  : M (option Exn) :=
  fun pg =>
    let '(err, tb) := op (table pg) in
    (inl err, {| table := tb; schedule := schedule pg;
                 saving := saving pg; toasts := toasts pg |}).

Definition setSaving (x : bool) : M unit :=
  fun pg => (inl tt, {| table := table pg; schedule := schedule pg;
                        saving := x; toasts := toasts pg |}).

Definition toast (t : LeaveRequests.Toast) : M unit :=
  fun pg => (inl tt, {| table := table pg; schedule := schedule pg;
                        saving := saving pg;
                        toasts := (toasts pg ++ [t])%list |}).

(** [for (const day of schedule) { update; if (error) throw error }]. *)
Fixpoint saveDays (env : Env) (days : list ScheduleRow) : M unit :=
  match days with
  | [] => ret tt
  | day :: rest =>
      error <- call (updateDay env day) ;;
      throwIf error ;;;
      saveDays env rest
  end.

Definition savedToast : LeaveRequests.Toast :=
  {| LeaveRequests.title := "Schedule saved";
     LeaveRequests.description :=
       "Attendance schedule has been updated successfully.";
     LeaveRequests.destructive := false |}.

Definition saveErrorToast (error : Exn) : LeaveRequests.Toast :=
  {| LeaveRequests.title := "Error";
     LeaveRequests.description :=
       JS.strOr (Some (message error)) "Failed to save schedule";
     LeaveRequests.destructive := true |}.

(** [handleSave()]. *)
Definition handleSave (env : Env) : M unit :=
  fun pg =>
    (setSaving true ;;;
     tryCatchFinally
       (saveDays env (schedule pg) ;;; toast savedToast)
       (fun error => toast (saveErrorToast error))
       (setSaving false)) pg.

(** *** Notions used to state the properties *)

(** The table after the updates sent for [days], in that order. *)
Definition afterUpdates (env : Env) (days tb : list ScheduleRow)
  : list ScheduleRow :=
  fold_left (fun t day =>
               map (fun r => if String.eqb (sr_id r) (sr_id day)
                             then stored env day r else r) t) days tb.

(** The text HH:MM of a time input. *)
Definition hourMinute (h m : Z) : string :=
  (JSDate.pad 2 h ++ ":" ++ JSDate.pad 2 m)%string.

End SchedulePage.

(** ** Sample data of the schedule page *)

Module ScheduleSample.

Import Supabase EmployeeDashboard SchedulePage.

(** The seeded schedule with keys. *)
Definition rows : list ScheduleRow :=
  [{| sr_id := "day-0"; sr_day := defaultDay 0 false |};
   {| sr_id := "day-1"; sr_day := defaultDay 1 true |};
   {| sr_id := "day-2"; sr_day := defaultDay 2 true |};
   {| sr_id := "day-3"; sr_day := defaultDay 3 true |};
   {| sr_id := "day-4"; sr_day := defaultDay 4 true |};
   {| sr_id := "day-5"; sr_day := defaultDay 5 true |};
   {| sr_id := "day-6"; sr_day := defaultDay 6 false |}].

Definition page : Page :=
  {| table := rows; schedule := rows; saving := false; toasts := [] |}.

(** A column that completes HH:MM with seconds and gives back longer
    texts as they are. *)
Definition withSeconds (v : string) : string :=
  if (String.length v =? 5)%nat then (v ++ ":00")%string else v.

Definition accepting : Env :=
  {| updateFails := fun _ => None; timeColumn := withSeconds |}.

(** The service refuses the update of Wednesday's row. *)
Definition refusingWednesday : Env :=
  {| updateFails := fun d => if day_of_week (sr_day d) =? 3
                             then Some Sample.serviceError else None;
     timeColumn := withSeconds |}.

End ScheduleSample.

Module NoticeDates.

Import JSDate.

(** The text "MMM d" of the UTC calendar day of [t]. *)
Definition dayName (t : Z) : string :=
  (monthShort (MonthFromTime t) ++ " " ++ decimal (DateFromTime t))%string.

(** The day that a browser at the fixed offset [off] shows for the
    UTC midnight [t]: the day before when it is west of UTC. *)
Definition shownDay (off t : Z) : Z :=
  if off <? 0 then t - msPerDay else t.

End NoticeDates.

(** ** The admin's attendance page: the list shown *)

Module AttendanceList.

(** The profile attached to a record when its lookup succeeded. *)
Record UserInfo : Type := {
  full_name : string;
  avatar_url : option string;
  department : option string
}.

Record AttendanceRecord : Type := {
  id : string;
  user_id : string;
  check_in : string;
  check_out : option string;
  status : string;
  notes : option string;
  user : option UserInfo
}.

(** [s.includes(q)]. *)
Fixpoint includes (s q : string) : bool :=
  if String.prefix q s then true
  else
    match s with
    | EmptyString => false
    | String _ r => includes r q
    end.

(** [a || b] and the truth of a value that may be [undefined]. *)
Definition orUndefined (a b : option bool) : option bool :=
  match a with
  | Some true => a
  | _ => b
  end.

Definition truthy (a : option bool) : bool :=
  match a with
  | Some true => true
  | _ => false
  end.

(** [filteredRecords]; [toLowerCase] is the lower-casing of the
    language. *)
Definition filteredRecords (toLowerCase : string -> string)
    (searchQuery statusFilter : string) (records : list AttendanceRecord)
  : list AttendanceRecord :=
  filter
    (fun record =>
       let matchesSearch :=
         orUndefined
           (option_map (fun u => includes (toLowerCase (full_name u))
                                          (toLowerCase searchQuery))
                       (user record))
           (match user record with
            | Some u =>
                option_map (fun d => includes (toLowerCase d)
                                              (toLowerCase searchQuery))
                           (department u)
            | None => None
            end) in
       let matchesStatus :=
         String.eqb statusFilter "all"
         || String.eqb (status record) statusFilter in
       truthy matchesSearch && matchesStatus)
    records.

(** Whether the profile of a record was found. *)
Definition hasUser (record : AttendanceRecord) : bool :=
  match user record with
  | Some _ => true
  | None => false
  end.

End AttendanceList.

(** ** Identifiers of type uuid

    Every [id] and [user_id] column of the migrations has the type
    [uuid].  The database reads a text given for such a column with
    the input function of the type, compares the sixteen bytes read,
    and prints a value in one form: lower-case digits in groups of 8,
    4, 4, 4 and 12. *)

Module Uuid.

Definition isHexDigit (c : ascii) : bool :=
  match JS.digitValue 16 c with
  | Some _ => true
  | None => false
  end.

Definition lower (c : ascii) : ascii :=
  let n := JS.code c in
  if (65 <=? n) && (n <=? 70) then ascii_of_nat (Z.to_nat (n + 32)) else c.

(** Reads [n] bytes, the next one having the index [i]: two
    hexadecimal digits each, in either case; one hyphen is passed over
    after a byte of odd index that is not the last.  The result is the
    digits in lower case and the text that follows. *)
Fixpoint readBytes (n i : nat) (src : string) : option (string * string) :=
  match n with
  | O => Some (EmptyString, src)
  | S n' =>
      match src with
      | String a (String b r) =>
          if isHexDigit a && isHexDigit b then
            let r' :=
              match r with
              | String "-" r'' => if Nat.odd i && (0 <? n')%nat then r'' else r
              | _ => r
              end in
            match readBytes n' (S i) r' with
            | Some (hex, rest) =>
                Some (String (lower a) (String (lower b) hex), rest)
            | None => None
            end
          else None
      | _ => None
      end
  end.

(** The printed form of the value with the 32 digits [hex]. *)
Definition write (hex : string) : string :=
  (substring 0 8 hex ++ "-" ++ substring 8 4 hex ++ "-" ++ substring 12 4 hex
   ++ "-" ++ substring 16 4 hex ++ "-" ++ substring 20 12 hex)%string.

(** The input function: an opening brace or none, the sixteen bytes,
    the closing brace if there was an opening one, and nothing more.
    The result is the value read, in its printed form; [None] stands
    for the error "invalid input syntax for type uuid". *)
Definition read (s : string) : option string :=
  let '(braces, src) :=
    match s with
    | String "{" r => (true, r)
    | _ => (false, s)
    end in
  match readBytes 16 0 src with
  | Some (hex, rest) =>
      if String.eqb rest (if braces then "}" else EmptyString)
      then Some (write hex) else None
  | None => None
  end.

(** Whether the column value printed as [x] is the value that the
    text [q] denotes. *)
Definition same (x q : string) : bool :=
  match read x, read q with
  | Some a, Some b => String.eqb a b
  | _, _ => false
  end.

End Uuid.

(** ** The edge function that creates and deletes users

    It works with the service role, which no policy restricts. *)

Module ManageUser.

Import Supabase Policies EmployeeDashboard EmployeePage.

(** A row of [tasks]: its key and the two users it refers to. *)
Record Task : Type := {
  tk_id : string;
  tk_assigned_to : option string;
  tk_assigned_by : option string
}.

(** The tables and the accounts of the authentication service
    ([auth.users], by id). *)
Record Backend : Type := {
  tables : Tables;
  tasks : list Task;
  user_settings : list string;
  users : list string
}.

(** The fields of the request's JSON body. *)
Record Payload : Type := {
  action : option string;
  email : option string;
  password : option string;
  full_name : option string;
  department : option string;
  title : option string;
  user_id : option string
}.

(** A request: its method, its [Authorization] header, and its body
    as the destructuring of [await req.json()] reads it ([inl] for the
    message of the error thrown). *)
Record Request : Type := {
  method : string;
  authorization : option string;
  json : string + Payload
}.

Inductive Body : Type :=
| Text (text : string)
| Error (error : string)
| ErrorDetails (error details : string)
| CreatedUser (user : option string)
| Success.

Record Response : Type := {
  status : Z;
  body : Body
}.

(** The statements of the purge, in order. *)
Inductive Step : Type :=
| DeleteNotifications
| DeleteGpsLogs
| DeleteAttendance
| DeleteLeaveRequests
| UnassignTasks
| DeleteUserSettings
| DeleteUserRoles
| DeleteProfile.

(** What the function depends on: [getUser] gives the caller's id for
    an authorization it accepts; [createUser] is the admin API
    together with the signup trigger; requests may fail.
    [deleteAccount] is the answer of the account service to
    [auth.admin.deleteUser(id)] for the text [id]: an error, or the
    id, as the database prints it, of the account that it has
    deleted. *)
Record Env : Type := {
  getUser : string -> option string;
  roleSelectFails : bool;
  createUser : Payload -> Backend -> Exn + (option string * Backend);
  profileUpdateFails : bool;
  stepFails : Step -> bool;
  deleteAccount : string -> Exn + string
}.

(** A falsy string field. *)
Definition missing (x : option string) : bool :=
  match x with
  | None | Some EmptyString => true
  | Some _ => false
  end.

Definition isText (x : option string) (v : string) : bool :=
  match x with
  | Some s => String.eqb s v
  | None => false
  end.

Definition withTables (tb : Tables) (b : Backend) : Backend :=
  {| tables := tb; tasks := tasks b; user_settings := user_settings b;
     users := users b |}.

(** Whether the column value [x] is another user than the one that
    the text [uid] denotes, as [.eq(column, uid)] compares them.  When
    [uid] is not the text of a uuid every value is: the database then
    refuses the statement, which touches no row. *)
Definition other (uid : string) (x : string) : bool := negb (Uuid.same x uid).

Definition otherOpt (uid : string) (x : option string) : option string :=
  match x with
  | Some s => if Uuid.same s uid then None else x
  | None => None
  end.

(** The effect of one statement of the purge for the user [uid]. *)
Definition purge (st : Step) (uid : string) (b : Backend) : Backend :=
  let tb := tables b in
  match st with
  | DeleteNotifications =>
      withTables
        {| tb_attendance := tb_attendance tb;
           tb_gps_logs := tb_gps_logs tb;
           tb_leave_requests := tb_leave_requests tb;
           tb_user_roles := tb_user_roles tb;
           tb_notifications :=
             filter (fun n => other uid (nt_user_id n)) (tb_notifications tb);
           tb_profiles := tb_profiles tb;
           tb_attendance_schedule := tb_attendance_schedule tb |} b
  | DeleteGpsLogs =>
      withTables
        {| tb_attendance := tb_attendance tb;
           tb_gps_logs :=
             filter (fun g => other uid (gl_user_id g)) (tb_gps_logs tb);
           tb_leave_requests := tb_leave_requests tb;
           tb_user_roles := tb_user_roles tb;
           tb_notifications := tb_notifications tb;
           tb_profiles := tb_profiles tb;
           tb_attendance_schedule := tb_attendance_schedule tb |} b
  | DeleteAttendance =>
      withTables
        {| tb_attendance :=
             filter (fun a => other uid (at_user_id (ar_row a)))
                    (tb_attendance tb);
           tb_gps_logs := tb_gps_logs tb;
           tb_leave_requests := tb_leave_requests tb;
           tb_user_roles := tb_user_roles tb;
           tb_notifications := tb_notifications tb;
           tb_profiles := tb_profiles tb;
           tb_attendance_schedule := tb_attendance_schedule tb |} b
  | DeleteLeaveRequests =>
      withTables
        {| tb_attendance := tb_attendance tb;
           tb_gps_logs := tb_gps_logs tb;
           tb_leave_requests :=
             filter (fun l => other uid (lr_user_id l)) (tb_leave_requests tb);
           tb_user_roles := tb_user_roles tb;
           tb_notifications := tb_notifications tb;
           tb_profiles := tb_profiles tb;
           tb_attendance_schedule := tb_attendance_schedule tb |} b
  | UnassignTasks =>
      {| tables := tb;
         tasks := map (fun t => {| tk_id := tk_id t;
                                   tk_assigned_to := otherOpt uid (tk_assigned_to t);
                                   tk_assigned_by := tk_assigned_by t |})
                      (tasks b);
         user_settings := user_settings b;
         users := users b |}
  | DeleteUserSettings =>
      {| tables := tb; tasks := tasks b;
         user_settings := filter (other uid) (user_settings b);
         users := users b |}
  | DeleteUserRoles =>
      withTables
        {| tb_attendance := tb_attendance tb;
           tb_gps_logs := tb_gps_logs tb;
           tb_leave_requests := tb_leave_requests tb;
           tb_user_roles :=
             filter (fun r => other uid (ur_user_id r)) (tb_user_roles tb);
           tb_notifications := tb_notifications tb;
           tb_profiles := tb_profiles tb;
           tb_attendance_schedule := tb_attendance_schedule tb |} b
  | DeleteProfile =>
      withTables
        {| tb_attendance := tb_attendance tb;
           tb_gps_logs := tb_gps_logs tb;
           tb_leave_requests := tb_leave_requests tb;
           tb_user_roles := tb_user_roles tb;
           tb_notifications := tb_notifications tb;
           tb_profiles := filter (fun p => other uid (pr_id p)) (tb_profiles tb);
           tb_attendance_schedule := tb_attendance_schedule tb |} b
  end.

(** One awaited statement whose result is not read. *)
Definition run (env : Env) (st : Step) (uid : string) (b : Backend) : Backend :=
  if stepFails env st then b else purge st uid b.

(** The deletion of the account [account]: the account goes, and with
    it the rows that refer to it with [ON DELETE CASCADE]; tasks that
    refer to it with [ON DELETE SET NULL] lose the reference. *)
Definition cascade (account : string) (b : Backend) : Backend :=
  let b1 := purge DeleteProfile account
              (purge DeleteUserRoles account
                 (purge DeleteAttendance account
                    (purge DeleteGpsLogs account
                       (purge DeleteNotifications account
                          (purge DeleteUserSettings account b))))) in
  {| tables := tables b1;
     tasks := map (fun t => {| tk_id := tk_id t;
                               tk_assigned_to := otherOpt account (tk_assigned_to t);
                               tk_assigned_by := otherOpt account (tk_assigned_by t) |})
                  (tasks b1);
     user_settings := user_settings b1;
     users := filter (other account) (users b1) |}.

(** [auth.admin.deleteUser(uid)]. *)
Definition deleteUser (env : Env) (uid : string) (b : Backend)
  : option Exn * Backend :=
  match deleteAccount env uid with
  | inl e => (Some e, b)
  | inr account => (None, cascade account b)
  end.

(** [from("profiles").update({full_name, department, title})
    .eq("id", id)], on the columns kept here. *)
Definition updateProfile (env : Env) (id name : string) (b : Backend) : Backend :=
  if profileUpdateFails env then b
  else
    let tb := tables b in
    withTables
      {| tb_attendance := tb_attendance tb;
         tb_gps_logs := tb_gps_logs tb;
         tb_leave_requests := tb_leave_requests tb;
         tb_user_roles := tb_user_roles tb;
         tb_notifications := tb_notifications tb;
         tb_profiles :=
           map (fun p => if String.eqb (pr_id p) id
                         then {| pr_id := pr_id p; pr_full_name := name;
                                 pr_is_active := pr_is_active p |}
                         else p) (tb_profiles tb);
         tb_attendance_schedule := tb_attendance_schedule tb |} b.

Definition respond (code : Z) (b : Body) : Response :=
  {| status := code; body := b |}.

(** The role that the function reads for the caller, whose id the
    account service gives in the form in which the column prints
    it. *)
Definition roleData (env : Env) (caller : string) (b : Backend) : option RoleRow :=
  if roleSelectFails env then None
  else single (filter (fun r => String.eqb (ur_user_id r) caller)
                      (tb_user_roles (tables b))).

(** The handler given to [Deno.serve]. *)
Definition serve (env : Env) (req : Request) (b : Backend) : Response * Backend :=
  if String.eqb (method req) "OPTIONS" then (respond 200 (Text "ok"), b)
  else if missing (authorization req)
  then (respond 401 (Error "Missing authorization"), b)
  else
    match getUser env (JS.strOr (authorization req) EmptyString) with
    | None => (respond 401 (Error "Unauthorized"), b)
    | Some caller =>
        if negb (match roleData env caller b with
                 | Some r => String.eqb (ur_role r) "admin"
                 | None => false
                 end)
        then (respond 403 (Error "Admin access required"), b)
        else
          match json req with
          | inl errorMessage =>
              (respond 500 (ErrorDetails errorMessage "Check server logs"), b)
          | inr payload =>
              if isText (action payload) "create" then
                if missing (email payload) || missing (password payload)
                   || missing (full_name payload)
                then (respond 400
                        (Error "Email, password, and full_name are required"), b)
                else
                  match createUser env payload b with
                  | inl createError => (respond 400 (Error (message createError)), b)
                  | inr (newUser, b1) =>
                      (respond 200 (CreatedUser newUser),
                       match newUser with
                       | Some id =>
                           updateProfile env id
                             (JS.strOr (full_name payload) EmptyString) b1
                       | None => b1
                       end)
                  end
              else if isText (action payload) "delete" then
                if missing (user_id payload)
                then (respond 400 (Error "user_id is required"), b)
                else
                  let uid := JS.strOr (user_id payload) EmptyString in
                  if String.eqb uid caller
                  then (respond 400 (Error "Cannot delete your own account"), b)
                  else
                    let b8 :=
                      run env DeleteProfile uid
                        (run env DeleteUserRoles uid
                           (run env DeleteUserSettings uid
                              (run env UnassignTasks uid
                                 (run env DeleteLeaveRequests uid
                                    (run env DeleteAttendance uid
                                       (run env DeleteGpsLogs uid
                                          (run env DeleteNotifications uid b)))))))
                    in
                    match deleteUser env uid b8 with
                    | (Some deleteError, b9) =>
                        (respond 400 (Error (message deleteError)), b9)
                    | (None, b9) => (respond 200 Success, b9)
                    end
              else (respond 400
                      (Error "Invalid action. Use 'create' or 'delete'"), b)
          end
    end.

(** *** Notions used to state the properties *)

(** No row of the tables refers to the user that the text [uid]
    denotes and no task is assigned to that user. *)
Definition forgotten (uid : string) (b : Backend) : Prop :=
  (forall a, In a (tb_attendance (tables b)) ->
             Uuid.same (at_user_id (ar_row a)) uid = false)
  /\ (forall g, In g (tb_gps_logs (tables b)) -> Uuid.same (gl_user_id g) uid = false)
  /\ (forall l, In l (tb_leave_requests (tables b)) ->
                Uuid.same (lr_user_id l) uid = false)
  /\ (forall r, In r (tb_user_roles (tables b)) -> Uuid.same (ur_user_id r) uid = false)
  /\ (forall n, In n (tb_notifications (tables b)) ->
                Uuid.same (nt_user_id n) uid = false)
  /\ (forall p, In p (tb_profiles (tables b)) -> Uuid.same (pr_id p) uid = false)
  /\ (forall s, In s (user_settings b) -> Uuid.same s uid = false)
  /\ (forall t x, In t (tasks b) -> tk_assigned_to t = Some x ->
                  Uuid.same x uid = false).

(** The rows that refer to other users than the one that [uid]
    denotes are those of [b]. *)
Definition othersKept (uid : string) (b b' : Backend) : Prop :=
  tb_attendance (tables b')
  = filter (fun a => other uid (at_user_id (ar_row a))) (tb_attendance (tables b))
  /\ tb_gps_logs (tables b')
     = filter (fun g => other uid (gl_user_id g)) (tb_gps_logs (tables b))
  /\ tb_leave_requests (tables b')
     = filter (fun l => other uid (lr_user_id l)) (tb_leave_requests (tables b))
  /\ tb_user_roles (tables b')
     = filter (fun r => other uid (ur_user_id r)) (tb_user_roles (tables b))
  /\ tb_notifications (tables b')
     = filter (fun n => other uid (nt_user_id n)) (tb_notifications (tables b))
  /\ tb_profiles (tables b')
     = filter (fun p => other uid (pr_id p)) (tb_profiles (tables b))
  /\ tb_attendance_schedule (tables b') = tb_attendance_schedule (tables b)
  /\ user_settings b' = filter (other uid) (user_settings b)
  /\ map tk_id (tasks b') = map tk_id (tasks b).

End ManageUser.

(** ** Sample data of the attendance list and of the edge function *)

Module AdminSample.

Import Supabase Policies EmployeeDashboard EmployeePage AttendanceList ManageUser.

Definition listed (key : string) (st : string) (u : option UserInfo)
  : AttendanceRecord :=
  {| AttendanceList.id := key; AttendanceList.user_id := "emp-1";
     AttendanceList.check_in := "2024-01-10T04:11:00+00:00";
     AttendanceList.check_out := None;
     AttendanceList.status := st; AttendanceList.notes := None;
     AttendanceList.user := u |}.

Definition dana : UserInfo :=
  {| AttendanceList.full_name := "Dana"; AttendanceList.avatar_url := None;
     AttendanceList.department := Some "Sales" |}.

Definition records : list AttendanceRecord :=
  [listed "a-1" "present" (Some dana); listed "a-2" "late" None;
   listed "a-3" "late" (Some dana)].

(** Two admins, one of whom also holds the employee role, and an
    employee with rows in every table. *)
Definition backend : Backend :=
  {| ManageUser.tables :=
       {| tb_attendance := [EmployeeSample.earlier];
          tb_gps_logs := [];
          tb_leave_requests := [Sample.row "2024-01-10" "2024-01-12" "pending"];
          tb_user_roles :=
            [{| ur_user_id := "emp-1"; ur_role := "employee" |};
             {| ur_user_id := "admin-1"; ur_role := "admin" |};
             {| ur_user_id := "admin-2"; ur_role := "admin" |};
             {| ur_user_id := "admin-2"; ur_role := "employee" |}];
          tb_notifications := [];
          tb_profiles := [{| pr_id := "emp-1"; pr_full_name := "Dana";
                             pr_is_active := true |};
                          {| pr_id := "admin-1"; pr_full_name := "Ada";
                             pr_is_active := true |}];
          tb_attendance_schedule := EmployeeSample.seededSchedule |};
     tasks := [{| tk_id := "task-1"; tk_assigned_to := Some "emp-1";
                  tk_assigned_by := Some "admin-1" |}];
     user_settings := ["emp-1"; "admin-1"; "admin-2"];
     users := ["emp-1"; "admin-1"; "admin-2"] |}.

(** The authorization of each user is its id; the account service
    refuses the deletion when [refusal] is set, and otherwise deletes
    the account that the id denotes, when it denotes one. *)
Definition service (refusal : option Exn) : ManageUser.Env :=
  {| getUser := fun header => Some header;
     roleSelectFails := false;
     createUser := fun _ _ => inl Sample.serviceError;
     profileUpdateFails := false;
     stepFails := fun _ => false;
     deleteAccount := fun id =>
       match refusal, Uuid.read id with
       | Some e, _ => inl e
       | None, Some account => inr account
       | None, None => inl {| message := "User not found"; isError := false |}
       end |}.

Definition ada : string := "a0eebc99-9c0b-4ef8-bb6d-6bb9bd380a11".
Definition bo : string := "7c9e6679-7425-40de-944b-e07fc1f90ae7".
Definition dan : string := "3f2b8c1e-5d4a-4e6f-9a7b-0c1d2e3f4a5b".

(** The admin [ada], the admin [bo] and the employee [dan], each with
    rows of their own. *)
Definition registry : Backend :=
  {| ManageUser.tables :=
       {| tb_attendance :=
            [{| ar_id := "0b0e7b54-0000-4000-8000-000000000001";
                ar_row := {| at_user_id := dan; at_check_in := 1704859860000;
                             at_check_out := None; at_status := "present";
                             at_notes := None |} |};
             {| ar_id := "0b0e7b54-0000-4000-8000-000000000002";
                ar_row := {| at_user_id := ada; at_check_in := 1704859920000;
                             at_check_out := None; at_status := "present";
                             at_notes := None |} |}];
          tb_gps_logs := [];
          tb_leave_requests :=
            [{| lr_id := "0b0e7b54-0000-4000-8000-000000000003";
                lr_user_id := dan;
                lr_start_date := "2024-01-10"; lr_end_date := "2024-01-12";
                lr_reason := None; lr_status := "pending";
                lr_approved_by := None; lr_approved_at := None |}];
          tb_user_roles :=
            [{| ur_user_id := dan; ur_role := "employee" |};
             {| ur_user_id := ada; ur_role := "admin" |};
             {| ur_user_id := bo; ur_role := "admin" |}];
          tb_notifications := [];
          tb_profiles := [{| pr_id := dan; pr_full_name := "Dana";
                             pr_is_active := true |};
                          {| pr_id := ada; pr_full_name := "Ada";
                             pr_is_active := true |};
                          {| pr_id := bo; pr_full_name := "Bo";
                             pr_is_active := true |}];
          tb_attendance_schedule := EmployeeSample.seededSchedule |};
     tasks := [{| tk_id := "0b0e7b54-0000-4000-8000-000000000004";
                  tk_assigned_to := Some dan; tk_assigned_by := Some ada |}];
     user_settings := [dan; ada; bo];
     users := [dan; ada; bo] |}.

(** [registry] without the rows and the account of [ada]. *)
Definition registryWithoutAda : Backend :=
  {| ManageUser.tables :=
       {| tb_attendance :=
            [{| ar_id := "0b0e7b54-0000-4000-8000-000000000001";
                ar_row := {| at_user_id := dan; at_check_in := 1704859860000;
                             at_check_out := None; at_status := "present";
                             at_notes := None |} |}];
          tb_gps_logs := [];
          tb_leave_requests :=
            [{| lr_id := "0b0e7b54-0000-4000-8000-000000000003";
                lr_user_id := dan;
                lr_start_date := "2024-01-10"; lr_end_date := "2024-01-12";
                lr_reason := None; lr_status := "pending";
                lr_approved_by := None; lr_approved_at := None |}];
          tb_user_roles :=
            [{| ur_user_id := dan; ur_role := "employee" |};
             {| ur_user_id := bo; ur_role := "admin" |}];
          tb_notifications := [];
          tb_profiles := [{| pr_id := dan; pr_full_name := "Dana";
                             pr_is_active := true |};
                          {| pr_id := bo; pr_full_name := "Bo";
                             pr_is_active := true |}];
          tb_attendance_schedule := EmployeeSample.seededSchedule |};
     tasks := [{| tk_id := "0b0e7b54-0000-4000-8000-000000000004";
                  tk_assigned_to := Some dan; tk_assigned_by := None |}];
     user_settings := [dan; bo];
     users := [dan; bo] |}.

(** The id of [ada] in upper case. *)
Definition adaInCapitals : string := "A0EEBC99-9C0B-4EF8-BB6D-6BB9BD380A11".

Definition deletion (caller target : string) : Request :=
  {| method := "POST";
     authorization := Some caller;
     json := inr {| action := Some "delete"; email := None; password := None;
                    ManageUser.full_name := None;
                    ManageUser.department := None; title := None;
                    ManageUser.user_id := Some target |} |}.

End AdminSample.

Module LeaveOnDashboard.

Import JSDate Supabase.

(** Whether a row is a leave row of the UTC day [day]. *)
Definition leaveOfDay (day : Z) (a : AttendanceRow) : bool :=
  AdminDashboard.isLeave (at_status a) && (Day (at_check_in a) =? day).

(** The UTC day whose midnight falls in the local day of the instant
    [t], for a browser at the fixed offset [off]: the next day when it
    is west of UTC. *)
Definition countedDay (off t : Z) : Z :=
  Day (LocalTime (fixedZone off) t) + (if off <? 0 then 1 else 0).

End LeaveOnDashboard.

(** * Properties *)

Example parse_example :
  JSDate.parse "2024-01-10" = Some 1704844800000
  /\ JSDate.toISOString (Some 1704844800000) = Some "2024-01-10T00:00:00.000Z"
  /\ JSDate.parse "2024-01-10T00:00:00.000Z" = Some 1704844800000
  /\ JSDate.format_MMM_d JSDate.easternUS2024 (Some 1704844800000) = Some "Jan 9"
  /\ JSDate.toISOString (Some (-1)) = Some "1969-12-31T23:59:59.999Z"
  /\ JSDate.toISOString (JSDate.parse "2000-02-29") = Some "2000-02-29T00:00:00.000Z"
  /\ JSDate.toISOString (JSDate.parse "1900-03-01") = Some "1900-03-01T00:00:00.000Z"
  /\ JSDate.toISOString (JSDate.parse "0001-01-01") = Some "0001-01-01T00:00:00.000Z"
  /\ JSDate.toISOString (JSDate.parse "9999-12-31") = Some "9999-12-31T00:00:00.000Z".
Proof. vm_compute. repeat split. Qed.

(** [parseInt] skips the white space that is not ASCII (U+00A0,
    U+FEFF, U+2028, U+3000) but not U+200B, which is no white space;
    it reads a sign and a hexadecimal prefix, stops at the first
    character that is no digit, and gives the nearest double, or an
    infinity, for a numeral beyond the exact integers. *)
Example parseInt_examples :
  JS.parseInt (String (ascii_of_nat 194) (String (ascii_of_nat 160) "9"))
  = JS.Finite 9
  /\ JS.parseInt (String (ascii_of_nat 239) (String (ascii_of_nat 187)
                    (String (ascii_of_nat 191) " 12")))
     = JS.Finite 12
  /\ JS.parseInt (String (ascii_of_nat 226) (String (ascii_of_nat 128)
                    (String (ascii_of_nat 168) "7")))
     = JS.Finite 7
  /\ JS.parseInt (String (ascii_of_nat 227) (String (ascii_of_nat 128)
                    (String (ascii_of_nat 128) "30")))
     = JS.Finite 30
  /\ JS.parseInt (String (ascii_of_nat 226) (String (ascii_of_nat 128)
                    (String (ascii_of_nat 139) "7")))
     = JS.NotANumber
  /\ JS.parseInt "  -0x1f" = JS.Finite (-31)
  /\ JS.parseInt "+09" = JS.Finite 9
  /\ JS.parseInt "9h" = JS.Finite 9
  /\ JS.parseInt "h9" = JS.NotANumber
  /\ JS.parseInt EmptyString = JS.NotANumber
  /\ JS.parseInt "0x" = JS.NotANumber
  /\ JS.parseInt "9007199254740993" = JS.Finite 9007199254740992
  /\ JS.parseInt ("1" ++ JSDate.zeros 308) = JS.Finite (JS.nearest53 (10 ^ 308))
  /\ JS.parseInt ("1" ++ JSDate.zeros 309) = JS.Infinity false
  /\ JS.parseInt ("-1" ++ JSDate.zeros 309) = JS.Infinity true
  /\ EmployeeDashboard.checkInEndMinutes
       (EmployeeDashboard.rowEndingAt
          ("-1" ++ JSDate.zeros 309 ++ ":1" ++ JSDate.zeros 309))
     = JS.NotANumber
  /\ EmployeeDashboard.checkInEndMinutes
       (EmployeeDashboard.rowEndingAt
          (String (ascii_of_nat 194) (String (ascii_of_nat 160) "9:30:00")))
     = JS.Finite 570.
Proof. repeat split; vm_compute; reflexivity. Qed.

(** At the edges of the exact integers, at ties, and at the edge of
    the finite doubles, [JS.double] gives the number of the standard
    library's binary64 conversion. *)
Example double_agrees_with_binary64 :
  forallb Float64.doubleAgreesWithSpec
    [0; 1; -1; 570; 2 ^ 53 - 1; 2 ^ 53; 2 ^ 53 + 1; 2 ^ 53 + 2; 2 ^ 53 + 3;
     - (2 ^ 53 + 1); - (2 ^ 53 + 3); 3 * 2 ^ 53 + 5; 2 ^ 54 + 2; 2 ^ 54 + 6;
     10 ^ 22; 10 ^ 23; - 10 ^ 23; 123456789012345678901234567890;
     10 ^ 308; 2 ^ 1024 - 2 ^ 970 - 1; 2 ^ 1024 - 2 ^ 970; 2 ^ 1024 - 1;
     2 ^ 1024; - 2 ^ 1024; 10 ^ 400; - 10 ^ 400] = true.
Proof. vm_compute. reflexivity. Qed.

(** The timestamps of the service are read with their zone and with
    the milliseconds of their fraction; the form of [toISOString] is
    the timestamp with three digits of fraction and the zone [Z]. *)
Example parse_service_timestamps :
  JSDate.parse "2024-01-10T04:11:00+00:00" = Some 1704859860000
  /\ JSDate.parse "2024-01-10T04:11:00.25+00:00" = Some 1704859860250
  /\ JSDate.parse "2024-01-10T04:11:00.250999+00:00" = Some 1704859860250
  /\ JSDate.parse "2024-01-10T09:41:00.000123+05:30" = Some 1704859860000
  /\ JSDate.parse "2024-01-09T23:11:00-05:00" = Some 1704859860000
  /\ JSDate.parse "2024-01-10T04:11:00Z" = Some 1704859860000
  /\ JSDate.parse "2024-01-10T04:11Z" = Some 1704859860000
  /\ JSDate.parseTimestamp "2024-01-10T04:11:00.250Z"
     = JSDate.parse "2024-01-10T04:11:00.250Z"
  /\ JSDate.parse "2024-01-10T04:11:00.250Z" = Some 1704859860250
  /\ JSDate.parse "2024-01-10T04:11:00" = None
  /\ JSDate.parse "2024-01-10T04:11:00.+00:00" = None
  /\ JSDate.parse "2024-01-10T04:11:00+0000" = None
  /\ JSDate.parse "2024-01-10 04:11:00+00" = None
  /\ Duration.calculateDuration JSDate.parse "2024-01-10T04:11:00.25+00:00"
       (Some "2024-01-10T12:40:59+00:00") = "8h 29m".
Proof. repeat split; vm_compute; reflexivity. Qed.

(** ** The calendar functions *)

Section Calendar.

Import JSDate.

Lemma yearDown_spec (d : Z) (fuel : nat) :
  forall y,
    d < DayFromYear (y + 1) ->
    DayFromYear (y - Z.of_nat fuel) <= d ->
    DayFromYear (yearDown fuel d y) <= d < DayFromYear (yearDown fuel d y + 1).
Proof.
  induction fuel as [|k IH]; intros y Hhi Hlo.
  - cbn [yearDown]. replace (y - Z.of_nat 0) with y in Hlo by lia. lia.
  - cbn [yearDown].
    destruct (Z.leb_spec (DayFromYear y) d) as [Hle|Hgt]; [lia|].
    apply IH.
    + replace (y - 1 + 1) with y by lia. exact Hgt.
    + replace (y - 1 - Z.of_nat k) with (y - Z.of_nat (S k)) by lia. exact Hlo.
Qed.

(** [YearFromTime t] is the year whose first day is the latest one
    not after [t]. *)
Lemma YearFromTime_spec (t : Z) :
  TimeFromYear (YearFromTime t) <= t < TimeFromYear (YearFromTime t + 1).
Proof.
  assert (H : DayFromYear (YearFromTime t) <= Day t
              < DayFromYear (YearFromTime t + 1)).
  { unfold YearFromTime. apply yearDown_spec.
    - unfold DayFromYear. generalize (Day t). intros d.
      destruct (Z.leb_spec 0 d); Z.div_mod_to_equations; lia.
    - generalize (Day t). intros d.
      rewrite Z2Nat.id by (Z.div_mod_to_equations; lia).
      unfold DayFromYear.
      destruct (Z.leb_spec 0 d); Z.div_mod_to_equations; lia. }
  unfold TimeFromYear, Day in *.
  pose proof (Z.div_mod t msPerDay ltac:(discriminate)) as Hdm.
  pose proof (Z.mod_pos_bound t msPerDay eq_refl) as Hb.
  unfold msPerDay in *. lia.
Qed.

End Calendar.

(** ** Numbers *)

(** Below 2^53 every integer is a double: its Number value is the
    integer itself. *)
Lemma double_exact (x : Z) :
  Z.abs x < 2 ^ 53 -> JS.double x = JS.Finite x.
Proof.
  intros H. unfold JS.double, JS.nearest53.
  assert (Hk : Z.log2 (Z.abs x) - 52 <= 0).
  { destruct (Z.eq_dec (Z.abs x) 0) as [E|E]; [rewrite E; cbn; lia|].
    assert (Z.log2 (Z.abs x) < 53) by (apply Z.log2_lt_pow2; lia). lia. }
  destruct (Z.leb_spec (Z.log2 (Z.abs x) - 52) 0) as [_|Hn]; [|lia].
  assert (H1024 : 2 ^ 53 < 2 ^ 1024) by (apply Z.pow_lt_mono_r; lia).
  destruct (Z.ltb_spec (Z.abs x) (2 ^ 1024)) as [_|Hn]; [|lia].
  f_equal. destruct x; cbn; lia.
Qed.

(** ** The check-in classifier *)

Section Classifier.

Import JSDate EmployeeDashboard.

Variable tz : TimeZone.

Lemma currentMinutes_valid (t : Z) :
  currentMinutes tz (Some t) = Some (minutesSinceMidnight tz t).
Proof. reflexivity. Qed.

Lemma determineStatus_cases (s : ScheduleDay) (d : Date) :
  determineStatus tz (Some s) d = "late"
  \/ determineStatus tz (Some s) d = "present".
Proof.
  unfold determineStatus.
  destruct (JS.gt _ _); [left | right]; reflexivity.
Qed.

Lemma determineStatus_late (s : ScheduleDay) (t : Z) :
  determineStatus tz (Some s) (Some t) = "late" <->
  (exists e, checkInEndMinutes s = JS.Finite e /\ e < minutesSinceMidnight tz t)
  \/ checkInEndMinutes s = JS.Infinity true.
Proof.
  unfold determineStatus. rewrite currentMinutes_valid.
  destruct (checkInEndMinutes s) as [|[|]|e]; cbn [JS.toNumber JS.gt].
  - split; [discriminate | intros [[e' [He' _]]|H]; discriminate].
  - split; [intros _; now right | reflexivity].
  - split; [discriminate | intros [[e' [He' _]]|H]; discriminate].
  - destruct (Z.ltb_spec e (minutesSinceMidnight tz t)) as [Hlt|Hge]; split.
    + intros _. left. exists e. split; [reflexivity | exact Hlt].
    + reflexivity.
    + discriminate.
    + intros [[e' [He' Hlt]]|H]; [injection He' as <-; lia | discriminate].
Qed.

Lemma determineStatus_late_finite (s : ScheduleDay) (t e : Z) :
  checkInEndMinutes s = JS.Finite e ->
  determineStatus tz (Some s) (Some t) = "late" <-> e < minutesSinceMidnight tz t.
Proof.
  intros He. rewrite determineStatus_late, He. split.
  - intros [[e' [E Hlt]]|H]; [injection E as <-; exact Hlt | discriminate].
  - intros Hlt. left. exists e. split; [reflexivity | exact Hlt].
Qed.

Lemma checkInEndMinutes_ext (s1 s2 : ScheduleDay) :
  check_in_end s1 = check_in_end s2 ->
  checkInEndMinutes s1 = checkInEndMinutes s2.
Proof.
  intros H. unfold checkInEndMinutes, checkInEndParts. now rewrite H.
Qed.

Lemma readsClock_all :
  forallb (fun h =>
             forallb (fun m => forallb (fun sec => readsClock h m sec) (seq 0 60))
                     (seq 0 60))
          (seq 0 24) = true.
Proof. vm_compute. reflexivity. Qed.

(** Every time of day is read as its hour and minute. *)
Lemma checkInEndMinutes_timeOfDay (s : ScheduleDay) (h m sec : Z) :
  0 <= h < 24 -> 0 <= m < 60 -> 0 <= sec < 60 ->
  check_in_end s = timeOfDay h m sec ->
  checkInEndMinutes s = JS.Finite (h * 60 + m).
Proof.
  intros Hh Hm Hs He.
  pose proof readsClock_all as H.
  rewrite forallb_forall in H.
  specialize (H (Z.to_nat h) ltac:(apply in_seq; lia)).
  rewrite forallb_forall in H.
  specialize (H (Z.to_nat m) ltac:(apply in_seq; lia)).
  rewrite forallb_forall in H.
  specialize (H (Z.to_nat sec) ltac:(apply in_seq; lia)).
  unfold readsClock in H. rewrite !Z2Nat.id in H by lia.
  rewrite (checkInEndMinutes_ext s (rowEndingAt (timeOfDay h m sec))) by exact He.
  destruct (checkInEndMinutes (rowEndingAt (timeOfDay h m sec))) as [| |v];
    [discriminate | discriminate |].
  apply Z.eqb_eq in H. now subst v.
Qed.

(** A text that differs from each of the 86400 texts of a time of
    day is the text of none. *)
Lemma not_a_time_of_day (text : string) :
  forallb (fun h =>
             forallb (fun m =>
                        forallb (fun sec =>
                                   negb (String.eqb
                                           (timeOfDay (Z.of_nat h) (Z.of_nat m)
                                                      (Z.of_nat sec)) text))
                                (seq 0 60))
                     (seq 0 60))
          (seq 0 24) = true ->
  forall h m sec,
    0 <= h < 24 -> 0 <= m < 60 -> 0 <= sec < 60 -> timeOfDay h m sec <> text.
Proof.
  intros H h m sec Hh Hm Hs E.
  rewrite forallb_forall in H.
  specialize (H (Z.to_nat h) ltac:(apply in_seq; lia)).
  rewrite forallb_forall in H.
  specialize (H (Z.to_nat m) ltac:(apply in_seq; lia)).
  rewrite forallb_forall in H.
  specialize (H (Z.to_nat sec) ltac:(apply in_seq; lia)).
  rewrite !Z2Nat.id in H by lia.
  rewrite E, String.eqb_refl in H. discriminate H.
Qed.

Lemma checkInEndMinutes_0930 (s : ScheduleDay) :
  check_in_end s = "09:30:00" -> checkInEndMinutes s = JS.Finite 570.
Proof.
  intros H. unfold checkInEndMinutes, checkInEndParts. rewrite H. reflexivity.
Qed.

End Classifier.

(** C2.  With a schedule row at hand, the classifier answers "late"
    exactly when the minutes since local midnight of the check-in
    instant strictly exceed the minutes computed from [check_in_end],
    and "present" in every other case; those minutes are a number,
    or minus infinity, which every check-in exceeds.  For a time of
    day HH:MM:SS they are [60 HH + MM].  With [check_in_end] 09:30:00
    a check-in at 08:59 or at 09:30 is "present" and one at 09:31 is
    "late". *)
Theorem C2_late_iff_after_check_in_end :
  forall (tz : JSDate.TimeZone) (s : EmployeeDashboard.ScheduleDay) (t : Z),
    let status := EmployeeDashboard.determineStatus tz (Some s) (Some t) in
    (status = "late" <->
       (exists e, EmployeeDashboard.checkInEndMinutes s = JS.Finite e
                  /\ e < EmployeeDashboard.minutesSinceMidnight tz t)
       \/ EmployeeDashboard.checkInEndMinutes s = JS.Infinity true)
    /\ (status <> "late" -> status = "present")
    /\ (forall h m sec,
          0 <= h < 24 -> 0 <= m < 60 -> 0 <= sec < 60 ->
          EmployeeDashboard.check_in_end s = EmployeeDashboard.timeOfDay h m sec ->
          EmployeeDashboard.checkInEndMinutes s = JS.Finite (h * 60 + m)
          /\ (status = "late" <->
              h * 60 + m < EmployeeDashboard.minutesSinceMidnight tz t))
    /\ (EmployeeDashboard.check_in_end s = "09:30:00" ->
          (EmployeeDashboard.clock tz t = (8, 59) -> status = "present")
          /\ (EmployeeDashboard.clock tz t = (9, 30) -> status = "present")
          /\ (EmployeeDashboard.clock tz t = (9, 31) -> status = "late")).
Proof.
  intros tz s t status. split; [apply determineStatus_late|]. split; [|split].
  - intros Hn. destruct (determineStatus_cases tz s (Some t)) as [H|H];
      [contradiction | exact H].
  - intros h m sec Hh Hm Hs He.
    pose proof (checkInEndMinutes_timeOfDay s h m sec Hh Hm Hs He) as Hv.
    split; [exact Hv|].
    unfold status. apply determineStatus_late_finite. exact Hv.
  - intros Hend. pose proof (checkInEndMinutes_0930 s Hend) as He.
    assert (Hrun : forall h m, EmployeeDashboard.clock tz t = (h, m) ->
              status = if 570 <? h * 60 + m then "late" else "present").
    { intros h m Hc. unfold status, EmployeeDashboard.determineStatus.
      rewrite currentMinutes_valid, He.
      unfold EmployeeDashboard.minutesSinceMidnight. rewrite Hc. reflexivity. }
    repeat split; intros Hc; rewrite (Hrun _ _ Hc); reflexivity.
Qed.

Lemma C2_late_iff_after_check_in_end_witness :
  EmployeeDashboard.check_in_end (EmployeeDashboard.defaultDay 3 true) = "09:30:00"
  /\ EmployeeDashboard.clock JSDate.utcZone 1704879060000 = (9, 31)
  /\ EmployeeDashboard.determineStatus JSDate.utcZone
       (Some (EmployeeDashboard.defaultDay 3 true)) (Some 1704879060000) = "late".
Proof.
  split; [reflexivity|]. split; [reflexivity|].
  exact (proj2 (proj2 (proj2 (proj2 (proj2
           (C2_late_iff_after_check_in_end JSDate.utcZone
              (EmployeeDashboard.defaultDay 3 true) 1704879060000)))
           eq_refl)) eq_refl).
Defined.

(** C5.  Without a schedule row the classifier answers "present" for
    every check-in; the row is missing whenever the schedule query
    reports an error or no row carries today's weekday. *)
Theorem C5_no_schedule_is_present :
  forall (tz : JSDate.TimeZone) (now checkInTime : JSDate.Date)
         (queryFails : bool) (table : list EmployeeDashboard.ScheduleDay),
    EmployeeDashboard.determineStatus tz None checkInTime = "present"
    /\ (queryFails = true
         \/ (forall r, In r table ->
                Some (EmployeeDashboard.day_of_week r) <> JSDate.getDay tz now) ->
        EmployeeDashboard.fetchTodaySchedule tz now queryFails table = None
        /\ EmployeeDashboard.determineStatus tz
             (EmployeeDashboard.fetchTodaySchedule tz now queryFails table)
             checkInTime = "present").
Proof.
  intros tz now checkInTime queryFails table. split; [reflexivity|].
  intros H.
  assert (Hnone : EmployeeDashboard.fetchTodaySchedule tz now queryFails table = None).
  { unfold EmployeeDashboard.fetchTodaySchedule.
    destruct queryFails; [reflexivity|].
    destruct H as [H|H]; [discriminate|].
    replace (filter _ table) with (@nil EmployeeDashboard.ScheduleDay); [reflexivity|].
    symmetry. induction table as [|r rest IH]; [reflexivity|].
    simpl. destruct (JSDate.getDay tz now) as [n|] eqn:Hd.
    - destruct (Z.eqb_spec (EmployeeDashboard.day_of_week r) n) as [E|E].
      + exfalso. apply (H r); [left; reflexivity | now rewrite E].
      + apply IH. intros r' Hr'. apply H. right. exact Hr'.
    - apply IH. intros r' Hr'. apply H. right. exact Hr'. }
  split; [exact Hnone | rewrite Hnone; reflexivity].
Qed.

Lemma C5_no_schedule_is_present_witness :
  EmployeeDashboard.fetchTodaySchedule JSDate.utcZone (Some 1704879060000) false
    [EmployeeDashboard.defaultDay 1 true; EmployeeDashboard.defaultDay 2 true] = None
  /\ EmployeeDashboard.determineStatus JSDate.utcZone
       (EmployeeDashboard.fetchTodaySchedule JSDate.utcZone (Some 1704879060000) false
          [EmployeeDashboard.defaultDay 1 true; EmployeeDashboard.defaultDay 2 true])
       (Some 1704879060000) = "present".
Proof.
  apply (proj2 (C5_no_schedule_is_present JSDate.utcZone (Some 1704879060000)
                  (Some 1704879060000) false
                  [EmployeeDashboard.defaultDay 1 true;
                   EmployeeDashboard.defaultDay 2 true])).
  right. intros r [<-|[<-|[]]]; vm_compute; discriminate.
Defined.

(** C6 (as stated, refuted).  A malformed [check_in_end] from which
    [parseInt] still reads two numbers is classified by these numbers
    and not as "present".  None of the texts 0x0A:15:00, 9h:30,
    09:3O:00 (with a letter O) and -1:00:00 is the text of a time of
    day.  The hour part of the first is read as the hexadecimal 10,
    and a check-in at 10:16 is "late"; with the second a check-in at
    09:31 is "late", with the third one at 09:04, and with the fourth
    one at midnight. *)
Lemma C6_malformed_check_in_end_is_classified_late :
  (forall text,
     In text ["0x0A:15:00"; "9h:30"; "09:3O:00"; "-1:00:00"] ->
     forall h m sec,
       0 <= h < 24 -> 0 <= m < 60 -> 0 <= sec < 60 ->
       EmployeeDashboard.timeOfDay h m sec <> text)
  /\ EmployeeDashboard.checkInEndHour (EmployeeDashboard.rowEndingAt "0x0A:15:00")
     = JS.Finite 10
  /\ EmployeeDashboard.checkInEndMinute (EmployeeDashboard.rowEndingAt "0x0A:15:00")
     = JS.Finite 15
  /\ EmployeeDashboard.clock JSDate.utcZone 1704881760000 = (10, 16)
  /\ EmployeeDashboard.determineStatus JSDate.utcZone
       (Some (EmployeeDashboard.rowEndingAt "0x0A:15:00")) (Some 1704881760000)
     = "late"
  /\ EmployeeDashboard.clock JSDate.utcZone 1704879060000 = (9, 31)
  /\ EmployeeDashboard.determineStatus JSDate.utcZone
       (Some (EmployeeDashboard.rowEndingAt "9h:30")) (Some 1704879060000)
     = "late"
  /\ EmployeeDashboard.clock JSDate.utcZone 1704877440000 = (9, 4)
  /\ EmployeeDashboard.determineStatus JSDate.utcZone
       (Some (EmployeeDashboard.rowEndingAt "09:3O:00")) (Some 1704877440000)
     = "late"
  /\ EmployeeDashboard.clock JSDate.utcZone 1704844800000 = (0, 0)
  /\ EmployeeDashboard.determineStatus JSDate.utcZone
       (Some (EmployeeDashboard.rowEndingAt "-1:00:00")) (Some 1704844800000)
     = "late".
Proof.
  split.
  - intros text [<-|[<-|[<-|[<-|[]]]]];
      apply not_a_time_of_day; vm_compute; reflexivity.
  - repeat split; vm_compute; reflexivity.
Qed.

(** C6 (amended).  When [parseInt] yields no number for the hour part
    or for the minute part of [check_in_end] (the part may also be
    missing), the minutes computed from it are no number either, and
    whenever they are no number the classifier answers "present" for
    every check-in; it has no failing path. *)
Theorem C6_unparsable_check_in_end_is_present :
  forall (tz : JSDate.TimeZone) (s : EmployeeDashboard.ScheduleDay)
         (checkInTime : JSDate.Date),
    (EmployeeDashboard.checkInEndHour s = JS.NotANumber
     \/ EmployeeDashboard.checkInEndMinute s = JS.NotANumber ->
     EmployeeDashboard.determineStatus tz (Some s) checkInTime = "present")
    /\ (EmployeeDashboard.checkInEndMinutes s = JS.NotANumber ->
        EmployeeDashboard.determineStatus tz (Some s) checkInTime = "present").
Proof.
  intros tz s d.
  assert (Hnan : EmployeeDashboard.checkInEndMinutes s = JS.NotANumber ->
                 EmployeeDashboard.determineStatus tz (Some s) d = "present").
  { intros H. unfold EmployeeDashboard.determineStatus. rewrite H.
    destruct (JS.toNumber (EmployeeDashboard.currentMinutes tz d)) as [|[|]|x];
      reflexivity. }
  split; [|exact Hnan].
  intros H. apply Hnan.
  unfold EmployeeDashboard.checkInEndMinutes.
  fold (EmployeeDashboard.checkInEndHour s).
  fold (EmployeeDashboard.checkInEndMinute s).
  destruct H as [H|H]; rewrite H.
  - reflexivity.
  - destruct (JS.mul (EmployeeDashboard.checkInEndHour s) (JS.Finite 60))
      as [|[|]|x]; reflexivity.
Qed.

Lemma C6_unparsable_check_in_end_is_present_witness :
  EmployeeDashboard.checkInEndMinute
    {| EmployeeDashboard.day_of_week := 3;
       EmployeeDashboard.check_in_start := "08:00:00";
       EmployeeDashboard.check_in_end := "09h30";
       EmployeeDashboard.check_out_start := "17:00:00";
       EmployeeDashboard.check_out_end := "18:30:00";
       EmployeeDashboard.is_working_day := true |} = JS.NotANumber
  /\ EmployeeDashboard.determineStatus JSDate.utcZone
       (Some {| EmployeeDashboard.day_of_week := 3;
                EmployeeDashboard.check_in_start := "08:00:00";
                EmployeeDashboard.check_in_end := "09h30";
                EmployeeDashboard.check_out_start := "17:00:00";
                EmployeeDashboard.check_out_end := "18:30:00";
                EmployeeDashboard.is_working_day := true |})
       (Some 1704929400000) = "present".
Proof.
  split; [reflexivity|].
  apply (proj1 (C6_unparsable_check_in_end_is_present _ _ _)).
  right. reflexivity.
Defined.

(** C10.  The classifier depends only on the local hour and minute of
    the check-in and on the hour and minute read from [check_in_end]:
    two check-ins that agree on the former, under two schedule rows
    that agree on the latter, get the same status, whatever the
    seconds and whatever the other fields of the rows; in particular a
    row with [is_working_day] false is classified like the same row
    with [is_working_day] true. *)
Theorem C10_status_depends_on_hour_and_minute_only :
  forall (tz1 tz2 : JSDate.TimeZone) (s1 s2 : EmployeeDashboard.ScheduleDay)
         (t1 t2 : Z),
    (EmployeeDashboard.clock tz1 t1 = EmployeeDashboard.clock tz2 t2 ->
     EmployeeDashboard.checkInEndHour s1 = EmployeeDashboard.checkInEndHour s2 ->
     EmployeeDashboard.checkInEndMinute s1 = EmployeeDashboard.checkInEndMinute s2 ->
     EmployeeDashboard.determineStatus tz1 (Some s1) (Some t1)
     = EmployeeDashboard.determineStatus tz2 (Some s2) (Some t2))
    /\ (forall dow1 dow2 cis1 cis2 cie cos1 cos2 coe1 coe2,
          EmployeeDashboard.determineStatus tz1
            (Some (EmployeeDashboard.Build_ScheduleDay dow1 cis1 cie cos1 coe1 false))
            (Some t1)
          = EmployeeDashboard.determineStatus tz1
              (Some (EmployeeDashboard.Build_ScheduleDay dow2 cis2 cie cos2 coe2 true))
              (Some t1)).
Proof.
  intros tz1 tz2 s1 s2 t1 t2. split.
  - intros Hc Hh Hm. unfold EmployeeDashboard.determineStatus.
    rewrite !currentMinutes_valid.
    unfold EmployeeDashboard.minutesSinceMidnight. rewrite Hc.
    unfold EmployeeDashboard.checkInEndMinutes.
    fold (EmployeeDashboard.checkInEndHour s1) (EmployeeDashboard.checkInEndHour s2).
    fold (EmployeeDashboard.checkInEndMinute s1) (EmployeeDashboard.checkInEndMinute s2).
    rewrite Hh, Hm. reflexivity.
  - reflexivity.
Qed.

Lemma C10_status_depends_on_hour_and_minute_only_witness :
  EmployeeDashboard.determineStatus JSDate.utcZone
    (Some (EmployeeDashboard.defaultDay 3 true)) (Some 1704879060000)
  = EmployeeDashboard.determineStatus JSDate.easternUS2024
      (Some {| EmployeeDashboard.day_of_week := 6;
               EmployeeDashboard.check_in_start := "10:00";
               EmployeeDashboard.check_in_end := "9:30";
               EmployeeDashboard.check_out_start := "17:00";
               EmployeeDashboard.check_out_end := "18:00";
               EmployeeDashboard.is_working_day := false |})
      (Some 1704983519999).
Proof.
  apply C10_status_depends_on_hour_and_minute_only; reflexivity.
Defined.

(** ** The leave reconciler *)

Section Reconciler.

Import JSDate Supabase LeaveRequests.

(** The notification sent by [handleDecline]. *)
Lemma handleDecline_run (env : Env) (request : LeaveRequest) (pg : Page) :
  exists r pg',
    handleDecline env request pg = Some (r, pg')
    /\ attendance (db pg') = attendance (db pg)
    /\ processingId pg' = match user env with
                          | Some _ => None
                          | None => processingId pg
                          end
    /\ (user env = None \/ leaveUpdateError (faults env) <> None ->
        db pg' = db pg)
    /\ (forall uid,
          user env = Some uid -> leaveUpdateError (faults env) = None ->
          leave_requests (db pg')
          = map (fun x => if String.eqb (lr_id x) (id request)
                          then patchLeave "declined" uid (isoString (now env)) x
                          else x) (leave_requests (db pg))
          /\ exists n,
               nt_user_id n = user_id request
               /\ nt_title n = "Leave Request Declined"
               /\ (notifications (db pg') = notifications (db pg)
                   \/ notifications (db pg') = (notifications (db pg) ++ [n])%list)
               /\ (notificationInsertError (faults env) = None ->
                   parse (start_date request) <> None ->
                   parse (end_date request) <> None ->
                   notifications (db pg') = (notifications (db pg) ++ [n])%list)).
Proof.
  destruct env as [z nw u [fs fu fa fn]]. destruct pg as [d rs pid ts].
  unfold handleDecline. cbn [user].
  destruct u as [uid|].
  2:{ eexists _, _. split; [reflexivity|]. cbn.
      repeat split; try reflexivity; auto; intros; discriminate. }
  unfold bind, tryCatchFinally, declineBody, bind, call, updateLeave,
    throwIf, setProcessingId, formatOrThrow, insertNotification, toast, throw, ret.
  cbn [faults leaveUpdateError notificationInsertError tz now db requests
       processingId toasts].
  destruct fu as [e|].
  { eexists _, _. split; [reflexivity|]. cbn.
    repeat split; auto; intros; discriminate. }
  destruct (parse (start_date request)) as [s|]; cbn [format_MMM_d];
    [destruct (parse (end_date request)) as [e|]; cbn [format_MMM_d];
     [destruct fn as [en|]|]|];
    (eexists _, _; split; [reflexivity|]; cbn;
     split; [reflexivity|]; split; [reflexivity|];
     split; [intros [H|H]; [discriminate | contradiction]|];
     intros uid' Hu _; injection Hu as <-; split; [reflexivity|]).
  2: eexists (notificationRowOf (declinedNotice request _ _)).
  1,3,4: exists (notificationRowOf (declinedNotice request EmptyString EmptyString)).
  all: cbn; repeat split; auto; intros; try discriminate; try contradiction.
Qed.

(** What [handleApprove] does to the tables. *)
Lemma handleApprove_run (fuel : nat) (env : Env) (request : LeaveRequest)
    (pg : Page) :
  match handleApprove fuel env request pg with
  | None =>
      user env <> None /\ leaveUpdateError (faults env) = None
      /\ leaveAttendanceRecords fuel (tz env) request = None
  | Some (r, pg') =>
      (user env = None \/ leaveUpdateError (faults env) <> None ->
       db pg' = db pg)
      /\ (forall uid,
            user env = Some uid -> leaveUpdateError (faults env) = None ->
            leave_requests (db pg')
            = map (fun x => if String.eqb (lr_id x) (id request)
                            then patchLeave "approved" uid (isoString (now env)) x
                            else x) (leave_requests (db pg))
            /\ exists recs,
                 leaveAttendanceRecords fuel (tz env) request = Some recs
                 /\ (attendance (db pg') = attendance (db pg)
                     \/ exists rows,
                          attendanceRowsOf (now env) recs = Some rows
                          /\ attendance (db pg')
                             = (attendance (db pg) ++ rows)%list)
                 /\ (attendanceInsertError (faults env) = None ->
                     forall rows,
                       attendanceRowsOf (now env) recs = Some rows ->
                       attendance (db pg') = (attendance (db pg) ++ rows)%list))
  end.
Proof.
  destruct env as [z nw u [fs fu fa fn]]. destruct pg as [d rs pid ts].
  unfold handleApprove. cbn [user].
  destruct u as [uid|].
  2:{ cbn. split; [reflexivity|]. intros; discriminate. }
  unfold bind, tryCatchFinally, approveBody, bind, call, updateLeave,
    throwIf, setProcessingId, throw, ret.
  cbn [faults leaveUpdateError notificationInsertError attendanceInsertError
       tz now db requests processingId toasts].
  destruct fu as [e|].
  { cbn. split; [reflexivity|]. intros; discriminate. }
  cbn [fst snd].
  destruct (leaveAttendanceRecords fuel z request) as [recs|] eqn:Hrecs.
  2:{ cbn. repeat split; congruence. }
  assert (Hnil : (0 <? Z.of_nat (List.length recs)) = false -> recs = []).
  { destruct recs; [reflexivity | cbn; discriminate]. }
  unfold insertAttendance, formatOrThrow, insertNotification, toast, throw, ret.
  cbn [faults attendanceInsertError notificationInsertError db requests
       processingId toasts].
  destruct (0 <? Z.of_nat (List.length recs)) eqn:Hlen; cbn [fst snd].
  - destruct fa as [ea|]; [|destruct (attendanceRowsOf nw recs) as [rows|] eqn:Hrows];
      cbn [fst snd db];
      (destruct (parse (start_date request)) as [s|]; cbn [format_MMM_d];
       [destruct (parse (end_date request)) as [e|]; cbn [format_MMM_d];
        [destruct fn as [en|]|]|]);
      cbn; (split; [intros [H|H]; [discriminate | contradiction]|]);
      intros uid' Hu _; injection Hu as <-; (split; [reflexivity|]);
      exists recs; (split; [reflexivity|]);
      (split; [first [left; reflexivity
                     | right; eexists; split; [eassumption | reflexivity]]|]);
      intros Hfa rows' Hr'; congruence.
  - rewrite (Hnil eq_refl) in *.
    (destruct (parse (start_date request)) as [s|]; cbn [format_MMM_d];
     [destruct (parse (end_date request)) as [e|]; cbn [format_MMM_d];
      [destruct fn as [en|]|]|]);
    cbn; (split; [intros [H|H]; [discriminate | contradiction]|]);
    intros uid' Hu _; injection Hu as <-; (split; [reflexivity|]);
    exists []; (split; [reflexivity|]);
    (split; [left; reflexivity|]);
    intros Hfa rows' Hr'; cbn in Hr'; injection Hr' as <-;
    now rewrite app_nil_r.
Qed.

(** A refused insert of the leave records changes nothing in what the
    admin sees: with valid dates, the handler ends with the success
    toast as its only message. *)
Lemma refused_insert_is_not_reported (fuel : nat) (env : Env)
    (request : LeaveRequest) (pg : Page) (uid : string) (s e : Z)
    (recs : list AttendanceInsert) (err : Exn) :
  user env = Some uid ->
  leaveUpdateError (faults env) = None ->
  attendanceInsertError (faults env) = Some err ->
  parse (start_date request) = Some s ->
  parse (end_date request) = Some e ->
  leaveAttendanceRecords fuel (tz env) request = Some recs ->
  exists pg',
    handleApprove fuel env request pg = Some (inl tt, pg')
    /\ attendance (db pg') = attendance (db pg)
    /\ toasts pg'
       = (toasts pg
          ++ [{| title := "Leave approved";
                 description := ("Leave request for "
                                 ++ interpolate (user_full_name request)
                                 ++ " has been approved.")%string;
                 destructive := false |}])%list.
Proof.
  destruct env as [z nw u [fs fu fa fn]]. destruct pg as [d rs pid ts].
  cbn [user faults leaveUpdateError attendanceInsertError tz].
  intros -> -> -> Hs He Hrecs.
  unfold handleApprove. cbn [user].
  unfold bind, tryCatchFinally, approveBody, bind, call, updateLeave,
    throwIf, setProcessingId, throw, ret.
  cbn [faults leaveUpdateError notificationInsertError attendanceInsertError
       tz now db requests processingId toasts fst snd].
  rewrite Hrecs, Hs, He.
  unfold insertAttendance, formatOrThrow, insertNotification, toast, throw, ret.
  cbn [faults attendanceInsertError notificationInsertError db requests
       processingId toasts format_MMM_d].
  destruct (0 <? Z.of_nat (List.length recs)); destruct fn as [en|];
    cbn; eexists; (split; [reflexivity|]); split; reflexivity.
Qed.

Lemma offered_is_pending (pg : Page) (a : Action) :
  In a (offeredActions pg) -> In (target a) (pendingRequests (requests pg)).
Proof.
  unfold offeredActions. intros H.
  apply in_app_or in H as [H | H].
  - apply in_flat_map in H as [r [Hr Ha]].
    unfold renderRequestCard in Ha.
    destruct (processingId pg) as [x|];
      [destruct (String.eqb x (id r)); [contradiction|]|];
      destruct Ha as [<- | [<- | []]]; exact Hr.
  - exfalso.
    apply in_app_or in H as [H | H];
      apply in_flat_map in H as [r [_ Ha]]; exact Ha.
Qed.

Lemma in_same_key {A K : Type} (key : A -> K) (l : list A) (x y : A) :
  NoDup (map key l) -> In x l -> In y l -> key x = key y -> x = y.
Proof.
  induction l as [|h rest IH]; intros Hnd Hx Hy Hk; [contradiction|].
  cbn in Hnd. inversion Hnd as [|? ? Hnotin Hnd']; subst.
  destruct Hx as [-> | Hx], Hy as [-> | Hy].
  - reflexivity.
  - exfalso. apply Hnotin. rewrite Hk. now apply in_map.
  - exfalso. apply Hnotin. rewrite <- Hk. now apply in_map.
  - now apply IH.
Qed.

Lemma Forall2_map_self {A : Type} (R : A -> A -> Prop) (g : A -> A)
    (l : list A) :
  (forall x, In x l -> R x (g x)) -> Forall2 R l (map g l).
Proof.
  induction l as [|h rest IH]; intros H; cbn; constructor.
  - apply H. now left.
  - apply IH. intros x Hx. apply H. now right.
Qed.

(** Patching by the id of a request shown as pending on a fresh page
    moves only pending rows. *)
Lemma patch_from_pending (pg : Page) (r : LeaveRequest)
    (st by_ at_ : string) :
  fresh pg -> NoDup (map lr_id (leave_requests (db pg))) ->
  In r (pendingRequests (requests pg)) ->
  st = "approved" \/ st = "declined" ->
  Forall2 (fun x y => lr_id y = lr_id x
                      /\ allowedTransition (lr_status x) (lr_status y))
    (leave_requests (db pg))
    (map (fun x => if String.eqb (lr_id x) (id r)
                   then patchLeave st by_ at_ x else x)
         (leave_requests (db pg))).
Proof.
  intros Hfresh Hnd Hr Hst.
  apply filter_In in Hr as [Hin Hpend].
  rewrite Hfresh in Hin. apply in_map_iff in Hin as [row [<- Hrow]].
  cbn in Hpend. apply String.eqb_eq in Hpend.
  apply Forall2_map_self. intros x Hx. cbn.
  destruct (String.eqb_spec (lr_id x) (lr_id row)) as [E|E].
  - assert (x = row) by (eapply in_same_key; eauto). subst x.
    split; [reflexivity|]. right. cbn. split; assumption.
  - split; [reflexivity|]. left. reflexivity.
Qed.

Lemma Forall2_same {A : Type} (R : A -> A -> Prop) (l : list A) :
  (forall x, R x x) -> Forall2 R l l.
Proof. intros H. induction l; constructor; auto. Qed.

End Reconciler.

(** C7.  [handleDecline] always ends and never touches the attendance
    table.  When an admin is signed in and the update goes through,
    the rows with the request's id get status "declined" with the
    approver and the time stamped, at most one notification is added,
    addressed to the author of the request, and exactly that one when
    its insert succeeds; in the other cases the tables are unchanged. *)
Theorem C7_decline_creates_no_attendance :
  forall (env : LeaveRequests.Env) (request : LeaveRequests.LeaveRequest)
         (pg : LeaveRequests.Page),
  exists r pg',
    LeaveRequests.handleDecline env request pg = Some (r, pg')
    /\ Supabase.attendance (LeaveRequests.db pg')
       = Supabase.attendance (LeaveRequests.db pg)
    /\ (LeaveRequests.user env = None
        \/ Supabase.leaveUpdateError (LeaveRequests.faults env) <> None ->
        LeaveRequests.db pg' = LeaveRequests.db pg)
    /\ (forall uid,
          LeaveRequests.user env = Some uid ->
          Supabase.leaveUpdateError (LeaveRequests.faults env) = None ->
          Supabase.leave_requests (LeaveRequests.db pg')
          = map (fun x =>
                   if String.eqb (Supabase.lr_id x) (LeaveRequests.id request)
                   then Supabase.patchLeave "declined" uid
                          (JSDate.isoString (LeaveRequests.now env)) x
                   else x)
                (Supabase.leave_requests (LeaveRequests.db pg))
          /\ exists n,
               Supabase.nt_user_id n = LeaveRequests.user_id request
               /\ Supabase.nt_title n = "Leave Request Declined"
               /\ (Supabase.notifications (LeaveRequests.db pg')
                   = Supabase.notifications (LeaveRequests.db pg)
                   \/ Supabase.notifications (LeaveRequests.db pg')
                      = (Supabase.notifications (LeaveRequests.db pg) ++ [n])%list)
               /\ (Supabase.notificationInsertError (LeaveRequests.faults env) = None ->
                   JSDate.parse (LeaveRequests.start_date request) <> None ->
                   JSDate.parse (LeaveRequests.end_date request) <> None ->
                   Supabase.notifications (LeaveRequests.db pg')
                   = (Supabase.notifications (LeaveRequests.db pg) ++ [n])%list)).
Proof.
  intros env request pg.
  destruct (handleDecline_run env request pg)
    as (r & pg' & Hrun & Hatt & _ & Hnoop & Hok).
  exists r, pg'.
  split; [exact Hrun|]. split; [exact Hatt|]. split; [exact Hnoop | exact Hok].
Qed.

Lemma C7_decline_creates_no_attendance_witness :
  exists r pg',
    LeaveRequests.handleDecline (Sample.env JSDate.utcZone Supabase.noFaults)
      (Sample.request "2024-01-10" "2024-01-12" "pending")
      (Sample.page "2024-01-10" "2024-01-12") = Some (r, pg')
    /\ Supabase.attendance (LeaveRequests.db pg') = []
    /\ map Supabase.lr_status (Supabase.leave_requests (LeaveRequests.db pg'))
       = ["declined"]
    /\ exists n,
         Supabase.nt_user_id n = "emp-1"
         /\ Supabase.notifications (LeaveRequests.db pg') = [n].
Proof.
  destruct (C7_decline_creates_no_attendance
              (Sample.env JSDate.utcZone Supabase.noFaults)
              (Sample.request "2024-01-10" "2024-01-12" "pending")
              (Sample.page "2024-01-10" "2024-01-12"))
    as (r & pg' & Hrun & Hatt & _ & Hok).
  destruct (Hok "admin-1" eq_refl eq_refl) as (Hrows & n & Hto & _ & _ & Hone).
  exists r, pg'. split; [exact Hrun|]. split; [exact Hatt|].
  split; [rewrite Hrows; reflexivity|].
  exists n. split; [exact Hto|].
  apply Hone; [reflexivity | vm_compute; discriminate | vm_compute; discriminate].
Defined.

(** C3 (as stated, refuted).  [handleApprove] run on a request that is
    already approved is neither rejected nor without effect: it
    reports success and inserts the leave records a second time; the
    approve button of the stale card is still offered after the first
    approval; and [handleDecline] moves an approved request to
    declined. *)
Lemma C3_second_approval_duplicates_records :
  exists pg1 pg2 pg3 pg4,
    Sample.after
      (LeaveRequests.handleApprove 10 (Sample.env JSDate.utcZone Supabase.noFaults)
         (Sample.request "2024-01-10" "2024-01-12" "pending"))
      (Sample.page "2024-01-10" "2024-01-12") = Some pg1
    /\ map Supabase.lr_status (Supabase.leave_requests (LeaveRequests.db pg1))
       = ["approved"]
    /\ List.length (Supabase.attendance (LeaveRequests.db pg1)) = 3%nat
    /\ Sample.after
         (LeaveRequests.fetchLeaveRequests
            (Sample.env JSDate.utcZone Supabase.noFaults)) pg1 = Some pg2
    /\ LeaveRequests.requests pg2
       = [Sample.request "2024-01-10" "2024-01-12" "approved"]
    /\ Sample.after
         (LeaveRequests.handleApprove 10 (Sample.env JSDate.utcZone Supabase.noFaults)
            (Sample.request "2024-01-10" "2024-01-12" "approved")) pg2 = Some pg3
    /\ Supabase.attendance (LeaveRequests.db pg3)
       = (Supabase.attendance (LeaveRequests.db pg1)
          ++ Supabase.attendance (LeaveRequests.db pg1))%list
    /\ map LeaveRequests.title (LeaveRequests.toasts pg3)
       = ["Leave approved"; "Leave approved"]
    /\ In (LeaveRequests.ClickApprove
             (Sample.request "2024-01-10" "2024-01-12" "pending"))
          (LeaveRequests.offeredActions pg1)
    /\ Sample.after
         (LeaveRequests.handleDecline (Sample.env JSDate.utcZone Supabase.noFaults)
            (Sample.request "2024-01-10" "2024-01-12" "approved")) pg2 = Some pg4
    /\ map Supabase.lr_status (Supabase.leave_requests (LeaveRequests.db pg4))
       = ["declined"].
Proof.
  eexists _, _, _, _.
  split; [vm_compute; reflexivity|].
  split; [reflexivity|]. split; [reflexivity|].
  split; [vm_compute; reflexivity|].
  split; [reflexivity|].
  split; [vm_compute; reflexivity|].
  split; [reflexivity|]. split; [reflexivity|].
  split; [right; left; reflexivity|].
  split; [vm_compute; reflexivity|].
  reflexivity.
Qed.

(** C3 (amended).  The gate is in the view: a button is offered only
    on the card of a request whose status in the page's list is
    "pending".  When that list shows the table as it is, and ids are
    unique, carrying out an offered action changes the status of a row
    only from pending to approved or from pending to declined; rows
    already approved or declined keep their status.  The action ends,
    unless the day loop of an approval needs more iterations than the
    fuel allows. *)
Theorem C3_buttons_only_on_pending_cards :
  forall (fuel : nat) (env : LeaveRequests.Env) (pg : LeaveRequests.Page)
         (a : LeaveRequests.Action),
    In a (LeaveRequests.offeredActions pg) ->
    LeaveRequests.status (LeaveRequests.target a) = "pending"
    /\ In (LeaveRequests.target a) (LeaveRequests.requests pg)
    /\ (LeaveRequests.fresh pg ->
        NoDup (map Supabase.lr_id (Supabase.leave_requests (LeaveRequests.db pg))) ->
        forall r pg',
          LeaveRequests.perform fuel env a pg = Some (r, pg') ->
          Forall2 (fun x y =>
                     Supabase.lr_id y = Supabase.lr_id x
                     /\ LeaveRequests.allowedTransition
                          (Supabase.lr_status x) (Supabase.lr_status y))
            (Supabase.leave_requests (LeaveRequests.db pg))
            (Supabase.leave_requests (LeaveRequests.db pg')))
    /\ (LeaveRequests.perform fuel env a pg = None ->
        exists q,
          a = LeaveRequests.ClickApprove q
          /\ LeaveRequests.leaveAttendanceRecords fuel (LeaveRequests.tz env) q
             = None).
Proof.
  intros fuel env pg a Ha.
  pose proof (offered_is_pending pg a Ha) as Hp.
  pose proof Hp as Hp'. apply filter_In in Hp' as [Hin Hst].
  apply String.eqb_eq in Hst.
  split; [exact Hst|]. split; [exact Hin|].
  split.
  2:{ intros Hnone. destruct a as [q|q]; cbn [LeaveRequests.perform] in Hnone.
      - destruct (handleDecline_run env q pg) as (r0 & pg0 & Hrun0 & _).
        rewrite Hrun0 in Hnone. discriminate.
      - pose proof (handleApprove_run fuel env q pg) as H. rewrite Hnone in H.
        exists q. split; [reflexivity | apply H]. }
  intros Hfresh Hnd r pg' Hrun.
  assert (Hsame : Forall2 (fun x y =>
                     Supabase.lr_id y = Supabase.lr_id x
                     /\ LeaveRequests.allowedTransition
                          (Supabase.lr_status x) (Supabase.lr_status y))
            (Supabase.leave_requests (LeaveRequests.db pg))
            (Supabase.leave_requests (LeaveRequests.db pg))).
  { apply Forall2_same. intros x. split; [reflexivity | left; reflexivity]. }
  destruct (LeaveRequests.user env) as [uid|] eqn:Hu;
    [destruct (Supabase.leaveUpdateError (LeaveRequests.faults env)) as [e|] eqn:He|].
  - (* the update is refused *)
    destruct a as [q|q]; cbn [LeaveRequests.perform] in Hrun.
    + destruct (handleDecline_run env q pg) as (r0 & pg0 & Hrun0 & _ & _ & Hnoop & _).
      rewrite Hrun0 in Hrun. injection Hrun as <- <-.
      rewrite Hnoop; [exact Hsame | right; rewrite He; discriminate].
    + pose proof (handleApprove_run fuel env q pg) as H. rewrite Hrun in H.
      destruct H as [Hnoop _].
      rewrite Hnoop; [exact Hsame | right; rewrite He; discriminate].
  - (* the update goes through *)
    destruct a as [q|q]; cbn [LeaveRequests.perform LeaveRequests.target] in *.
    + destruct (handleDecline_run env q pg) as (r0 & pg0 & Hrun0 & _ & _ & _ & Hok).
      rewrite Hrun0 in Hrun. injection Hrun as <- <-.
      destruct (Hok uid Hu He) as [-> _].
      apply patch_from_pending; auto.
    + pose proof (handleApprove_run fuel env q pg) as H. rewrite Hrun in H.
      destruct H as [_ Hok]. destruct (Hok uid Hu He) as [-> _].
      apply patch_from_pending; auto.
  - (* nobody is signed in *)
    destruct a as [q|q]; cbn [LeaveRequests.perform] in Hrun.
    + destruct (handleDecline_run env q pg) as (r0 & pg0 & Hrun0 & _ & _ & Hnoop & _).
      rewrite Hrun0 in Hrun. injection Hrun as <- <-.
      rewrite Hnoop; [exact Hsame | left; exact Hu].
    + pose proof (handleApprove_run fuel env q pg) as H. rewrite Hrun in H.
      destruct H as [Hnoop _].
      rewrite Hnoop; [exact Hsame | left; exact Hu].
Qed.

(** ** The day loop in a zone without clock changes *)

Section FixedZone.

Import JSDate Supabase LeaveRequests.

Lemma MonthFromTime_range (t : Z) : 0 <= MonthFromTime t <= 11.
Proof.
  unfold MonthFromTime.
  repeat match goal with
         | |- context [if ?b then _ else _] => destruct b
         end; lia.
Qed.

(** Moving the day of the month moves the day number by as much. *)
Lemma MakeDay_same_month (t k : Z) :
  MakeDay (YearFromTime t) (MonthFromTime t) (DateFromTime t + k) = Day t + k.
Proof.
  pose proof (MonthFromTime_range t) as Hm.
  unfold MakeDay.
  rewrite (Z.div_small (MonthFromTime t) 12) by lia.
  rewrite (Z.mod_small (MonthFromTime t) 12) by lia.
  rewrite Z.add_0_r.
  unfold DateFromTime, DayWithinYear, InLeapYear. lia.
Qed.

Lemma setDate_shift_fixed (off t k : Z) :
  setDate (fixedZone off) (Some t)
    (JS.nadd (getDate (fixedZone off) (Some t)) (Some k))
  = TimeClip (t + k * msPerDay).
Proof.
  cbn [getDate option_map JS.nadd setDate].
  rewrite MakeDay_same_month.
  unfold MakeDate, UTC, LocalTime, TimeWithinDay, Day, fixedZone.
  cbn [LocalTZA]. f_equal.
  pose proof (Z.div_mod (t + off) msPerDay ltac:(discriminate)) as H.
  unfold msPerDay in *. lia.
Qed.

Lemma setDate_next_fixed (off t : Z) :
  setDate (fixedZone off) (Some t)
    (JS.nadd (getDate (fixedZone off) (Some t)) (Some 1))
  = TimeClip (t + msPerDay).
Proof. rewrite setDate_shift_fixed. reflexivity. Qed.

Lemma TimeClip_some (t : Z) :
  Z.abs t <= 8640000000000000 -> TimeClip t = Some t.
Proof.
  intros H. unfold TimeClip.
  destruct (Z.leb_spec (Z.abs t) 8640000000000000); [reflexivity | lia].
Qed.

Lemma TimeClip_none (t : Z) :
  8640000000000000 < Z.abs t -> TimeClip t = None.
Proof.
  intros H. unfold TimeClip.
  destruct (Z.leb_spec (Z.abs t) 8640000000000000); [lia | reflexivity].
Qed.

Lemma TimeClip_bound (t u : Z) :
  TimeClip t = Some u -> u = t /\ Z.abs t <= 8640000000000000.
Proof.
  unfold TimeClip.
  destruct (Z.leb_spec (Z.abs t) 8640000000000000); [|discriminate].
  intros Hu. injection Hu as <-. split; [reflexivity | assumption].
Qed.

Lemma parseTimestamp_bound (str : string) (t : Z) :
  parseTimestamp str = Some t -> Z.abs t <= 8640000000000000.
Proof.
  unfold parseTimestamp.
  destruct (parseDay str); [|discriminate].
  destruct (field str 11 2); [|discriminate].
  destruct (field str 14 2); [|discriminate].
  destruct (_ && _); [|discriminate].
  destruct (parseSeconds _) as [[ms zone]|]; [|discriminate].
  destruct (parseOffset zone); [|discriminate].
  intros H. apply TimeClip_bound in H as [-> H]. exact H.
Qed.

Lemma parse_bound (str : string) (t : Z) :
  parse str = Some t -> Z.abs t <= 8640000000000000.
Proof.
  unfold parse.
  destruct (String.length str) as [|n]; [apply parseTimestamp_bound|].
  do 9 (destruct n as [|n]; [apply parseTimestamp_bound|]).
  destruct n as [|n].
  - destruct (parseDay str); [|discriminate].
    intros H. apply TimeClip_bound in H as [-> H]. exact H.
  - do 13 (destruct n as [|n]; [apply parseTimestamp_bound|]).
    destruct n as [|n]; [|apply parseTimestamp_bound].
    destruct (parseDay str); [|discriminate].
    destruct (parseClock str); [|discriminate].
    intros H. apply TimeClip_bound in H as [-> H]. exact H.
Qed.

Lemma daysFrom_succ (n : nat) (t : Z) :
  daysFrom (S n) t = t :: daysFrom n (t + msPerDay).
Proof.
  unfold daysFrom. cbn [seq map]. f_equal; [lia|].
  rewrite <- seq_shift, map_map. apply map_ext. intros i. lia.
Qed.

Lemma leaveLoop_fixed (off : Z) (request : LeaveRequest) (e : Z) :
  e <= 8640000000000000 ->
  forall (n fuel : nat) (t : Z) (acc : list AttendanceInsert),
    (n <= fuel)%nat ->
    - 8640000000000000 <= t ->
    ((0 < n)%nat -> t + (Z.of_nat n - 1) * msPerDay <= e) ->
    e < t + Z.of_nat n * msPerDay ->
    leaveLoop fuel (fixedZone off) request (Some t) (Some e) acc
    = Some (acc ++ map (leaveRecord request) (daysFrom n t))%list.
Proof.
  intros He n. induction n as [|m IH]; intros fuel t acc Hfuel Ht Hlo Hn.
  2: specialize (Hlo ltac:(lia)).
  - assert (Hle : JSDate.le (Some t) (Some e) = false).
    { cbn. apply Z.leb_gt. lia. }
    destruct fuel; cbn [leaveLoop]; rewrite Hle; cbn; now rewrite app_nil_r.
  - assert (Hle : JSDate.le (Some t) (Some e) = true).
    { cbn. apply Z.leb_le. unfold msPerDay in Hlo. lia. }
    destruct fuel as [|k]; [lia|].
    cbn [leaveLoop]. rewrite Hle, setDate_next_fixed, daysFrom_succ.
    cbn [map]. 
    destruct (Z_le_gt_dec (t + msPerDay) 8640000000000000) as [Hin|Hout].
    + rewrite TimeClip_some by (unfold msPerDay in *; lia).
      rewrite IH; [now rewrite <- app_assoc | lia | unfold msPerDay; lia | |];
        unfold msPerDay in *; lia.
    + rewrite TimeClip_none by (unfold msPerDay in *; lia).
      assert (m = 0%nat) by (unfold msPerDay in *; lia). subst m.
      destruct k; cbn; reflexivity.
Qed.

(** In a zone whose offset never changes, the loop of [handleApprove]
    builds one record for each day from [start_date] to [end_date],
    both included (none when the dates are out of order): the record
    of day [i] holds the UTC midnight [i] days after [start_date],
    status "leave" and the reason in its notes. *)
Lemma leave_records_one_per_day_fixed_zone
    (off : Z) (request : LeaveRequest) (s e : Z) (fuel : nat) :
  parse (start_date request) = Some s ->
  parse (end_date request) = Some e ->
  (dayCount s e <= fuel)%nat ->
  leaveAttendanceRecords fuel (fixedZone off) request
  = Some (map (leaveRecord request) (daysFrom (dayCount s e) s)).
Proof.
  intros Hs He Hfuel.
  pose proof (parse_bound _ _ Hs) as Bs. pose proof (parse_bound _ _ He) as Be.
  unfold leaveAttendanceRecords. rewrite Hs, He.
  assert (HD : 0 < msPerDay) by reflexivity.
  pose proof (Z.div_mod (e - s) msPerDay ltac:(lia)) as Hdm.
  pose proof (Z.mod_pos_bound (e - s) msPerDay HD) as Hmod.
  assert (Hq : s <= e -> 0 <= (e - s) / msPerDay)
    by (intros; apply Z.div_pos; lia).
  rewrite (leaveLoop_fixed off request e) with (n := dayCount s e);
    [reflexivity | lia | exact Hfuel | lia | |];
    unfold dayCount in *; destruct (Z.leb_spec s e) as [Hle|Hgt];
    try rewrite Z2Nat.id by lia; cbn; lia.
Qed.

(** A date-only string is read as a UTC midnight, and so are the days
    that follow it at steps of 24 hours: they are the successive
    calendar days. *)
Lemma date_only_is_midnight (str : string) (s : Z) :
  String.length str = 10%nat -> parse str = Some s -> TimeWithinDay s = 0.
Proof.
  unfold parse. intros ->.
  destruct (parseDay str) as [d|]; [|discriminate].
  intros H. apply TimeClip_bound in H as [-> _].
  unfold TimeWithinDay, MakeDate. rewrite Z.add_0_r.
  apply Z.mod_mul. discriminate.
Qed.

Lemma daysFrom_midnights (n : nat) (s : Z) :
  TimeWithinDay s = 0 ->
  Forall (fun t => TimeWithinDay t = 0) (daysFrom n s)
  /\ map Day (daysFrom n s) = map (fun i => Day s + Z.of_nat i) (seq 0 n).
Proof.
  intros Hs. unfold daysFrom. split.
  - apply Forall_forall. intros t Ht.
    apply in_map_iff in Ht as [i [<- _]].
    unfold TimeWithinDay in *. rewrite Z.mod_add by discriminate. exact Hs.
  - rewrite map_map. apply map_ext. intros i.
    unfold Day. now rewrite Z.div_add by discriminate.
Qed.

End FixedZone.

(** ** The week of the dashboard in a zone without clock changes *)

Section WeekWindow.

Import JSDate AdminDashboard.

(** The window of the weekly rate runs from Monday 00:00:00.000 to
    Sunday 23:59:59.999, local time, and contains today. *)
Lemma week_window_fixed_zone (off t : Z) :
  Z.abs t + Z.abs off + 7 * msPerDay <= 8640000000000000 ->
  exists ws we,
    startOfWeek (fixedZone off) (Some t) = Some ws
    /\ endOfWeek (fixedZone off) (Some t) = Some we
    /\ WeekDay (LocalTime (fixedZone off) ws) = 1
    /\ TimeWithinDay (LocalTime (fixedZone off) ws) = 0
    /\ we = ws + 7 * msPerDay - 1
    /\ ws <= t <= we.
Proof.
  intros Hrange.
  unfold startOfWeek, endOfWeek. cbn [getDay option_map].
  unfold LocalTime. cbn [fixedZone LocalTZA].
  set (day := WeekDay (t + off)).
  assert (Hday : 0 <= day <= 6)
    by (unfold day, WeekDay; Z.div_mod_to_equations; lia).
  rewrite !setDate_shift_fixed.
  set (ds := (if day <? 1 then 7 else 0) + day - 1).
  set (de := (if day <? 1 then -7 else 0) + 6 - (day - 1)).
  assert (Hds : 0 <= ds <= 6 /\ ds + de = 6 /\ (day - ds - 1) mod 7 = 0).
  { unfold ds, de. clearbody day.
    destruct (Z.ltb_spec day 1); Z.div_mod_to_equations; lia. }
  destruct Hds as (Hds & Hde & Hmod).
  rewrite !TimeClip_some by (unfold msPerDay in *; lia).
  unfold setHours, LocalTime, UTC, MakeDate, MakeTime. cbn [fixedZone LocalTZA].
  assert (Es : Day (t + - ds * msPerDay + off) = Day (t + off) - ds).
  { unfold Day. replace (t + - ds * msPerDay + off)
      with (t + off + (- ds) * msPerDay) by lia.
    rewrite Z.div_add by discriminate. lia. }
  assert (Ee : Day (t + de * msPerDay + off) = Day (t + off) + de).
  { unfold Day. replace (t + de * msPerDay + off)
      with (t + off + de * msPerDay) by lia.
    now rewrite Z.div_add by discriminate. }
  rewrite Es, Ee.
  pose proof (Z.div_mod (t + off) msPerDay ltac:(discriminate)) as Hdm.
  pose proof (Z.mod_pos_bound (t + off) msPerDay eq_refl) as Hb.
  fold (Day (t + off)) in Hdm.
  set (D := Day (t + off)) in *.
  rewrite !TimeClip_some by (unfold msPerDay, msPerHour, msPerMinute, msPerSecond in *; lia).
  eexists _, _. split; [reflexivity|]. split; [reflexivity|].
  replace ((D - ds) * msPerDay + (0 * msPerHour + 0 * msPerMinute + 0 * msPerSecond + 0) - off + off)
    with ((D - ds) * msPerDay) by lia.
  split; [|split; [|split]].
  - unfold WeekDay, Day. rewrite Z.div_mul by discriminate.
    unfold day, WeekDay in Hmod. fold D in Hmod.
    Z.div_mod_to_equations. lia.
  - unfold TimeWithinDay. apply Z.mod_mul. discriminate.
  - unfold msPerDay, msPerHour, msPerMinute, msPerSecond. lia.
  - unfold msPerDay, msPerHour, msPerMinute, msPerSecond in *. lia.
Qed.

(** In such a zone the statistics are always produced. *)
Lemma fetchDashboardData_returns_fixed_zone (off t : Z) (f : Faults)
    (db : Supabase.Database) :
  Z.abs t + Z.abs off + 7 * msPerDay <= 8640000000000000 ->
  exists stats, fetchDashboardData (fixedZone off) (Some t) f db = Some stats.
Proof.
  intros Hrange.
  destruct (week_window_fixed_zone off t Hrange) as (ws & we & Hws & Hwe & _).
  unfold fetchDashboardData. rewrite Hws, Hwe.
  unfold startOfDay, endOfDay, setHours, LocalTime, UTC, MakeDate, MakeTime.
  cbn [fixedZone LocalTZA].
  pose proof (Z.div_mod (t + off) msPerDay ltac:(discriminate)) as Hdm.
  pose proof (Z.mod_pos_bound (t + off) msPerDay eq_refl) as Hb.
  fold (Day (t + off)) in Hdm.
  rewrite !TimeClip_some
    by (unfold msPerDay, msPerHour, msPerMinute, msPerSecond in *; lia).
  cbn [toISOString option_map]. eexists. reflexivity.
Qed.

End WeekWindow.

Lemma C3_buttons_only_on_pending_cards_witness :
  In (LeaveRequests.ClickApprove (Sample.request "2024-01-10" "2024-01-12" "pending"))
     (LeaveRequests.offeredActions (Sample.page "2024-01-10" "2024-01-12"))
  /\ LeaveRequests.status
       (LeaveRequests.target
          (LeaveRequests.ClickApprove
             (Sample.request "2024-01-10" "2024-01-12" "pending"))) = "pending"
  /\ exists r pg',
       LeaveRequests.perform 10 (Sample.env JSDate.utcZone Supabase.noFaults)
         (LeaveRequests.ClickApprove
            (Sample.request "2024-01-10" "2024-01-12" "pending"))
         (Sample.page "2024-01-10" "2024-01-12") = Some (r, pg')
       /\ Forall2 (fun x y =>
                     Supabase.lr_id y = Supabase.lr_id x
                     /\ LeaveRequests.allowedTransition
                          (Supabase.lr_status x) (Supabase.lr_status y))
            (Supabase.leave_requests
               (LeaveRequests.db (Sample.page "2024-01-10" "2024-01-12")))
            (Supabase.leave_requests (LeaveRequests.db pg')).
Proof.
  assert (Hin : In (LeaveRequests.ClickApprove
                      (Sample.request "2024-01-10" "2024-01-12" "pending"))
                   (LeaveRequests.offeredActions
                      (Sample.page "2024-01-10" "2024-01-12")))
    by (right; left; reflexivity).
  split; [exact Hin|].
  pose proof (C3_buttons_only_on_pending_cards 10
                (Sample.env JSDate.utcZone Supabase.noFaults)
                (Sample.page "2024-01-10" "2024-01-12") _ Hin)
    as [Hst [_ [Hstep _]]].
  split; [exact Hst|].
  eexists _, _. split; [vm_compute; reflexivity|].
  eapply Hstep.
  - reflexivity.
  - cbn. constructor; [intros [] | constructor].
  - vm_compute. reflexivity.
Defined.

(** The scenario of the specification: in UTC, and in US Eastern time
    in January, approving 10 to 12 January 2024 builds three records,
    one per day. *)
Example leave_2024_01_10_to_12 :
  option_map (map Supabase.ai_check_in)
    (LeaveRequests.leaveAttendanceRecords 3 JSDate.utcZone
       (Sample.request "2024-01-10" "2024-01-12" "pending"))
  = Some [Some "2024-01-10T00:00:00.000Z"; Some "2024-01-11T00:00:00.000Z";
          Some "2024-01-12T00:00:00.000Z"]
  /\ LeaveRequests.leaveAttendanceRecords 3 JSDate.easternUS2024
       (Sample.request "2024-01-10" "2024-01-12" "pending")
     = LeaveRequests.leaveAttendanceRecords 3 JSDate.utcZone
         (Sample.request "2024-01-10" "2024-01-12" "pending").
Proof. split; vm_compute; reflexivity. Qed.

(** C1 (failing input).  In US Eastern time, approving the request for
    2 to 4 November 2024, across the end of daylight saving time on
    3 November, ends and stores leave records for 2 and 3 November
    only.  The loop steps with [setDate(getDate() + 1)] on the local
    calendar: from 2024-11-03T00:00Z it lands on 2024-11-04T01:00Z,
    after the UTC midnight held by [endDate], so 4 November gets no
    record although the request is approved. *)
Theorem C1_last_day_missed_when_clocks_go_back :
  option_map (map Supabase.ai_check_in)
    (LeaveRequests.leaveAttendanceRecords 10 JSDate.easternUS2024
       (Sample.request "2024-11-02" "2024-11-04" "pending"))
  = Some [Some "2024-11-02T00:00:00.000Z"; Some "2024-11-03T00:00:00.000Z"]
  /\ JSDate.setDate JSDate.easternUS2024 (JSDate.parse "2024-11-03")
       (JS.nadd (JSDate.getDate JSDate.easternUS2024 (JSDate.parse "2024-11-03"))
                (Some 1))
     = JSDate.parse "2024-11-04T01:00:00.000Z"
  /\ exists pg',
       Sample.after
         (LeaveRequests.handleApprove 10
            (Sample.env JSDate.easternUS2024 Supabase.noFaults)
            (Sample.request "2024-11-02" "2024-11-04" "pending"))
         (Sample.page "2024-11-02" "2024-11-04") = Some pg'
       /\ map Supabase.lr_status (Supabase.leave_requests (LeaveRequests.db pg'))
          = ["approved"]
       /\ map (fun a => JSDate.isoString (Supabase.at_check_in a))
              (Supabase.attendance (LeaveRequests.db pg'))
          = ["2024-11-02T00:00:00.000Z"; "2024-11-03T00:00:00.000Z"]
       /\ map LeaveRequests.title (LeaveRequests.toasts pg') = ["Leave approved"].
Proof.
  split; [vm_compute; reflexivity|]. split; [vm_compute; reflexivity|].
  eexists. split; [vm_compute; reflexivity|].
  repeat split; vm_compute; reflexivity.
Qed.

(** C4 (failing input).  When the insert of the leave records is
    refused by the service, [handleApprove] still ends with the toast
    "Leave approved" and no error toast: the request is approved, the
    notification is sent, and no attendance record exists.  (When only
    the notification insert is refused, the approval and the records
    stay and nothing is reported either.) *)
Theorem C4_refused_attendance_insert_reported_as_success :
  (exists pg',
     Sample.after
       (LeaveRequests.handleApprove 10
          (Sample.env JSDate.utcZone Sample.attendanceInsertFails)
          (Sample.request "2024-01-10" "2024-01-12" "pending"))
       (Sample.page "2024-01-10" "2024-01-12") = Some pg'
     /\ Supabase.attendance (LeaveRequests.db pg') = []
     /\ map Supabase.lr_status (Supabase.leave_requests (LeaveRequests.db pg'))
        = ["approved"]
     /\ map Supabase.nt_title (Supabase.notifications (LeaveRequests.db pg'))
        = ["Leave Request Approved"]
     /\ LeaveRequests.toasts pg'
        = [{| LeaveRequests.title := "Leave approved";
              LeaveRequests.description :=
                "Leave request for Dana has been approved.";
              LeaveRequests.destructive := false |}])
  /\ (exists pg',
        Sample.after
          (LeaveRequests.handleApprove 10
             (Sample.env JSDate.utcZone Sample.notificationInsertFails)
             (Sample.request "2024-01-10" "2024-01-12" "pending"))
          (Sample.page "2024-01-10" "2024-01-12") = Some pg'
        /\ List.length (Supabase.attendance (LeaveRequests.db pg')) = 3%nat
        /\ map Supabase.lr_status (Supabase.leave_requests (LeaveRequests.db pg'))
           = ["approved"]
        /\ Supabase.notifications (LeaveRequests.db pg') = []
        /\ map LeaveRequests.destructive (LeaveRequests.toasts pg') = [false]).
Proof.
  split; (eexists; split; [vm_compute; reflexivity|]);
    repeat split; vm_compute; reflexivity.
Qed.

(** ** Rounding error of double-precision operations *)

Section FloatBounds.

Import Float64.

Local Open Scope Q_scope.

Lemma pow2_pos (e : Z) : 0 < pow2 e.
Proof. apply Qpower_0_lt. reflexivity. Qed.

Lemma pow2_add (a b : Z) : pow2 (a + b) == pow2 a * pow2 b.
Proof. apply Qpower_plus. discriminate. Qed.

Lemma pow2_Z (a : Z) : (0 <= a)%Z -> pow2 a == inject_Z (2 ^ a).
Proof. intros H. unfold pow2. now rewrite Zpower_Qpower. Qed.

(** [ilog2 q] never overshoots. *)
Lemma ilog2_le (q : Q) : 0 < q -> pow2 (ilog2 q) <= q.
Proof.
  intros Hq. unfold ilog2.
  set (a := Z.log2 (Qnum q)). set (b := Z.log2 (Zpos (Qden q))).
  destruct (Qle_bool (pow2 (a - b)) q) eqn:Ht.
  - now apply Qle_bool_iff.
  - clear Ht.
    assert (Hn : (0 < Qnum q)%Z).
    { destruct q as [n d]. unfold Qlt in Hq. cbn in *. lia. }
    assert (Ha : (0 <= a)%Z) by apply Z.log2_nonneg.
    assert (Hb : (0 <= b)%Z) by apply Z.log2_nonneg.
    pose proof (proj1 (Z.log2_spec (Qnum q) Hn)) as Hlo. fold a in Hlo.
    pose proof (proj2 (Z.log2_spec (Zpos (Qden q)) eq_refl)) as Hhi. fold b in Hhi.
    assert (E : pow2 (a - b - 1) * pow2 (b + 1) == pow2 a).
    { rewrite <- pow2_add. replace (a - b - 1 + (b + 1))%Z with a by lia.
      reflexivity. }
    rewrite (pow2_Z a Ha), (pow2_Z (b + 1)) in E by lia.
    pose proof (pow2_pos (a - b - 1)) as HX.
    set (X := pow2 (a - b - 1)) in *.
    assert (HA : inject_Z (2 ^ a) <= inject_Z (Qnum q))
      by (rewrite <- Zle_Qle; exact Hlo).
    assert (HP : inject_Z (Zpos (Qden q)) < inject_Z (2 ^ (b + 1))).
    { rewrite <- Zlt_Qlt. rewrite <- Z.add_1_r in Hhi. exact Hhi. }
    assert (HD : 0 < inject_Z (Zpos (Qden q))) by reflexivity.
    assert (Hqd : q * inject_Z (Zpos (Qden q)) == inject_Z (Qnum q)).
    { destruct q as [n d]. cbn [Qnum Qden]. rewrite (Qmake_Qdiv n d).
      field. intros H0. rewrite H0 in HD. discriminate. }
    set (D := inject_Z (Zpos (Qden q))) in *.
    set (P := inject_Z (2 ^ (b + 1))) in *.
    assert (HXD : X * D <= X * P) by (apply Qmult_le_l; [exact HX | lra]).
    assert (Hfin : X * D <= q * D) by lra.
    apply Qmult_le_r in Hfin; assumption.
Qed.

Lemma rne_error (x : Q) :
  x - (1 # 2) <= inject_Z (rne x) <= x + (1 # 2).
Proof.
  unfold rne.
  pose proof (Qfloor_le x) as Hlo. pose proof (Qlt_floor x) as Hhi.
  rewrite inject_Z_plus in Hhi. change (inject_Z 1) with 1 in Hhi.
  destruct (Qcompare_spec (x - inject_Z (Qfloor x)) (1 # 2)) as [E|L|G].
  - destruct (Z.even (Qfloor x)).
    + lra.
    + rewrite inject_Z_plus. change (inject_Z 1) with 1. lra.
  - lra.
  - rewrite inject_Z_plus. change (inject_Z 1) with 1. lra.
Qed.

Lemma roundPos_error (q : Q) :
  0 < q -> pow2 (-1022) <= q ->
  q * (1 - u) <= roundPos q <= q * (1 + u).
Proof.
  intros Hq Hnormal. unfold roundPos.
  assert (Hulp : pow2 (ulpExp q) * pow2 52 <= q).
  { unfold ulpExp. rewrite <- pow2_add.
    destruct (Z.max_spec (ilog2 q - 52) (-1074)) as [[_ ->]|[_ ->]].
    - exact Hnormal.
    - replace (ilog2 q - 52 + 52)%Z with (ilog2 q) by lia.
      now apply ilog2_le. }
  pose proof (pow2_pos (ulpExp q)) as HP.
  set (P := pow2 (ulpExp q)) in *.
  pose proof (rne_error (q / P)) as [Hlo Hhi].
  set (m := inject_Z (rne (q / P))) in *.
  assert (HqP : q / P * P == q) by (field; lra).
  assert (H52 : pow2 52 == 4503599627370496) by reflexivity.
  rewrite H52 in Hulp.
  assert (Hlo' : (q / P - (1 # 2)) * P <= m * P)
    by (apply Qmult_le_compat_r; lra).
  assert (Hhi' : m * P <= (q / P + (1 # 2)) * P)
    by (apply Qmult_le_compat_r; lra).
  unfold u. split; lra.
Qed.

Lemma RN_error (q : Q) :
  0 < q -> pow2 (-1022) <= q -> q * (1 - u) <= RN q <= q * (1 + u).
Proof.
  intros Hq Hn. unfold RN.
  destruct (Qcompare_spec 0 q) as [E|L|G]; [lra | | lra].
  now apply roundPos_error.
Qed.

Lemma RN_zero (q : Q) : q == 0 -> RN q = 0.
Proof.
  intros Hq. unfold RN.
  destruct (Qcompare_spec 0 q) as [E|L|G]; [reflexivity | lra | lra].
Qed.

End FloatBounds.

(** On a grid of counts, and at some large ones, the rounding defined
    here gives the very numbers of the standard library's binary64
    division and multiplication. *)
Example rounding_agrees_with_binary64 :
  forallb (fun e =>
             forallb (fun p => Float64.agreesWithSpec (Z.of_nat p) (Z.of_nat e * 5))
                     (seq 0 50))
          (seq 1 12) = true
  /\ Float64.agreesWithSpec 201 200 = true
  /\ Float64.agreesWithSpec 4294967295 9007199254740991 = true
  /\ Float64.agreesWithSpec 123456789 4938271605 = true
  /\ Float64.agreesWithSpec 1 9007199254740990 = true.
Proof. repeat split; vm_compute; reflexivity. Qed.

(** ** The weekly rate *)

Section WeeklyRate.

Import Float64 AdminDashboard.

Local Open Scope Q_scope.

Lemma tiny_le_normal : pow2 (-1022) <= 1 # 1152921504606846976.
Proof. apply Qle_bool_iff. vm_compute. reflexivity. Qed.

(** The rounded product [Math.round(p / t * 100)] is an integer
    nearest to [100 p / t]. *)
Lemma round_percent_nearest (p t : Z) :
  (0 <= p < 2 ^ 32)%Z -> (0 < t < 2 ^ 53)%Z ->
  let r := round (mul (div (inject_Z p) (inject_Z t)) (inject_Z 100)) in
  (200 * p - t <= 2 * t * r <= 200 * p + t)%Z.
Proof.
  intros [Hp0 Hp] [Ht0 Ht] r.
  assert (HT : 0 < inject_Z t) by (change 0 with (inject_Z 0); now rewrite <- Zlt_Qlt).
  assert (HT' : inject_Z t < 9007199254740992)
    by (change 9007199254740992 with (inject_Z (2 ^ 53)); now rewrite <- Zlt_Qlt).
  destruct (Z.eq_dec p 0) as [->|Hpos].
  - (* no record: every step is exact *)
    assert (E1 : div (inject_Z 0) (inject_Z t) = 0).
    { unfold div. apply RN_zero. field. lra. }
    assert (E2 : r = 0%Z).
    { unfold r. rewrite E1. unfold mul. rewrite RN_zero by ring. reflexivity. }
    rewrite E2. lia.
  - assert (HP : 1 <= inject_Z p)
      by (change 1 with (inject_Z 1); rewrite <- Zle_Qle; lia).
    assert (HP' : inject_Z p < 4294967296)
      by (change 4294967296 with (inject_Z (2 ^ 32)); now rewrite <- Zlt_Qlt).
    pose proof tiny_le_normal as Htiny.
    set (P := inject_Z p) in *. set (T := inject_Z t) in *.
    set (y := P / T).
    assert (HyT : y * T == P) by (unfold y; field; lra).
    assert (Hy : (1 # 9007199254740992) <= y).
    { unfold y. apply Qle_shift_div_l; [exact HT | lra]. }
    pose proof (RN_error y ltac:(lra) ltac:(lra)) as [H1lo H1hi].
    fold (div P T) in H1lo, H1hi. fold y in r.
    set (x1 := RN y) in *.
    assert (Hx1 : (1 # 18014398509481984) <= x1) by (unfold u in *; lra).
    pose proof (RN_error (x1 * inject_Z 100)
                  ltac:(change (inject_Z 100) with 100; lra)
                  ltac:(change (inject_Z 100) with 100; lra)) as [H2lo H2hi].
    change (inject_Z 100) with 100 in *.
    unfold div in r. fold y in r. fold x1 in r. unfold mul in r.
    set (x2 := RN (x1 * 100)) in *.
    pose proof (Qfloor_le (x2 + (1 # 2))) as Hfl.
    pose proof (Qlt_floor (x2 + (1 # 2))) as Hfu.
    fold (round x2) in Hfl, Hfu. fold r in Hfl, Hfu.
    rewrite inject_Z_plus in Hfu. change (inject_Z 1) with 1 in Hfu.
    set (R := inject_Z r) in *.
    unfold u in *.
    (* multiply the two bounds on R by T *)
    assert (Hup : (R - (1 # 2)) * T
                  <= (100 + (1 # 10000000000000)) * y * T).
    { apply Qmult_le_compat_r; lra. }
    assert (Hdn : (100 - (1 # 10000000000000)) * y * T
                  < (R + (1 # 2)) * T).
    { apply Qmult_lt_compat_r; lra. }
    assert (Eup : (100 + (1 # 10000000000000)) * y * T
                  == (100 + (1 # 10000000000000)) * P)
      by (rewrite <- HyT; ring).
    assert (Edn : (100 - (1 # 10000000000000)) * y * T
                  == (100 - (1 # 10000000000000)) * P)
      by (rewrite <- HyT; ring).
    rewrite Eup in Hup. rewrite Edn in Hdn.
    assert (Qup : inject_Z (2 * t * r) < inject_Z (200 * p + t + 1)).
    { rewrite !inject_Z_plus, !inject_Z_mult. fold P T R.
      change (inject_Z 2) with 2. change (inject_Z 200) with 200.
      change (inject_Z 1) with 1. lra. }
    assert (Qdn : inject_Z (200 * p - t - 1) < inject_Z (2 * t * r)).
    { unfold Z.sub. rewrite !inject_Z_plus, !inject_Z_mult, !inject_Z_opp.
      fold P T R.
      change (inject_Z 2) with 2. change (inject_Z 200) with 200.
      change (inject_Z 1) with 1. lra. }
    rewrite <- Zlt_Qlt in Qup, Qdn. lia.
Qed.

End WeeklyRate.


Example dashboard_on_crowded_day :
  AdminDashboard.fetchDashboardData JSDate.utcZone (Some Sample.noon)
    Sample.noDashboardFaults Sample.crowdedDay
  = Some Sample.crowdedStats.
Proof. vm_compute. reflexivity. Qed.

Section Aggregator.

Import JSDate Supabase AdminDashboard.

(** How the statistics are put together from the query results. *)
Lemma fetchDashboardData_stats (tz : TimeZone) (today : Date) (f : Faults)
    (db : Database) (stats : DashboardStats) :
  fetchDashboardData tz today f db = Some stats ->
  exists todayStart todayEnd weekStart weekEnd,
    toISOString (startOfDay tz today) = Some todayStart
    /\ toISOString (endOfDay tz today) = Some todayEnd
    /\ toISOString (startOfWeek tz today) = Some weekStart
    /\ toISOString (endOfWeek tz today) = Some weekEnd
    /\ totalEmployees stats = JS.numOr0 (activeCount (countFails f) db)
    /\ absentToday stats
       = absentOf (activeCount (countFails f) db)
           (countOr0 (fun _ => true)
              (statusBetween (todayFails f) todayStart todayEnd db))
    /\ attendanceRate stats
       = rateOf (activeCount (countFails f) db)
           (countOr0 isPresentOrLate
              (statusBetween (weekFails f) weekStart weekEnd db)).
Proof.
  unfold fetchDashboardData.
  destruct (toISOString (startOfDay tz today)) as [ts|]; [|discriminate].
  destruct (toISOString (endOfDay tz today)) as [te|]; [|discriminate].
  destruct (toISOString (startOfWeek tz today)) as [ws|]; [|discriminate].
  destruct (toISOString (endOfWeek tz today)) as [we|]; [|discriminate].
  intros H. injection H as <-. exists ts, te, ws, we. cbn.
  repeat split; reflexivity.
Qed.

Lemma rateOf_numOr0 (employeeCount : option Z) (p : Z) :
  rateOf employeeCount p = rateOf (Some (JS.numOr0 employeeCount)) p.
Proof. destruct employeeCount; reflexivity. Qed.

End Aggregator.

(** C8.  The absent count is [max(0, E - n)] for the active-employee
    count [E] (0 when the count is missing) and the number [n] of
    attendance records found for the day, hence never negative; with
    10 employees and 12 records it is 0.  The dashboard shows exactly
    that number, with [n] the size of the answer to today's query. *)
Theorem C8_absent_is_floored_difference :
  (forall (employeeCount : option Z) (n : Z),
     AdminDashboard.absentOf employeeCount n
     = Z.max 0 (JS.numOr0 employeeCount - n)
     /\ 0 <= AdminDashboard.absentOf employeeCount n)
  /\ AdminDashboard.absentOf (Some 10) 12 = 0
  /\ (forall tz today f db stats,
        AdminDashboard.fetchDashboardData tz today f db = Some stats ->
        exists todayStart todayEnd,
          JSDate.toISOString (AdminDashboard.startOfDay tz today) = Some todayStart
          /\ JSDate.toISOString (AdminDashboard.endOfDay tz today) = Some todayEnd
          /\ AdminDashboard.absentToday stats
             = Z.max 0
                 (AdminDashboard.totalEmployees stats
                  - AdminDashboard.countOr0 (fun _ => true)
                      (AdminDashboard.statusBetween (AdminDashboard.todayFails f)
                         todayStart todayEnd db))
          /\ 0 <= AdminDashboard.absentToday stats).
Proof.
  split; [|split; [reflexivity|]].
  - intros ec n. unfold AdminDashboard.absentOf. split; [reflexivity | lia].
  - intros tz today f db stats H.
    destruct (fetchDashboardData_stats tz today f db stats H)
      as (ts & te & ws & we & Hts & Hte & _ & _ & HE & Habs & _).
    exists ts, te. split; [exact Hts|]. split; [exact Hte|].
    rewrite Habs, HE. unfold AdminDashboard.absentOf. split; [reflexivity | lia].
Qed.

Lemma C8_absent_is_floored_difference_witness :
  AdminDashboard.fetchDashboardData JSDate.utcZone (Some Sample.noon)
    Sample.noDashboardFaults Sample.crowdedDay = Some Sample.crowdedStats
  /\ exists todayStart todayEnd,
       JSDate.toISOString (AdminDashboard.startOfDay JSDate.utcZone (Some Sample.noon))
       = Some todayStart
       /\ JSDate.toISOString (AdminDashboard.endOfDay JSDate.utcZone (Some Sample.noon))
          = Some todayEnd
       /\ AdminDashboard.absentToday Sample.crowdedStats
          = Z.max 0
              (AdminDashboard.totalEmployees Sample.crowdedStats
               - AdminDashboard.countOr0 (fun _ => true)
                   (AdminDashboard.statusBetween
                      (AdminDashboard.todayFails Sample.noDashboardFaults)
                      todayStart todayEnd Sample.crowdedDay))
       /\ 0 <= AdminDashboard.absentToday Sample.crowdedStats.
Proof.
  assert (H : AdminDashboard.fetchDashboardData JSDate.utcZone (Some Sample.noon)
                Sample.noDashboardFaults Sample.crowdedDay
              = Some Sample.crowdedStats) by (vm_compute; reflexivity).
  split; [exact H|].
  exact (proj2 (proj2 C8_absent_is_floored_difference) _ _ _ _ _ H).
Defined.

(** Away from the failing input of C9: for a positive active-employee
    count [E] (with [5 E] and the number of records within the range
    of exact integers) and [p] records with status "present" or "late"
    in the week's answer, the weekly rate is an integer within one
    half of [100 p / (5 E)], and it is that quotient rounded half up
    whenever the quotient is not exactly halfway between two
    integers. *)
Lemma weekly_rate_nearest (E p : Z) :
  0 < E -> E * 5 < 2 ^ 53 -> 0 <= p < 2 ^ 32 ->
  Z.abs (2 * (E * 5) * AdminDashboard.rateOf (Some E) p - 200 * p) <= E * 5
  /\ ((200 * p + E * 5) mod (2 * (E * 5)) <> 0 ->
      AdminDashboard.rateOf (Some E) p = (200 * p + E * 5) / (2 * (E * 5))).
Proof.
  intros HE HE53 Hp.
  assert (Hr : 200 * p - E * 5 <= 2 * (E * 5) * AdminDashboard.rateOf (Some E) p
               <= 200 * p + E * 5).
  { unfold AdminDashboard.rateOf. cbn [JS.numOr0].
    destruct (Z.ltb_spec 0 (E * 5)) as [_|Hn]; [|lia].
    apply round_percent_nearest; lia. }
  set (r := AdminDashboard.rateOf (Some E) p) in *.
  split; [lia|].
  intros Hmod.
  set (t := E * 5) in *.
  assert (Ht : 0 < 2 * t) by lia.
  pose proof (Z.div_mod (200 * p + t) (2 * t) ltac:(lia)) as Hdm.
  pose proof (Z.mod_pos_bound (200 * p + t) (2 * t) Ht) as Hb.
  set (q := (200 * p + t) / (2 * t)) in *.
  set (m := (200 * p + t) mod (2 * t)) in *.
  assert (r <= q) by nia.
  assert (q <= r) by nia.
  lia.
Qed.

(** The rate shown is that of the count query and of the answer to
    the query over the week that starts on Monday; no count, or a
    count of zero, gives the rate 0. *)
Lemma weekly_rate_on_dashboard (tz : JSDate.TimeZone) (today : JSDate.Date)
    (f : AdminDashboard.Faults) (db : Supabase.Database)
    (stats : AdminDashboard.DashboardStats) :
  AdminDashboard.fetchDashboardData tz today f db = Some stats ->
  exists weekStart weekEnd,
    JSDate.toISOString (AdminDashboard.startOfWeek tz today) = Some weekStart
    /\ JSDate.toISOString (AdminDashboard.endOfWeek tz today) = Some weekEnd
    /\ AdminDashboard.attendanceRate stats
       = AdminDashboard.rateOf
           (AdminDashboard.activeCount (AdminDashboard.countFails f) db)
           (AdminDashboard.countOr0 AdminDashboard.isPresentOrLate
              (AdminDashboard.statusBetween (AdminDashboard.weekFails f)
                 weekStart weekEnd db)).
Proof.
  intros H.
  destruct (fetchDashboardData_stats tz today f db stats H)
    as (ts & te & ws & we & _ & _ & Hws & Hwe & _ & _ & Hrate).
  exists ws, we. split; [exact Hws|]. split; [exact Hwe|]. exact Hrate.
Qed.

(** C9 (failing input).  With 8 active employees and 23 records with
    status "present" or "late" in the week, the exact percentage is
    [100 * 23 / 40 = 57.5], which rounds to 58, and the dashboard
    shows 57.  The code divides first: the double nearest to [23 / 40]
    lies below it, so does the product by 100, and [Math.round]
    rounds that product down.  With 20 employees and 85 records the
    rate is 85, and with 3 employees and one record it is 7, where
    truncation would give 6. *)
Theorem C9_half_percent_is_rounded_down :
  AdminDashboard.fetchDashboardData JSDate.utcZone (Some Sample.noon)
    Sample.noDashboardFaults Sample.tiedWeek = Some Sample.tiedStats
  /\ AdminDashboard.activeCount false Sample.tiedWeek = Some 8
  /\ (exists weekStart weekEnd,
        JSDate.toISOString (AdminDashboard.startOfWeek JSDate.utcZone (Some Sample.noon))
        = Some weekStart
        /\ JSDate.toISOString (AdminDashboard.endOfWeek JSDate.utcZone (Some Sample.noon))
           = Some weekEnd
        /\ weekStart = "2024-01-08T00:00:00.000Z"
        /\ weekEnd = "2024-01-14T23:59:59.999Z"
        /\ AdminDashboard.countOr0 AdminDashboard.isPresentOrLate
             (AdminDashboard.statusBetween false weekStart weekEnd Sample.tiedWeek)
           = 23)
  /\ AdminDashboard.attendanceRate Sample.tiedStats = 57
  /\ AdminDashboard.rateOf (Some 8) 23 = 57
  /\ 2 * (100 * 23) = 115 * (8 * 5)
  /\ Float64.round (115 # 2) = 58
  /\ (Float64.div (inject_Z 23) (inject_Z 40) < 23 # 40)%Q
  /\ (Float64.mul (Float64.div (inject_Z 23) (inject_Z 40)) (inject_Z 100)
      < 115 # 2)%Q
  /\ AdminDashboard.rateOf (Some 20) 85 = 85
  /\ AdminDashboard.rateOf (Some 3) 1 = 7.
Proof.
  split; [vm_compute; reflexivity|].
  split; [vm_compute; reflexivity|].
  split.
  { eexists _, _. split; [vm_compute; reflexivity|].
    split; [vm_compute; reflexivity|].
    split; [reflexivity|]. split; [reflexivity|]. vm_compute. reflexivity. }
  repeat split; vm_compute; reflexivity.
Qed.

(** ** Date texts: what is written is read back *)

Section DateTexts.

Import JSDate.

Lemma padReads_4 : forallb (DateText.padReads 4) (seq 0 (Z.to_nat 10000)) = true.
Proof. vm_compute. reflexivity. Qed.
Lemma padReads_3 : forallb (DateText.padReads 3) (seq 0 (Z.to_nat 1000)) = true.
Proof. vm_compute. reflexivity. Qed.
Lemma padReads_2 : forallb (DateText.padReads 2) (seq 0 (Z.to_nat 100)) = true.
Proof. vm_compute. reflexivity. Qed.

Lemma pad_reads (w : nat) (bound : Z) (n : Z) :
  forallb (DateText.padReads w) (seq 0 (Z.to_nat bound)) = true ->
  0 <= n < bound ->
  String.length (pad w n) = w /\ allDigits (pad w n) = true
  /\ JS.digitsFrom 10 None (pad w n) = Some n.
Proof.
  intros H Hn. rewrite forallb_forall in H.
  specialize (H (Z.to_nat n) ltac:(apply in_seq; lia)).
  unfold DateText.padReads in H. rewrite Z2Nat.id in H by lia.
  apply andb_prop in H as [H H3]. apply andb_prop in H as [H1 H2].
  apply Nat.eqb_eq in H1.
  destruct (JS.digitsFrom 10 None (pad w n)) as [v|]; [|discriminate].
  apply Z.eqb_eq in H3. subst v. auto.
Qed.

Lemma substring_app_left (a b : string) :
  substring 0 (String.length a) (a ++ b) = a.
Proof.
  induction a as [|c a IH]; cbn.
  - destruct b; reflexivity.
  - now rewrite IH.
Qed.

Lemma substring_app_skip (a b : string) (k len : nat) :
  substring (String.length a + k) len (a ++ b) = substring k len b.
Proof. induction a as [|c a IH]; cbn; [reflexivity | exact IH]. Qed.

Lemma get_app_skip (a b : string) (k : nat) :
  String.get (String.length a + k) (a ++ b) = String.get k b.
Proof. induction a as [|c a IH]; cbn; [reflexivity | exact IH]. Qed.

Lemma length_app (a b : string) :
  String.length (a ++ b) = (String.length a + String.length b)%nat.
Proof. induction a as [|c a IH]; cbn; [reflexivity | now rewrite IH]. Qed.


Lemma field_skip (a b : string) (n k len : nat) :
  String.length a = n -> field (a ++ b) (n + k) len = field b k len.
Proof. intros <-. unfold field. now rewrite substring_app_skip. Qed.

Lemma field_here (a b : string) (n : nat) :
  String.length a = n -> allDigits a = true ->
  field (a ++ b) 0 n = JS.digitsFrom 10 None a.
Proof.
  intros <- Hd. unfold field.
  now rewrite substring_app_left, Hd, Nat.eqb_refl.
Qed.

Lemma charAt_skip (a b : string) (n k : nat) (c : ascii) :
  String.length a = n -> charAt (a ++ b) (n + k) c = charAt b k c.
Proof. intros <-. unfold charAt. now rewrite get_app_skip. Qed.

Lemma charAt_here (c : ascii) (b : string) : charAt (String c b) 0 c = true.
Proof. unfold charAt. cbn. apply Ascii.eqb_refl. Qed.

(** Reading back a date written field by field. *)
Lemma parseDay_written (Y Mo D rest : string) (y mo d : Z) :
  String.length Y = 4%nat -> String.length Mo = 2%nat -> String.length D = 2%nat ->
  allDigits Y = true -> allDigits Mo = true -> allDigits D = true ->
  JS.digitsFrom 10 None Y = Some y ->
  JS.digitsFrom 10 None Mo = Some mo ->
  JS.digitsFrom 10 None D = Some d ->
  1 <= mo <= 12 -> 1 <= d <= 31 ->
  parseDay (Y ++ String "-" (Mo ++ String "-" (D ++ rest)))
  = Some (MakeDay y (mo - 1) d).
Proof.
  intros LY LM LD AY AM AD VY VM VD Hmo Hd. unfold parseDay.
  rewrite (field_here Y _ 4 LY AY), VY.
  change 5%nat with (4 + 1)%nat. rewrite (field_skip Y _ 4 1 2 LY).
  change (field (String "-" ?x) 1 2) with (field x 0 2).
  rewrite (field_here Mo _ 2 LM AM), VM.
  change 8%nat with (4 + 4)%nat. rewrite (field_skip Y _ 4 4 2 LY).
  change (field (String "-" (Mo ++ ?x)) 4 2) with (field (Mo ++ x) (2 + 1) 2).
  rewrite (field_skip Mo _ 2 1 2 LM).
  change (field (String "-" ?x) 1 2) with (field x 0 2).
  rewrite (field_here D _ 2 LD AD), VD.
  change 4%nat with (4 + 0)%nat at 1. rewrite (charAt_skip Y _ 4 0 _ LY), charAt_here.
  change 7%nat with (4 + 3)%nat. rewrite (charAt_skip Y _ 4 3 _ LY).
  change (charAt (String "-" (Mo ++ ?x)) 3 ?c) with (charAt (Mo ++ x) (2 + 0) c).
  rewrite (charAt_skip Mo _ 2 0 _ LM), charAt_here.
  cbn [andb].
  destruct (Z.leb_spec 1 mo); [|lia]. destruct (Z.leb_spec mo 12); [|lia].
  destruct (Z.leb_spec 1 d); [|lia]. destruct (Z.leb_spec d 31); [|lia].
  reflexivity.
Qed.

Lemma append_assoc' (a b c : string) : ((a ++ b) ++ c = a ++ (b ++ c))%string.
Proof. induction a as [|x a IH]; cbn; [reflexivity | now rewrite IH]. Qed.

Lemma parseClock_written (P H Mi S Ms : string) (h mi s ms : Z) :
  String.length P = 10%nat ->
  String.length H = 2%nat -> String.length Mi = 2%nat ->
  String.length S = 2%nat -> String.length Ms = 3%nat ->
  allDigits H = true -> allDigits Mi = true -> allDigits S = true ->
  allDigits Ms = true ->
  JS.digitsFrom 10 None H = Some h -> JS.digitsFrom 10 None Mi = Some mi ->
  JS.digitsFrom 10 None S = Some s -> JS.digitsFrom 10 None Ms = Some ms ->
  h <= 23 -> mi <= 59 -> s <= 59 ->
  parseClock (P ++ String "T" (H ++ String ":" (Mi ++ String ":"
                (S ++ String "." (Ms ++ "Z")))))
  = Some (MakeTime h mi s ms).
Proof.
  intros LP LH LMi LS LMs AH AMi AS AMs VH VMi VS VMs Hh Hmi Hs.
  unfold parseClock.
  change 11%nat with (10 + 1)%nat. rewrite (field_skip P _ 10 1 2 LP).
  change (field (String "T" ?x) 1 2) with (field x 0 2).
  rewrite (field_here H _ 2 LH AH), VH.
  change 14%nat with (10 + 4)%nat. rewrite (field_skip P _ 10 4 2 LP).
  change (field (String "T" (H ++ ?x)) 4 2) with (field (H ++ x) (2 + 1) 2).
  rewrite (field_skip H _ 2 1 2 LH).
  change (field (String ":" ?x) 1 2) with (field x 0 2).
  rewrite (field_here Mi _ 2 LMi AMi), VMi.
  change 17%nat with (10 + 7)%nat. rewrite (field_skip P _ 10 7 2 LP).
  change (field (String "T" (H ++ ?x)) 7 2) with (field (H ++ x) (2 + 4) 2).
  rewrite (field_skip H _ 2 4 2 LH).
  change (field (String ":" (Mi ++ ?x)) 4 2) with (field (Mi ++ x) (2 + 1) 2).
  rewrite (field_skip Mi _ 2 1 2 LMi).
  change (field (String ":" ?x) 1 2) with (field x 0 2).
  rewrite (field_here S _ 2 LS AS), VS.
  change 20%nat with (10 + 10)%nat. rewrite (field_skip P _ 10 10 3 LP).
  change (field (String "T" (H ++ ?x)) 10 3) with (field (H ++ x) (2 + 7) 3).
  rewrite (field_skip H _ 2 7 3 LH).
  change (field (String ":" (Mi ++ ?x)) 7 3) with (field (Mi ++ x) (2 + 4) 3).
  rewrite (field_skip Mi _ 2 4 3 LMi).
  change (field (String ":" (S ++ ?x)) 4 3) with (field (S ++ x) (2 + 1) 3).
  rewrite (field_skip S _ 2 1 3 LS).
  change (field (String "." ?x) 1 3) with (field x 0 3).
  rewrite (field_here Ms _ 3 LMs AMs), VMs.
  change 10%nat with (10 + 0)%nat at 1. rewrite (charAt_skip P _ 10 0 _ LP), charAt_here.
  change 13%nat with (10 + 3)%nat. rewrite (charAt_skip P _ 10 3 _ LP).
  change (charAt (String "T" (H ++ ?x)) 3 ?c) with (charAt (H ++ x) (2 + 0) c).
  rewrite (charAt_skip H _ 2 0 _ LH), charAt_here.
  change 16%nat with (10 + 6)%nat. rewrite (charAt_skip P _ 10 6 _ LP).
  change (charAt (String "T" (H ++ ?x)) 6 ?c) with (charAt (H ++ x) (2 + 3) c).
  rewrite (charAt_skip H _ 2 3 _ LH).
  change (charAt (String ":" (Mi ++ ?x)) 3 ?c) with (charAt (Mi ++ x) (2 + 0) c).
  rewrite (charAt_skip Mi _ 2 0 _ LMi), charAt_here.
  change 19%nat with (10 + 9)%nat. rewrite (charAt_skip P _ 10 9 _ LP).
  change (charAt (String "T" (H ++ ?x)) 9 ?c) with (charAt (H ++ x) (2 + 6) c).
  rewrite (charAt_skip H _ 2 6 _ LH).
  change (charAt (String ":" (Mi ++ ?x)) 6 ?c) with (charAt (Mi ++ x) (2 + 3) c).
  rewrite (charAt_skip Mi _ 2 3 _ LMi).
  change (charAt (String ":" (S ++ ?x)) 3 ?c) with (charAt (S ++ x) (2 + 0) c).
  rewrite (charAt_skip S _ 2 0 _ LS), charAt_here.
  change 23%nat with (10 + 13)%nat. rewrite (charAt_skip P _ 10 13 _ LP).
  change (charAt (String "T" (H ++ ?x)) 13 ?c) with (charAt (H ++ x) (2 + 10) c).
  rewrite (charAt_skip H _ 2 10 _ LH).
  change (charAt (String ":" (Mi ++ ?x)) 10 ?c) with (charAt (Mi ++ x) (2 + 7) c).
  rewrite (charAt_skip Mi _ 2 7 _ LMi).
  change (charAt (String ":" (S ++ ?x)) 7 ?c) with (charAt (S ++ x) (2 + 4) c).
  rewrite (charAt_skip S _ 2 4 _ LS).
  change (charAt (String "." (Ms ++ ?x)) 4 ?c) with (charAt (Ms ++ x) (3 + 0) c).
  rewrite (charAt_skip Ms _ 3 0 _ LMs), charAt_here.
  cbn [andb].
  destruct (Z.leb_spec h 23); [|lia]. destruct (Z.leb_spec mi 59); [|lia].
  destruct (Z.leb_spec s 59); [|lia]. reflexivity.
Qed.

Lemma DayFromYear_next (y : Z) :
  DayFromYear (y + 1) = DayFromYear y + DaysInYear y.
Proof.
  unfold DayFromYear, DaysInYear.
  destruct (Z.eqb_spec (y mod 4) 0); destruct (Z.eqb_spec (y mod 100) 0);
    destruct (Z.eqb_spec (y mod 400) 0); cbn [negb];
    Z.div_mod_to_equations; lia.
Qed.

Lemma DayWithinYear_range (t : Z) :
  0 <= DayWithinYear t < DaysInYear (YearFromTime t).
Proof.
  pose proof (YearFromTime_spec t) as H.
  unfold TimeFromYear in H. rewrite DayFromYear_next in H.
  unfold DayWithinYear, Day.
  pose proof (Z.div_mod t msPerDay ltac:(discriminate)) as Hdm.
  pose proof (Z.mod_pos_bound t msPerDay eq_refl) as Hb.
  unfold msPerDay in *. lia.
Qed.

Lemma DateFromTime_range (t : Z) : 1 <= DateFromTime t <= 31.
Proof.
  pose proof (DayWithinYear_range t) as H.
  unfold DateFromTime, MonthFromTime, InLeapYear.
  assert (Hy : DaysInYear (YearFromTime t) = 365 \/ DaysInYear (YearFromTime t) = 366).
  { unfold DaysInYear. repeat match goal with |- context [if ?b then _ else _] => destruct b end; auto. }
  destruct Hy as [Hy|Hy]; rewrite Hy in *; cbn [Z.eqb Pos.eqb];
    set (d := DayWithinYear t) in *; clearbody d;
    cbn [monthStart Z.leb Z.eqb Z.compare Pos.compare Pos.compare_cont Pos.eqb Z.add Pos.add];
    repeat match goal with
           | |- context [if ?x <? ?y then _ else _] => destruct (Z.ltb_spec x y)
           end; cbn; lia.
Qed.

Lemma MakeTime_parts (t : Z) :
  MakeTime (HourFromTime t) (MinFromTime t) (SecFromTime t) (msFromTime t)
  = TimeWithinDay t.
Proof.
  unfold MakeTime, HourFromTime, MinFromTime, SecFromTime, msFromTime,
    TimeWithinDay, msPerHour, msPerMinute, msPerSecond, msPerDay.
  Z.div_mod_to_equations. lia.
Qed.

Lemma clock_ranges (t : Z) :
  0 <= HourFromTime t < 24 /\ 0 <= MinFromTime t < 60
  /\ 0 <= SecFromTime t < 60 /\ 0 <= msFromTime t < 1000.
Proof.
  unfold HourFromTime, MinFromTime, SecFromTime, msFromTime, msPerSecond.
  repeat split; try (apply Z.mod_pos_bound; reflexivity).
  all: apply Z.mod_pos_bound; reflexivity.
Qed.

Lemma year_bounds_time (t : Z) :
  0 <= YearFromTime t <= 9999 -> Z.abs t <= 8640000000000000.
Proof.
  intros Hy. pose proof (YearFromTime_spec t) as H.
  unfold TimeFromYear, DayFromYear, msPerDay in H.
  set (y := YearFromTime t) in *. clearbody y.
  Z.div_mod_to_equations. lia.
Qed.

(** What [toISOString] writes, [new Date] reads back. *)
Lemma parse_isoString (t : Z) :
  0 <= YearFromTime t <= 9999 -> parse (isoString t) = Some t.
Proof.
  intros Hy.
  pose proof (MonthFromTime_range t) as Hm.
  pose proof (DateFromTime_range t) as Hd.
  destruct (clock_ranges t) as (Hh & Hmi & Hs & Hms).
  destruct (pad_reads 4 10000 (YearFromTime t) padReads_4 ltac:(lia)) as (LY & AY & VY).
  destruct (pad_reads 2 100 (MonthFromTime t + 1) padReads_2 ltac:(lia)) as (LM & AM & VM).
  destruct (pad_reads 2 100 (DateFromTime t) padReads_2 ltac:(lia)) as (LD & AD & VD).
  destruct (pad_reads 2 100 (HourFromTime t) padReads_2 ltac:(lia)) as (LH & AH & VH).
  destruct (pad_reads 2 100 (MinFromTime t) padReads_2 ltac:(lia)) as (LMi & AMi & VMi).
  destruct (pad_reads 2 100 (SecFromTime t) padReads_2 ltac:(lia)) as (LS & AS & VS).
  destruct (pad_reads 3 1000 (msFromTime t) padReads_3 ltac:(lia)) as (LMs & AMs & VMs).
  unfold isoString, isoYear.
  destruct (Z.leb_spec 0 (YearFromTime t)) as [_|Hbad]; [|lia].
  destruct (Z.leb_spec (YearFromTime t) 9999) as [_|Hbad]; [|lia]. cbn [andb].
  set (Y := pad 4 (YearFromTime t)) in *.
  set (Mo := pad 2 (MonthFromTime t + 1)) in *.
  set (D := pad 2 (DateFromTime t)) in *.
  set (Hh' := pad 2 (HourFromTime t)) in *.
  set (Mi := pad 2 (MinFromTime t)) in *.
  set (S := pad 2 (SecFromTime t)) in *.
  set (Ms := pad 3 (msFromTime t)) in *.
  change (Y ++ "-" ++ Mo ++ "-" ++ D ++ "T" ++ Hh' ++ ":" ++ Mi ++ ":" ++ S ++ "." ++ Ms ++ "Z")%string
    with (Y ++ String "-" (Mo ++ String "-" (D ++ String "T" (Hh' ++ String ":"
            (Mi ++ String ":" (S ++ String "." (Ms ++ "Z")))))))%string.
  set (R := String "T" (Hh' ++ String ":" (Mi ++ String ":" (S ++ String "." (Ms ++ "Z"))))).
  assert (LR : String.length R = 14%nat).
  { unfold R. repeat (progress cbn [String.length] || rewrite length_app).
    rewrite LH, LMi, LS, LMs. reflexivity. }
  assert (Ltot : String.length (Y ++ String "-" (Mo ++ String "-" (D ++ R))) = 24%nat).
  { repeat (progress cbn [String.length] || rewrite length_app).
    rewrite LY, LM, LD, LR. reflexivity. }
  unfold parse. rewrite Ltot.
  rewrite (parseDay_written Y Mo D R _ _ _ LY LM LD AY AM AD VY VM VD) by lia.
  assert (E : (Y ++ String "-" (Mo ++ String "-" (D ++ R))
               = (Y ++ String "-" (Mo ++ String "-" D)) ++ R)%string).
  { rewrite append_assoc'. cbn [append]. rewrite append_assoc'. reflexivity. }
  rewrite E.
  assert (LP : String.length (Y ++ String "-" (Mo ++ String "-" D)) = 10%nat).
  { repeat (progress cbn [String.length] || rewrite length_app).
    rewrite LY, LM, LD. reflexivity. }
  unfold R.
  rewrite (parseClock_written _ Hh' Mi S Ms _ _ _ _ LP LH LMi LS LMs
             AH AMi AS AMs VH VMi VS VMs) by lia.
  replace (MonthFromTime t + 1 - 1) with (MonthFromTime t) by lia.
  pose proof (MakeDay_same_month t 0) as Hday. rewrite Z.add_0_r in Hday.
  rewrite Z.add_0_r in Hday.
  rewrite Hday, MakeTime_parts.
  unfold MakeDate, Day, TimeWithinDay.
  pose proof (Z.div_mod t msPerDay ltac:(discriminate)) as Hdm.
  replace (t / msPerDay * msPerDay + t mod msPerDay) with t by lia.
  apply TimeClip_some. now apply year_bounds_time.
Qed.

Lemma digit_bound (c : ascii) (d : Z) :
  JS.digitValue 10 c = Some d -> 0 <= d <= 9.
Proof.
  unfold JS.digitValue.
  set (n := JS.code c).
  assert (Hn : 0 <= n) by (unfold n, JS.code; lia).
  destruct ((48 <=? n) && (n <=? 57)) eqn:E1.
  - apply andb_prop in E1 as [A B]. apply Z.leb_le in A, B.
    destruct (Z.ltb_spec (n - 48) 10); [|discriminate].
    intros H0. injection H0 as <-. lia.
  - destruct ((97 <=? n) && (n <=? 102)) eqn:E2.
    + apply andb_prop in E2 as [A B]. apply Z.leb_le in A, B.
      destruct (Z.ltb_spec (n - 87) 10); [lia | discriminate].
    + destruct ((65 <=? n) && (n <=? 70)) eqn:E3; [|discriminate].
      apply andb_prop in E3 as [A B]. apply Z.leb_le in A, B.
      destruct (Z.ltb_spec (n - 55) 10); [lia | discriminate].
Qed.

Lemma field4_bound (str : string) (pos : nat) (y : Z) :
  field str pos 4 = Some y -> 0 <= y <= 9999.
Proof.
  unfold field. set (f := substring pos 4 str). clearbody f.
  destruct (allDigits f) eqn:A; [|discriminate].
  destruct (String.length f =? 4)%nat eqn:L; [|discriminate].
  apply Nat.eqb_eq in L. cbn [andb].
  destruct f as [|c1 [|c2 [|c3 [|c4 [|c5 f]]]]]; try discriminate.
  cbn in A. cbn [JS.digitsFrom].
  destruct (JS.digitValue 10 c1) as [d1|] eqn:D1; [|discriminate].
  destruct (JS.digitValue 10 c2) as [d2|] eqn:D2; [|discriminate].
  destruct (JS.digitValue 10 c3) as [d3|] eqn:D3; [|discriminate].
  destruct (JS.digitValue 10 c4) as [d4|] eqn:D4; [|discriminate].
  apply digit_bound in D1, D2, D3, D4.
  intros H. injection H as <-. lia.
Qed.

Lemma DayFromYear_mono (y1 y2 : Z) :
  y1 <= y2 -> DayFromYear y1 <= DayFromYear y2.
Proof. intros H. unfold DayFromYear. Z.div_mod_to_equations. lia. Qed.

Lemma year_in_range (t : Z) :
  TimeFromYear 0 <= t < TimeFromYear 10000 -> 0 <= YearFromTime t <= 9999.
Proof.
  intros [Hlo Hhi]. pose proof (YearFromTime_spec t) as [Sl Su].
  unfold TimeFromYear in *.
  split.
  - destruct (Z_le_gt_dec 0 (YearFromTime t)) as [|Hneg]; [assumption|].
    pose proof (DayFromYear_mono (YearFromTime t + 1) 0 ltac:(lia)).
    unfold msPerDay in *. lia.
  - destruct (Z_le_gt_dec (YearFromTime t) 9999) as [|Hbig]; [assumption|].
    pose proof (DayFromYear_mono 10000 (YearFromTime t) ltac:(lia)).
    unfold msPerDay in *. lia.
Qed.

Lemma monthStart_range (leap : bool) (m : Z) :
  0 <= monthStart leap m <= 334 + (if leap then 1 else 0).
Proof.
  unfold monthStart.
  destruct leap;
    repeat match goal with
           | |- context [if ?b then _ else _] => destruct b
           end; lia.
Qed.

(** A date-only text denotes a midnight of the years 0 to 9999. *)
Lemma parse_date_range (str : string) (s : Z) :
  String.length str = 10%nat -> parse str = Some s ->
  TimeFromYear 0 <= s < TimeFromYear 10000.
Proof.
  unfold parse. intros ->. unfold parseDay.
  destruct (field str 0 4) as [y|] eqn:Fy; [|discriminate].
  destruct (field str 5 2) as [m|]; [|discriminate].
  destruct (field str 8 2) as [d|]; [|discriminate].
  destruct (charAt str 4 "-" && charAt str 7 "-" && (1 <=? m) && (m <=? 12)
            && (1 <=? d) && (d <=? 31)) eqn:C; [|discriminate].
  repeat (apply andb_prop in C as [C ?]).
  repeat match goal with H : (_ <=? _) = true |- _ => apply Z.leb_le in H end.
  apply field4_bound in Fy.
  intros Hc. apply TimeClip_bound in Hc as [-> _].
  unfold MakeDate, MakeDay, TimeFromYear.
  rewrite (Z.div_small (m - 1) 12) by lia.
  rewrite (Z.mod_small (m - 1) 12) by lia.
  replace (y + 0) with y by lia.
  pose proof (monthStart_range (DaysInYear y =? 366) (m - 1)) as Hms.
  pose proof (DayFromYear_mono 0 y ltac:(lia)) as Hy0.
  pose proof (DayFromYear_mono (y + 1) 10000 ltac:(lia)) as Hy1.
  rewrite DayFromYear_next in Hy1.
  assert (Hdy : DaysInYear y = 365 \/ DaysInYear y = 366).
  { unfold DaysInYear. repeat match goal with |- context [if ?b then _ else _] => destruct b end; auto. }
  set (ms := monthStart (DaysInYear y =? 366) (m - 1)) in *. clearbody ms.
  destruct (Z.eqb_spec (DaysInYear y) 366) as [E|E]; cbv iota in Hms;
    unfold msPerDay; lia.
Qed.

End DateTexts.

(** ** Further properties of the leave page *)

Section LeaveRows.

Import JSDate Supabase LeaveRequests LeaveDays.

Lemma daysFrom_between (s e t : Z) :
  In t (daysFrom (dayCount s e) s) -> s <= t <= e.
Proof.
  unfold daysFrom, dayCount. intros H.
  apply in_map_iff in H as [i [<- Hi]]. apply in_seq in Hi.
  destruct (Z.leb_spec s e) as [Hle|Hgt]; [|cbn in Hi; lia].
  assert (0 <= (e - s) / msPerDay) by (apply Z.div_pos; [lia | reflexivity]).
  rewrite Nat.add_0_l in Hi.
  assert (Hi' : Z.of_nat i <= (e - s) / msPerDay) by lia.
  pose proof (Z.div_mod (e - s) msPerDay ltac:(discriminate)) as Hdm.
  pose proof (Z.mod_pos_bound (e - s) msPerDay eq_refl) as Hb.
  unfold msPerDay in *. nia.
Qed.

Lemma rows_of_leave_records (now : Z) (request : LeaveRequest) (ts : list Z) :
  (forall t, In t ts -> 0 <= YearFromTime t <= 9999) ->
  attendanceRowsOf now (map (leaveRecord request) ts)
  = Some (map (leaveRow request) ts).
Proof.
  induction ts as [|t rest IH]; intros H; [reflexivity|].
  cbn [map attendanceRowsOf]. rewrite IH by (intros; apply H; now right).
  unfold attendanceRowOf, leaveRecord. cbn [ai_check_in ai_user_id ai_status ai_notes].
  rewrite parse_isoString by (apply H; now left). reflexivity.
Qed.

Lemma TimeFromYear_mono (y1 y2 : Z) :
  y1 <= y2 -> TimeFromYear y1 <= TimeFromYear y2.
Proof.
  intros H. unfold TimeFromYear. pose proof (DayFromYear_mono _ _ H).
  unfold msPerDay. lia.
Qed.


(** X1.  In a zone whose offset never changes, with an admin signed
    in and the update and the insert accepted, [handleApprove] ends
    and appends to the attendance table exactly one row for each
    calendar day from [start_date] to [end_date], both included (none
    when the dates are out of order): each row belongs to the
    requester, is stamped with the UTC midnight of its day, has
    status "leave", no check-out, and the reason in its notes. *)
Theorem X1_approve_stores_one_row_per_day_fixed_zone
    (off : Z) (fuel : nat) (env : Env) (request : LeaveRequest) (pg : Page)
    (uid : string) (s e : Z) :
  tz env = fixedZone off ->
  user env = Some uid ->
  leaveUpdateError (faults env) = None ->
  attendanceInsertError (faults env) = None ->
  String.length (start_date request) = 10%nat ->
  String.length (end_date request) = 10%nat ->
  parse (start_date request) = Some s ->
  parse (end_date request) = Some e ->
  (dayCount s e <= fuel)%nat ->
  exists r pg',
    handleApprove fuel env request pg = Some (r, pg')
    /\ attendance (db pg')
       = (attendance (db pg)
          ++ map (leaveRow request) (daysFrom (dayCount s e) s))%list
    /\ Forall (fun t => TimeWithinDay t = 0) (daysFrom (dayCount s e) s)
    /\ map Day (daysFrom (dayCount s e) s)
       = map (fun i => Day s + Z.of_nat i) (seq 0 (dayCount s e))
    /\ (s <= e -> Z.of_nat (dayCount s e) = Day e - Day s + 1)
    /\ (e < s -> dayCount s e = 0%nat).
Proof.
  intros Htz Hu Hfu Hfa Ls Le Hs He Hfuel.
  pose proof (leave_records_one_per_day_fixed_zone off request s e fuel Hs He Hfuel)
    as Hrecs.
  pose proof (parse_date_range _ _ Ls Hs) as Rs.
  pose proof (parse_date_range _ _ Le He) as Re.
  pose proof (date_only_is_midnight _ _ Ls Hs) as Ms.
  pose proof (date_only_is_midnight _ _ Le He) as Me.
  assert (Hrows : attendanceRowsOf (now env)
                    (map (leaveRecord request) (daysFrom (dayCount s e) s))
                  = Some (map (leaveRow request) (daysFrom (dayCount s e) s))).
  { apply rows_of_leave_records. intros t Ht.
    apply daysFrom_between in Ht. apply year_in_range. lia. }
  pose proof (handleApprove_run fuel env request pg) as Hrun.
  rewrite Htz in Hrun.
  destruct (handleApprove fuel env request pg) as [[r pg']|].
  2:{ destruct Hrun as (_ & _ & Hnone). rewrite Hrecs in Hnone. discriminate. }
  destruct Hrun as [_ Hrun].
  destruct (Hrun uid Hu Hfu) as (_ & recs & Hr & _ & Hatt).
  rewrite Hrecs in Hr. injection Hr as <-.
  exists r, pg'. split; [reflexivity|].
  split; [exact (Hatt Hfa _ Hrows)|].
  destruct (daysFrom_midnights (dayCount s e) s Ms) as [Hmid Hdays].
  split; [exact Hmid|]. split; [exact Hdays|].
  unfold dayCount, Day, TimeWithinDay in *.
  destruct (Z.leb_spec s e) as [Hle|Hgt]; split; intros; try lia; try reflexivity.
  assert (0 <= (e - s) / msPerDay) by (apply Z.div_pos; [lia | reflexivity]).
  rewrite Z2Nat.id by lia.
  unfold msPerDay in *. Z.div_mod_to_equations. lia.
Qed.

Lemma reversed_dates_no_records (fuel : nat) (zone : TimeZone)
    (request : LeaveRequest) (s e : Z) :
  parse (start_date request) = Some s ->
  parse (end_date request) = Some e ->
  e < s ->
  leaveAttendanceRecords fuel zone request = Some [].
Proof.
  intros Hs He Hlt. unfold leaveAttendanceRecords. rewrite Hs, He.
  assert (Hle : JSDate.le (Some s) (Some e) = false)
    by (cbn; apply Z.leb_gt; lia).
  destruct fuel; cbn [leaveLoop]; rewrite Hle; reflexivity.
Qed.

(** X2.  Nothing in [handleApprove] compares the two dates.  When
    [end_date] precedes [start_date], in every time zone and whatever
    the fate of the inserts, the handler ends normally: the request
    is stamped approved, the requester is notified, the success toast
    is shown, and no attendance row is stored. *)
Theorem X2_approve_reversed_dates_stores_nothing
    (fuel : nat) (env : Env) (request : LeaveRequest) (pg : Page)
    (uid : string) (s e : Z) :
  user env = Some uid ->
  leaveUpdateError (faults env) = None ->
  parse (start_date request) = Some s ->
  parse (end_date request) = Some e ->
  e < s ->
  exists pg',
    handleApprove fuel env request pg = Some (inl tt, pg')
    /\ attendance (db pg') = attendance (db pg)
    /\ leave_requests (db pg')
       = map (fun x => if String.eqb (lr_id x) (id request)
                       then patchLeave "approved" uid (isoString (now env)) x
                       else x) (leave_requests (db pg))
    /\ toasts pg'
       = (toasts pg
          ++ [{| title := "Leave approved";
                 description := ("Leave request for "
                                 ++ interpolate (user_full_name request)
                                 ++ " has been approved.")%string;
                 destructive := false |}])%list
    /\ (notificationInsertError (faults env) = None ->
        exists n,
          notifications (db pg') = (notifications (db pg) ++ [n])%list
          /\ nt_user_id n = user_id request
          /\ nt_title n = "Leave Request Approved").
Proof.
  destruct env as [z nw u [fs fu fa fn]]. destruct pg as [d rs pid ts].
  cbn [user faults leaveUpdateError notificationInsertError tz now].
  intros -> -> Hs He Hlt.
  pose proof (reversed_dates_no_records fuel z request s e Hs He Hlt) as Hrecs.
  unfold handleApprove. cbn [user].
  unfold bind, tryCatchFinally, approveBody, bind, call, updateLeave,
    throwIf, setProcessingId, throw, ret.
  cbn [faults leaveUpdateError notificationInsertError attendanceInsertError
       tz now db requests processingId toasts fst snd].
  rewrite Hrecs, Hs, He.
  unfold formatOrThrow, insertNotification, toast, throw, ret.
  cbn [faults attendanceInsertError notificationInsertError db requests
       processingId toasts format_MMM_d List.length Z.of_nat Z.ltb Z.compare].
  destruct fn as [en|]; cbn; eexists; (split; [reflexivity|]);
    cbn; repeat split; try reflexivity; intros; try discriminate.
  eexists. split; [reflexivity|]. split; reflexivity.
Qed.

(** X3.  When the service refuses the update of the request, both
    handlers stop there: the tables and the list are untouched, the
    processing mark is cleared, and the only effect is one destructive
    toast.  [handleApprove] shows the message of the error (its
    default text only when that message is empty); [handleDecline]
    shows it only for an [Error] instance, its default text
    otherwise. *)
Theorem X3_refused_update_changes_nothing
    (fuel : nat) (env : Env) (request : LeaveRequest) (pg : Page)
    (uid : string) (err : Exn) :
  user env = Some uid ->
  leaveUpdateError (faults env) = Some err ->
  handleApprove fuel env request pg
  = Some (inl tt, {| db := db pg; requests := requests pg;
                     processingId := None;
                     toasts := (toasts pg ++ [approveErrorToast err])%list |})
  /\ handleDecline env request pg
     = Some (inl tt, {| db := db pg; requests := requests pg;
                        processingId := None;
                        toasts := (toasts pg ++ [declineErrorToast err])%list |}).
Proof.
  destruct env as [z nw u [fs fu fa fn]]. destruct pg as [d rs pid ts].
  cbn [user faults leaveUpdateError]. intros -> ->.
  split; reflexivity.
Qed.

Lemma patched_row_status (st by_ at_ key : string) (rows : list LeaveRow)
    (x : LeaveRow) :
  In x (map (fun x => if String.eqb (lr_id x) key
                      then patchLeave st by_ at_ x else x) rows) ->
  lr_id x = key -> lr_status x = st.
Proof.
  intros Hin Hid. apply in_map_iff in Hin as [y [Hy _]].
  destruct (String.eqb_spec (lr_id y) key) as [E|E].
  - subst x. reflexivity.
  - subst x. contradiction.
Qed.

(** X4.  After an action of an admin whose update is accepted, the
    next successful [fetchLeaveRequests] shows every request with the
    id acted upon under the status decided, and offers no button for
    that id any more. *)
Theorem X4_decided_request_loses_its_buttons
    (fuel : nat) (env : Env) (a : Action) (pg pg1 pg2 : Page)
    (uid : string) (r1 r2 : unit + Exn) :
  user env = Some uid ->
  leaveUpdateError (faults env) = None ->
  leaveSelectError (faults env) = None ->
  perform fuel env a pg = Some (r1, pg1) ->
  fetchLeaveRequests env pg1 = Some (r2, pg2) ->
  (forall q, In q (requests pg2) -> id q = id (target a) ->
             status q = decision a)
  /\ (forall b, In b (offeredActions pg2) -> id (target b) <> id (target a)).
Proof.
  intros Hu Hfu Hfs Hrun Hfetch.
  assert (Hrows : exists st by_ at_,
             st = decision a
             /\ leave_requests (db pg1)
                = map (fun x => if String.eqb (lr_id x) (id (target a))
                                then patchLeave st by_ at_ x else x)
                      (leave_requests (db pg))).
  { destruct a as [request|request]; cbn [perform target decision] in *.
    - destruct (handleDecline_run env request pg) as (r & pg' & Hd & _ & _ & _ & H).
      rewrite Hd in Hrun. injection Hrun as _ <-.
      destruct (H uid Hu Hfu) as [Hl _].
      eexists _, _, _. split; [reflexivity | exact Hl].
    - pose proof (handleApprove_run fuel env request pg) as H.
      rewrite Hrun in H. destruct H as [_ H].
      destruct (H uid Hu Hfu) as [Hl _].
      eexists _, _, _. split; [reflexivity | exact Hl]. }
  destruct Hrows as (st & by_ & at_ & Hst & Hrows).
  unfold fetchLeaveRequests in Hfetch. rewrite Hfs in Hfetch.
  unfold setRequests in Hfetch. injection Hfetch as _ <-.
  cbn [requests].
  assert (Hstatus : forall q,
             In q (map (requestOfRow (profiles (db pg1))) (leave_requests (db pg1))) ->
             id q = id (target a) -> status q = decision a).
  { intros q Hq Hid. apply in_map_iff in Hq as [x [<- Hx]].
    cbn [requestOfRow status id] in *. rewrite Hrows in Hx.
    rewrite <- Hst. eapply patched_row_status; eauto. }
  split; [exact Hstatus|].
  intros b Hb Hid.
  apply offered_is_pending in Hb. cbn [requests] in Hb.
  apply filter_In in Hb as [Hin Hpend].
  apply String.eqb_eq in Hpend.
  rewrite (Hstatus _ Hin Hid) in Hpend.
  destruct a; discriminate.
Qed.

(** X5.  The three tabs split the list: when every status is one of
    pending, approved, declined (what the table admits), each request
    is on exactly one tab, so the tabs together are a rearrangement of
    the list; and whatever the statuses, a tab shows only requests of
    the list with one of these three statuses. *)
Theorem X5_tabs_partition_the_requests (rs : list LeaveRequest) :
  (Forall (fun r => validStatus (status r)) rs ->
   Permutation (pendingRequests rs ++ approvedRequests rs ++ declinedRequests rs)%list
               rs)
  /\ (forall r, In r (pendingRequests rs ++ approvedRequests rs
                      ++ declinedRequests rs)%list ->
                In r rs /\ validStatus (status r)).
Proof.
  split.
  - induction 1 as [|r rest Hr _ IH]; [constructor|].
    unfold pendingRequests, approvedRequests, declinedRequests in *.
    cbn [filter].
    destruct Hr as [-> | [-> | ->]]; cbn [String.eqb Ascii.eqb Bool.eqb andb].
    + cbn [app]. now constructor.
    + apply Permutation_sym, Permutation_cons_app, Permutation_sym. exact IH.
    + rewrite app_assoc. apply Permutation_sym, Permutation_cons_app, Permutation_sym.
      rewrite <- app_assoc. exact IH.
  - intros r Hin.
    unfold pendingRequests, approvedRequests, declinedRequests, validStatus in *.
    apply in_app_or in Hin as [H | H]; [|apply in_app_or in H as [H | H]];
      apply filter_In in H as [Hin Hst]; apply String.eqb_eq in Hst; auto.
Qed.

End LeaveRows.

(** ** Further properties of the dashboard *)

Section Counters.

Import JSDate Supabase AdminDashboard DashboardWindow.

Lemma three_way_count (rows : list string) :
  Forall countedStatus rows ->
  (List.length (filter isPresent rows) + List.length (filter isLate rows)
   + List.length (filter isLeave rows) = List.length rows)%nat.
Proof.
  induction 1 as [|st rest Hst _ IH]; [reflexivity|].
  cbn [filter].
  destruct Hst as [-> | [-> | ->]]; cbn; lia.
Qed.

(** X6.  When today's query is answered and every row found is
    present, late or on leave, the four counters of the dashboard add
    up to the larger of the active-employee count and the number of
    rows.  When the query fails, the first three counters are 0 and
    every active employee is counted absent. *)
Theorem X6_today_counters_add_up (tz : TimeZone) (today : Date) (f : Faults)
    (db : Database) (stats : DashboardStats) (todayStart todayEnd : string) :
  fetchDashboardData tz today f db = Some stats ->
  toISOString (startOfDay tz today) = Some todayStart ->
  toISOString (endOfDay tz today) = Some todayEnd ->
  match statusBetween (todayFails f) todayStart todayEnd db with
  | Some rows =>
      Forall countedStatus rows ->
      presentToday stats + lateToday stats + onLeaveToday stats
      + absentToday stats
      = Z.max (totalEmployees stats) (Z.of_nat (List.length rows))
  | None =>
      presentToday stats = 0 /\ lateToday stats = 0 /\ onLeaveToday stats = 0
      /\ absentToday stats = totalEmployees stats
  end.
Proof.
  unfold fetchDashboardData. intros H Hs He. rewrite Hs, He in H.
  destruct (toISOString (startOfWeek tz today)) as [ws|]; [|discriminate].
  destruct (toISOString (endOfWeek tz today)) as [we|]; [|discriminate].
  injection H as <-.
  cbn [presentToday lateToday onLeaveToday absentToday totalEmployees].
  destruct (statusBetween (todayFails f) todayStart todayEnd db) as [rows|].
  - intros Hrows. pose proof (three_way_count rows Hrows) as H3.
    unfold countOr0, absentOf.
    assert (Hall : filter (fun _ : string => true) rows = rows).
    { clear. induction rows as [|x l IH]; [reflexivity|].
      cbn [filter]. now rewrite IH. }
    rewrite Hall. lia.
  - unfold countOr0, absentOf.
    assert (0 <= JS.numOr0 (activeCount (countFails f) db)).
    { unfold activeCount. destruct (countFails f); cbn; lia. }
    repeat split; lia.
Qed.

(** X7.  The weekly rate is never negative; it is at most 100 when
    the week has at most five present-or-late records per active
    employee, exactly 100 at five each, and above 100 once the records
    exceed that by more than half a percent (the code does not cap
    it). *)
Theorem X7_weekly_rate_bounds (E p : Z) :
  0 < E -> E * 5 < 2 ^ 53 -> 0 <= p < 2 ^ 32 ->
  0 <= rateOf (Some E) p
  /\ (p <= E * 5 -> rateOf (Some E) p <= 100)
  /\ (p = E * 5 -> rateOf (Some E) p = 100)
  /\ (201 * (E * 5) < 200 * p -> 100 < rateOf (Some E) p).
Proof.
  intros HE HE53 Hp.
  assert (Hr : 200 * p - E * 5 <= 2 * (E * 5) * rateOf (Some E) p
               <= 200 * p + E * 5).
  { unfold rateOf. cbn [JS.numOr0].
    destruct (Z.ltb_spec 0 (E * 5)) as [_|Hn]; [|lia].
    apply round_percent_nearest; lia. }
  set (r := rateOf (Some E) p) in *. clearbody r.
  repeat split; intros; nia.
Qed.

End Counters.

Section Windows.

Import JSDate Supabase AdminDashboard DashboardWindow.

Lemma day_window_fixed_zone (off t : Z) :
  Z.abs t + Z.abs off + msPerDay <= 8640000000000000 ->
  exists ts,
    startOfDay (fixedZone off) (Some t) = Some ts
    /\ endOfDay (fixedZone off) (Some t) = Some (ts + msPerDay - 1)
    /\ TimeWithinDay (LocalTime (fixedZone off) ts) = 0
    /\ ts <= t < ts + msPerDay.
Proof.
  intros Hrange.
  unfold startOfDay, endOfDay, setHours, LocalTime, UTC, MakeDate, MakeTime.
  cbn [fixedZone LocalTZA].
  pose proof (Z.div_mod (t + off) msPerDay ltac:(discriminate)) as Hdm.
  pose proof (Z.mod_pos_bound (t + off) msPerDay eq_refl) as Hb.
  fold (Day (t + off)) in Hdm.
  set (D := Day (t + off)) in *.
  rewrite !TimeClip_some
    by (unfold msPerDay, msPerHour, msPerMinute, msPerSecond in *; lia).
  eexists. split; [reflexivity|].
  split; [f_equal; unfold msPerDay, msPerHour, msPerMinute, msPerSecond; lia|].
  split.
  - replace (D * msPerDay + (0 * msPerHour + 0 * msPerMinute + 0 * msPerSecond + 0)
             - off + off) with (D * msPerDay) by lia.
    unfold TimeWithinDay. apply Z.mod_mul. discriminate.
  - unfold msPerDay, msPerHour, msPerMinute, msPerSecond in *. lia.
Qed.

Lemma statusBetween_written (lo hi : Z) (db : Database) :
  0 <= YearFromTime lo <= 9999 -> 0 <= YearFromTime hi <= 9999 ->
  statusBetween false (isoString lo) (isoString hi) db
  = Some (map at_status (filter (inWindow lo hi) (attendance db))).
Proof.
  intros Hlo Hhi. unfold statusBetween.
  rewrite !parse_isoString by assumption. reflexivity.
Qed.

Lemma countOr0_window (lo hi : Z) (keep : string -> bool) (db : Database) :
  countOr0 keep (Some (map at_status (filter (inWindow lo hi) (attendance db))))
  = countIn lo hi keep db.
Proof.
  unfold countOr0, countIn. f_equal.
  induction (attendance db) as [|a l IH]; [reflexivity|].
  cbn [filter]. destruct (inWindow lo hi a); cbn [andb map filter].
  - destruct (keep (at_status a)); cbn [List.length]; now rewrite IH.
  - exact IH.
Qed.

(** X8.  In a zone whose offset never changes (dates within years 0
    to 9999), [fetchDashboardData] always produces statistics; when
    today's query is answered, its day counters count the attendance
    rows whose [check_in] lies in the local calendar day of [today],
    from 00:00:00.000 to 23:59:59.999; when the week's query is
    answered, the rate is computed from the present-or-late rows of
    the local week from Monday 00:00:00.000 to Sunday 23:59:59.999. *)
Theorem X8_dashboard_counts_local_day_and_week (off t : Z) (f : Faults)
    (db : Database) :
  Z.abs off <= msPerDay ->
  TimeFromYear 0 + 8 * msPerDay <= t ->
  t + 8 * msPerDay <= TimeFromYear 10000 ->
  exists ts ws stats,
    fetchDashboardData (fixedZone off) (Some t) f db = Some stats
    /\ TimeWithinDay (LocalTime (fixedZone off) ts) = 0
    /\ ts <= t < ts + msPerDay
    /\ TimeWithinDay (LocalTime (fixedZone off) ws) = 0
    /\ WeekDay (LocalTime (fixedZone off) ws) = 1
    /\ ws <= t < ws + 7 * msPerDay
    /\ (todayFails f = false ->
        presentToday stats = countIn ts (ts + msPerDay - 1) isPresent db
        /\ lateToday stats = countIn ts (ts + msPerDay - 1) isLate db
        /\ onLeaveToday stats = countIn ts (ts + msPerDay - 1) isLeave db
        /\ absentToday stats
           = Z.max 0 (totalEmployees stats
                      - countIn ts (ts + msPerDay - 1) (fun _ => true) db))
    /\ (weekFails f = false ->
        attendanceRate stats
        = rateOf (Some (totalEmployees stats))
            (countIn ws (ws + 7 * msPerDay - 1) isPresentOrLate db)).
Proof.
  intros Hoff Hlo Hhi.
  assert (E0 : TimeFromYear 0 = -62167219200000) by (vm_compute; reflexivity).
  assert (E1 : TimeFromYear 10000 = 253402300800000) by (vm_compute; reflexivity).
  rewrite E0 in Hlo. rewrite E1 in Hhi.
  assert (HD : msPerDay = 86400000) by reflexivity.
  destruct (week_window_fixed_zone off t ltac:(lia))
    as (ws & we & Hws & Hwe & Wd & Wm & Ewe & Wt).
  destruct (day_window_fixed_zone off t ltac:(lia))
    as (ts & Hts & Hte & Dm & Dt).
  assert (Yws : 0 <= YearFromTime ws <= 9999) by (apply year_in_range; lia).
  assert (Ywe : 0 <= YearFromTime we <= 9999) by (apply year_in_range; lia).
  assert (Yts : 0 <= YearFromTime ts <= 9999) by (apply year_in_range; lia).
  assert (Yte : 0 <= YearFromTime (ts + msPerDay - 1) <= 9999)
    by (apply year_in_range; lia).
  unfold fetchDashboardData. rewrite Hws, Hwe, Hts, Hte.
  cbn [toISOString option_map].
  exists ts, ws. eexists. split; [reflexivity|].
  cbn [presentToday lateToday onLeaveToday absentToday totalEmployees
       attendanceRate].
  split; [exact Dm|]. split; [exact Dt|]. split; [exact Wm|].
  split; [exact Wd|]. split; [lia|].
  split.
  - intros ->. rewrite statusBetween_written by assumption.
    rewrite !countOr0_window. unfold absentOf. repeat split; reflexivity.
  - intros ->. rewrite Ewe in *. rewrite statusBetween_written by assumption.
    rewrite countOr0_window. apply rateOf_numOr0.
Qed.

End Windows.

(** ** The employee's page *)

Section TodayWindow.

Import JSDate Supabase Policies EmployeeDashboard Handler EmployeePage DateParts.

Lemma splitAcc_first (sep : ascii) (a b cur : string) :
  lacks sep a = true ->
  JS.splitAcc sep cur (a ++ String sep b)
  = (cur ++ a)%string :: JS.splitAcc sep EmptyString b.
Proof.
  revert cur. induction a as [|c r IH]; intros cur H.
  - cbn. rewrite Ascii.eqb_refl.
    f_equal. clear. induction cur; cbn; congruence.
  - cbn in H. apply andb_true_iff in H as [Hc Hr].
    cbn [append JS.splitAcc].
    destruct (Ascii.eqb c sep); [discriminate|].
    rewrite IH by exact Hr. f_equal.
    rewrite append_assoc'. reflexivity.
Qed.

Lemma digits_lack_T (s : string) : allDigits s = true -> lacks "T" s = true.
Proof.
  induction s as [|c r IH]; [reflexivity|].
  cbn [allDigits lacks]. intros H.
  destruct (JS.digitValue 10 c) eqn:Hd; [|discriminate].
  rewrite IH by exact H. rewrite andb_true_r.
  destruct (Ascii.eqb_spec c "T") as [->|]; [|reflexivity].
  vm_compute in Hd. discriminate.
Qed.

Lemma lacks_app (sep : ascii) (a b : string) :
  lacks sep (a ++ b) = lacks sep a && lacks sep b.
Proof.
  induction a as [|c r IH]; [reflexivity|].
  cbn [append lacks]. rewrite IH. now rewrite andb_assoc.
Qed.

Lemma dateText_facts (t : Z) :
  0 <= YearFromTime t <= 9999 ->
  String.length (dateText t) = 10%nat
  /\ nth_error (JS.split "T" (isoString t)) 0 = Some (dateText t)
  /\ forall rest, parseDay (dateText t ++ rest) = Some (Day t).
Proof.
  intros Hy.
  pose proof (MonthFromTime_range t) as Hm.
  pose proof (DateFromTime_range t) as Hd.
  destruct (pad_reads 4 10000 (YearFromTime t) padReads_4 ltac:(lia)) as (LY & AY & VY).
  destruct (pad_reads 2 100 (MonthFromTime t + 1) padReads_2 ltac:(lia)) as (LM & AM & VM).
  destruct (pad_reads 2 100 (DateFromTime t) padReads_2 ltac:(lia)) as (LD & AD & VD).
  unfold isoString, isoYear, dateText.
  destruct (Z.leb_spec 0 (YearFromTime t)) as [_|Hbad]; [|lia].
  destruct (Z.leb_spec (YearFromTime t) 9999) as [_|Hbad]; [|lia]. cbn [andb].
  set (Y := pad 4 (YearFromTime t)) in *.
  set (Mo := pad 2 (MonthFromTime t + 1)) in *.
  set (D := pad 2 (DateFromTime t)) in *.
  set (tail := (pad 2 (HourFromTime t) ++ ":" ++ pad 2 (MinFromTime t) ++ ":"
                ++ pad 2 (SecFromTime t) ++ "." ++ pad 3 (msFromTime t) ++ "Z")%string).
  change (Y ++ "-" ++ Mo ++ "-" ++ D)%string
    with (Y ++ String "-" (Mo ++ String "-" D))%string.
  change (Y ++ "-" ++ Mo ++ "-" ++ D ++ "T" ++ tail)%string
    with (Y ++ String "-" (Mo ++ String "-" (D ++ String "T" tail)))%string.
  assert (E : forall rest,
             ((Y ++ String "-" (Mo ++ String "-" D)) ++ rest
              = Y ++ String "-" (Mo ++ String "-" (D ++ rest)))%string).
  { intros rest. rewrite append_assoc'. cbn [append]. rewrite append_assoc'.
    reflexivity. }
  split; [|split].
  - repeat (progress cbn [String.length] || rewrite length_app).
    rewrite LY, LM, LD. reflexivity.
  - rewrite <- E. unfold JS.split. rewrite splitAcc_first.
    + reflexivity.
    + rewrite lacks_app. cbn [lacks]. rewrite lacks_app. cbn [lacks].
      rewrite !digits_lack_T by assumption. reflexivity.
  - intros rest. rewrite E.
    rewrite (parseDay_written Y Mo D rest _ _ _ LY LM LD AY AM AD VY VM VD) by lia.
    replace (MonthFromTime t + 1 - 1) with (MonthFromTime t) by lia.
    pose proof (MakeDay_same_month t 0) as Hday. rewrite !Z.add_0_r in Hday.
    now rewrite Hday.
Qed.

Lemma timestampWithoutZone_written (offset : Z) (P : string) (d h m sec : Z)
    (Hh Hm Hs : string) :
  String.length P = 10%nat ->
  (forall rest, parseDay (P ++ rest) = Some d) ->
  field (String "T" (Hh ++ String ":" (Hm ++ String ":" Hs))) 1 2 = Some h ->
  field (String "T" (Hh ++ String ":" (Hm ++ String ":" Hs))) 4 2 = Some m ->
  field (String "T" (Hh ++ String ":" (Hm ++ String ":" Hs))) 7 2 = Some sec ->
  charAt (String "T" (Hh ++ String ":" (Hm ++ String ":" Hs))) 3 ":" = true ->
  charAt (String "T" (Hh ++ String ":" (Hm ++ String ":" Hs))) 6 ":" = true ->
  String.length (String "T" (Hh ++ String ":" (Hm ++ String ":" Hs))) = 9%nat ->
  h <= 23 -> m <= 59 -> sec <= 59 ->
  timestampWithoutZone offset
    (P ++ String "T" (Hh ++ String ":" (Hm ++ String ":" Hs)))
  = Some (MakeDate d (MakeTime h m sec 0) - offset).
Proof.
  intros LP HP Fh Fm Fs C1 C2 LR Bh Bm Bs.
  unfold timestampWithoutZone.
  rewrite length_app, LP, LR. cbn [Nat.add].
  rewrite HP. unfold parseClockSeconds.
  change 11%nat with (10 + 1)%nat. rewrite (field_skip P _ 10 1 2 LP), Fh.
  change 14%nat with (10 + 4)%nat. rewrite (field_skip P _ 10 4 2 LP), Fm.
  change 17%nat with (10 + 7)%nat. rewrite (field_skip P _ 10 7 2 LP), Fs.
  change 10%nat with (10 + 0)%nat at 1. rewrite (charAt_skip P _ 10 0 _ LP), charAt_here.
  change 13%nat with (10 + 3)%nat. rewrite (charAt_skip P _ 10 3 _ LP), C1.
  change 16%nat with (10 + 6)%nat. rewrite (charAt_skip P _ 10 6 _ LP), C2.
  cbn [andb].
  destruct (Z.leb_spec h 23); [|lia]. destruct (Z.leb_spec m 59); [|lia].
  destruct (Z.leb_spec sec 59); [|lia]. reflexivity.
Qed.

Lemma today_window (offset t : Z) :
  0 <= YearFromTime t <= 9999 ->
  timestampWithoutZone offset (dateText t ++ "T00:00:00")
  = Some (Day t * msPerDay - offset)
  /\ timestampWithoutZone offset (dateText t ++ "T23:59:59")
     = Some (Day t * msPerDay + 86399000 - offset).
Proof.
  intros Hy. destruct (dateText_facts t Hy) as (L & _ & HP).
  split.
  - etransitivity;
      [exact (timestampWithoutZone_written offset (dateText t) (Day t) 0 0 0
                "00" "00" "00" L HP eq_refl eq_refl eq_refl eq_refl eq_refl
                eq_refl ltac:(lia) ltac:(lia) ltac:(lia))|].
    f_equal; unfold MakeDate, MakeTime; lia.
  - etransitivity;
      [exact (timestampWithoutZone_written offset (dateText t) (Day t) 23 59 59
                "23" "59" "59" L HP eq_refl eq_refl eq_refl eq_refl eq_refl
                eq_refl ltac:(lia) ltac:(lia) ltac:(lia))|].
    f_equal; unfold MakeDate, MakeTime, msPerHour, msPerMinute, msPerSecond; lia.
Qed.

End TodayWindow.

Section EmployeeHandlers.

Import JSDate Supabase Policies EmployeeDashboard Handler EmployeePage DateParts.

Lemma determineStatus_admitted (zone : TimeZone) (s : option ScheduleDay)
    (d : Date) :
  determineStatus zone s d = "present" \/ determineStatus zone s d = "late".
Proof.
  unfold determineStatus. destruct s as [s|]; [|now left].
  destruct (JS.gt _ _); [now right | now left].
Qed.

Lemma own_insert_allowed (roles : list RoleRow) (uid : string) :
  attendanceInsert roles uid uid = true.
Proof.
  unfold attendanceInsert, users_can_insert_own_attendance.
  now rewrite String.eqb_refl.
Qed.

Lemma logPosition_run (env : Env) (uid : string) (pg : Page) :
  exists logs, logPosition env uid pg = (inl tt, withGpsLogs logs pg).
Proof.
  unfold logPosition, withGpsLogs, setTables.
  destruct pg as [[a g l r n p sc] ta ts ld ci dl ll lf to].
  destruct (geolocation env) as [[coords|]|];
    [|exists g; reflexivity..].
  unfold bind, call, insertGpsLog, ret. cbn [tables].
  destruct (gpsInsertFails (faults env)) as [e|];
    [exists g; reflexivity|].
  unfold gpsInsert, users_can_insert_own_gps_logs. rewrite String.eqb_refl.
  eexists. reflexivity.
Qed.

Lemma checkInBody_run (env : Env) (uid : string) (pg : Page) :
  checkInFails (faults env) = None ->
  let status := determineStatus (tz env) (todaySchedule pg) (Some (now env)) in
  exists pg' t,
    checkInBody env uid pg = (inl tt, pg')
    /\ tb_attendance (tables pg')
       = (tb_attendance (tables pg) ++ [checkInRow env uid status])%list
    /\ tb_leave_requests (tables pg') = tb_leave_requests (tables pg)
    /\ tb_notifications (tables pg') = tb_notifications (tables pg)
    /\ tb_user_roles (tables pg') = tb_user_roles (tables pg)
    /\ tb_attendance_schedule (tables pg') = tb_attendance_schedule (tables pg)
    /\ todayAttendance pg' = todayAttendance pg
    /\ todaySchedule pg' = todaySchedule pg
    /\ checkingIn pg' = checkingIn pg
    /\ toasts pg' = (toasts pg ++ [t])%list
    /\ LeaveRequests.destructive t = String.eqb status "late".
Proof.
  intros Hf status.
  pose proof (determineStatus_admitted (tz env) (todaySchedule pg)
                (Some (now env))) as Hst.
  fold status in Hst.
  assert (Hadm : statusAdmitted status = true)
    by (destruct Hst as [-> | ->]; reflexivity).
  unfold checkInBody. fold status.
  unfold bind, call, insertCheckIn. rewrite Hf, Hadm, own_insert_allowed.
  cbn [negb throwIf ret formatOrThrow format_h_mm_a].
  eexists _, _. split; [reflexivity|].
  cbn. repeat split; reflexivity.
Qed.

Lemma handleCheckIn_run (env : Env) (pg : Page) (uid : string) :
  user env = Some uid ->
  checkInFails (faults env) = None ->
  let status := determineStatus (tz env) (todaySchedule pg) (Some (now env)) in
  exists pg' t,
    handleCheckIn env pg = (inl tt, pg')
    /\ tb_attendance (tables pg')
       = (tb_attendance (tables pg) ++ [checkInRow env uid status])%list
    /\ tb_leave_requests (tables pg') = tb_leave_requests (tables pg)
    /\ tb_notifications (tables pg') = tb_notifications (tables pg)
    /\ tb_user_roles (tables pg') = tb_user_roles (tables pg)
    /\ tb_attendance_schedule (tables pg') = tb_attendance_schedule (tables pg)
    /\ todayAttendance pg' = todayAttendance pg
    /\ todaySchedule pg' = todaySchedule pg
    /\ checkingIn pg' = false
    /\ toasts pg' = (toasts pg ++ [t])%list
    /\ LeaveRequests.destructive t = String.eqb status "late".
Proof.
  intros Hu Hf status.
  unfold handleCheckIn. rewrite Hu.
  unfold bind at 1. unfold setCheckingIn at 1. cbv beta iota.
  set (pg0 := {| tables := tables pg; todayAttendance := todayAttendance pg;
                 todaySchedule := todaySchedule pg; loading := loading pg;
                 checkingIn := true;
                 isLeaveDialogOpen := isLeaveDialogOpen pg;
                 leaveLoading := leaveLoading pg; leaveForm := leaveForm pg;
                 toasts := toasts pg |}).
  destruct (logPosition_run env uid pg0) as [logs Hlog].
  destruct (checkInBody_run env uid (withGpsLogs logs pg0) Hf)
    as (pg1 & t & Hbody & Ha & Hl & Hn & Hr & Hsc & Hta & Hts & _ & Ht & Hd).
  unfold tryCatchFinally, bind. rewrite Hlog, Hbody.
  cbn [setCheckingIn].
  eexists _, t. split; [reflexivity|].
  cbn [tables checkingIn toasts todayAttendance todaySchedule].
  rewrite Ha, Hl, Hn, Hr, Hsc, Hta, Hts, Ht.
  repeat split; try reflexivity. exact Hd.
Qed.

(** X9.  For a signed-in user whose insert is accepted,
    [handleCheckIn] ends normally and appends exactly one attendance
    row: the user's, stamped with the database's clock, without
    check-out, with the status that [determineStatus] gives for the
    browser's clock, which is "present" or "late" and never "absent"
    or "leave".  It does so whatever becomes of the position (no
    geolocation, a refused position, a refused log); it shows one
    toast, destructive exactly for a late check-in, and releases the
    button. *)
Theorem X9_check_in_stores_one_row (env : Env) (pg : Page) (uid : string) :
  user env = Some uid ->
  checkInFails (faults env) = None ->
  let status := determineStatus (tz env) (todaySchedule pg) (Some (now env)) in
  exists pg' t,
    handleCheckIn env pg = (inl tt, pg')
    /\ (status = "present" \/ status = "late")
    /\ tb_attendance (tables pg')
       = (tb_attendance (tables pg) ++ [checkInRow env uid status])%list
    /\ tb_leave_requests (tables pg') = tb_leave_requests (tables pg)
    /\ tb_notifications (tables pg') = tb_notifications (tables pg)
    /\ checkingIn pg' = false
    /\ toasts pg' = (toasts pg ++ [t])%list
    /\ LeaveRequests.destructive t = String.eqb status "late".
Proof.
  intros Hu Hf status.
  destruct (handleCheckIn_run env pg uid Hu Hf)
    as (pg' & t & Hrun & Ha & Hl & Hn & _ & _ & _ & _ & Hc & Ht & Hd).
  exists pg', t. split; [exact Hrun|].
  split; [apply determineStatus_admitted|].
  repeat split; assumption.
Qed.

(** X10.  When the service refuses the insert, [handleCheckIn]
    stores no attendance row, shows one destructive toast (the
    message of the error for an [Error] instance, "Failed to check
    in" otherwise) and releases the button. *)
Theorem X10_refused_check_in_stores_nothing (env : Env) (pg : Page)
    (uid : string) (err : Exn) :
  user env = Some uid ->
  checkInFails (faults env) = Some err ->
  exists pg',
    handleCheckIn env pg = (inl tt, pg')
    /\ tb_attendance (tables pg') = tb_attendance (tables pg)
    /\ tb_leave_requests (tables pg') = tb_leave_requests (tables pg)
    /\ tb_notifications (tables pg') = tb_notifications (tables pg)
    /\ checkingIn pg' = false
    /\ toasts pg'
       = (toasts pg
          ++ [{| LeaveRequests.title := "Error";
                 LeaveRequests.description :=
                   if isError err then message err else "Failed to check in";
                 LeaveRequests.destructive := true |}])%list.
Proof.
  intros Hu Hf.
  unfold handleCheckIn. rewrite Hu.
  unfold bind at 1. unfold setCheckingIn at 1. cbv beta iota.
  set (pg0 := {| tables := tables pg; todayAttendance := todayAttendance pg;
                 todaySchedule := todaySchedule pg; loading := loading pg;
                 checkingIn := true;
                 isLeaveDialogOpen := isLeaveDialogOpen pg;
                 leaveLoading := leaveLoading pg; leaveForm := leaveForm pg;
                 toasts := toasts pg |}).
  destruct (logPosition_run env uid pg0) as [logs Hlog].
  unfold tryCatchFinally, bind. rewrite Hlog.
  unfold checkInBody, bind, call, insertCheckIn. rewrite Hf.
  cbn. eexists. split; [reflexivity|]. cbn. repeat split; reflexivity.
Qed.

Lemma map_unchanged {A : Type} (f : A -> A) (l : list A) :
  (forall x, In x l -> f x = x) -> map f l = l.
Proof.
  induction l as [|h rest IH]; intros H; [reflexivity|].
  cbn [map]. rewrite H by now left.
  rewrite IH; [reflexivity|]. intros x Hx. apply H. now right.
Qed.

Lemma handleCheckOut_run (env : Env) (pg : Page) (uid : string)
    (today : Attendance) :
  user env = Some uid ->
  todayAttendance pg = Some today ->
  checkOutFails (faults env) = None ->
  0 <= YearFromTime (now env) <= 9999 ->
  exists pg' time,
    handleCheckOut env pg = (inl tt, pg')
    /\ format_h_mm_a (tz env) (Some (later env)) = Some time
    /\ tb_attendance (tables pg')
       = map (fun a =>
                if String.eqb (ar_id a) (ar_id today)
                   && attendanceUpdate (tb_user_roles (tables pg)) uid
                        (at_user_id (ar_row a))
                then withCheckOut (now env) a else a)
             (tb_attendance (tables pg))
    /\ tb_gps_logs (tables pg') = tb_gps_logs (tables pg)
    /\ tb_leave_requests (tables pg') = tb_leave_requests (tables pg)
    /\ tb_user_roles (tables pg') = tb_user_roles (tables pg)
    /\ tb_notifications (tables pg') = tb_notifications (tables pg)
    /\ tb_profiles (tables pg') = tb_profiles (tables pg)
    /\ tb_attendance_schedule (tables pg') = tb_attendance_schedule (tables pg)
    /\ todayAttendance pg' = todayAttendance pg
    /\ checkingIn pg' = false
    /\ toasts pg' = (toasts pg ++ [checkedOutToast time])%list.
Proof.
  intros Hu Ht Hf Hy.
  unfold handleCheckOut. rewrite Hu, Ht.
  unfold bind, tryCatchFinally, setCheckingIn, call, updateCheckOut.
  cbn [tables]. rewrite Hf, parse_isoString by exact Hy.
  cbn [throwIf ret formatOrThrow format_h_mm_a].
  eexists _, _. split; [reflexivity|]. split; [reflexivity|].
  cbn. repeat split; try reflexivity. exact Ht.
Qed.

(** X11.  The policies give a user without the admin role no right
    to update attendance rows.  For such a user, when the service
    reports no error, [handleCheckOut] leaves every table as it is,
    so that the check-out is not stored, and yet shows the toast
    "Checked out!". *)
Theorem X11_check_out_of_plain_user_stores_nothing (env : Env) (pg : Page)
    (uid : string) (today : Attendance) :
  user env = Some uid ->
  todayAttendance pg = Some today ->
  has_role (tb_user_roles (tables pg)) uid "admin" = false ->
  checkOutFails (faults env) = None ->
  0 <= YearFromTime (now env) <= 9999 ->
  exists pg' time,
    handleCheckOut env pg = (inl tt, pg')
    /\ tables pg' = tables pg
    /\ todayAttendance pg' = todayAttendance pg
    /\ toasts pg' = (toasts pg ++ [checkedOutToast time])%list.
Proof.
  intros Hu Ht Hrole Hf Hy.
  destruct (handleCheckOut_run env pg uid today Hu Ht Hf Hy)
    as (pg' & time & Hrun & _ & Ha & Hg & Hl & Hr & Hn & Hp & Hs & Hta & _ & Hto).
  exists pg', time. split; [exact Hrun|]. split; [|split; assumption].
  rewrite map_unchanged in Ha.
  - destruct (tables pg') as [a g l r n p sc], (tables pg) as [a0 g0 l0 r0 n0 p0 sc0].
    cbn in *. congruence.
  - intros x _. unfold attendanceUpdate, admins_can_manage_attendance.
    rewrite Hrole. cbn [andb]. now rewrite andb_false_r.
Qed.

(** X12.  For a user with the admin role, [handleCheckOut] stamps
    the rows whose key is that of today's row with the browser's
    clock, read back from the text of [toISOString], and changes no
    other attendance row. *)
Theorem X12_check_out_of_admin_is_stored (env : Env) (pg : Page)
    (uid : string) (today : Attendance) :
  user env = Some uid ->
  todayAttendance pg = Some today ->
  has_role (tb_user_roles (tables pg)) uid "admin" = true ->
  checkOutFails (faults env) = None ->
  0 <= YearFromTime (now env) <= 9999 ->
  exists pg' time,
    handleCheckOut env pg = (inl tt, pg')
    /\ tb_attendance (tables pg')
       = map (fun a => if String.eqb (ar_id a) (ar_id today)
                       then withCheckOut (now env) a else a)
             (tb_attendance (tables pg))
    /\ toasts pg' = (toasts pg ++ [checkedOutToast time])%list.
Proof.
  intros Hu Ht Hrole Hf Hy.
  destruct (handleCheckOut_run env pg uid today Hu Ht Hf Hy)
    as (pg' & time & Hrun & _ & Ha & _ & _ & _ & _ & _ & _ & _ & _ & Hto).
  exists pg', time. split; [exact Hrun|]. split; [|exact Hto].
  rewrite Ha. apply map_ext. intros a.
  unfold attendanceUpdate, attendanceSelect, admins_can_manage_attendance.
  rewrite Hrole. cbn [andb]. rewrite orb_true_r, andb_true_r. reflexivity.
Qed.

Lemma forallb_const {A : Type} (b : bool) (l : list A) :
  b = true -> forallb (fun _ => b) l = true.
Proof. intros ->. induction l; [reflexivity | assumption]. Qed.

(** X13.  Without a signed-in user, a start date or an end date,
    [handleSubmitLeave] sends nothing: the tables, the form and the
    dialog stay as they are and one destructive toast asks to fill in
    the required fields. *)
Theorem X13_incomplete_leave_form_is_refused (env : Env) (pg : Page) :
  user env = None \/ start_date (leaveForm pg) = EmptyString
  \/ end_date (leaveForm pg) = EmptyString ->
  exists pg',
    handleSubmitLeave env pg = (inl tt, pg')
    /\ tables pg' = tables pg
    /\ leaveForm pg' = leaveForm pg
    /\ isLeaveDialogOpen pg' = isLeaveDialogOpen pg
    /\ toasts pg'
       = (toasts pg
          ++ [{| LeaveRequests.title := "Error";
                 LeaveRequests.description :=
                   "Please fill in all required fields";
                 LeaveRequests.destructive := true |}])%list.
Proof.
  intros H. unfold handleSubmitLeave.
  assert (E : match user env, truthy (start_date (leaveForm pg)),
                    truthy (end_date (leaveForm pg)) with
              | Some _, true, true => False
              | _, _, _ => True
              end).
  { destruct H as [-> | [-> | ->]]; [exact I | |].
    - destruct (user env); exact I.
    - destruct (user env); [destruct (truthy _)|]; exact I. }
  destruct (user env) as [uid|];
    [destruct (truthy (start_date (leaveForm pg)));
     [destruct (truthy (end_date (leaveForm pg))); [contradiction|]|]|];
    (eexists; split; [reflexivity|]; cbn; repeat split; reflexivity).
Qed.

Lemma plain_user_sees_no_admin (roles : list RoleRow) (uid : string) :
  has_role roles uid "admin" = false ->
  filter (fun r => rolesSelect roles uid (ur_user_id r)
                   && String.eqb (ur_role r) "admin") roles = [].
Proof.
  intros Hrole.
  unfold rolesSelect, users_can_view_own_role, admins_can_manage_roles.
  rewrite Hrole.
  unfold has_role in Hrole.
  induction roles as [|r rest IH]; [reflexivity|].
  cbn [existsb] in Hrole. apply orb_false_elim in Hrole as [Hr Hrest].
  cbn [filter]. rewrite !orb_false_r, Hr. apply IH. exact Hrest.
Qed.

Lemma admin_sees_every_admin (roles : list RoleRow) (uid : string) :
  has_role roles uid "admin" = true ->
  filter (fun r => rolesSelect roles uid (ur_user_id r)
                   && String.eqb (ur_role r) "admin") roles
  = filter (fun r => String.eqb (ur_role r) "admin") roles.
Proof.
  intros Hrole. apply filter_ext. intros r.
  unfold rolesSelect, users_can_view_own_role, admins_can_manage_roles.
  rewrite Hrole, !orb_true_r. reflexivity.
Qed.

Lemma has_role_in (roles : list RoleRow) (uid : string) :
  has_role roles uid "admin" = true ->
  In uid (map ur_user_id
            (filter (fun r => String.eqb (ur_role r) "admin") roles)).
Proof.
  unfold has_role. intros H. apply existsb_exists in H as [r [Hin Hr]].
  apply andb_true_iff in Hr as [Hu Hr]. apply String.eqb_eq in Hu.
  apply in_map_iff. exists r. split; [exact Hu|].
  apply filter_In. split; assumption.
Qed.

Lemma own_leave_insert_allowed (roles : list RoleRow) (uid : string) :
  leaveInsert roles uid uid = true.
Proof.
  unfold leaveInsert, users_can_insert_own_leave_requests.
  now rewrite String.eqb_refl.
Qed.

(** X14.  For a user without the admin role and a form with both
    dates, whatever their order, an accepted submission stores one
    pending request with the dates as entered (an empty reason as
    null), shows the success toast, closes the dialog and clears the
    form.  No notification is stored: the policies let such a user
    read no admin's role, so the handler finds no admin to notify. *)
Theorem X14_leave_of_plain_user_notifies_nobody (env : Env) (pg : Page)
    (uid : string) :
  user env = Some uid ->
  start_date (leaveForm pg) <> EmptyString ->
  end_date (leaveForm pg) <> EmptyString ->
  leaveInsertFails (faults env) = None ->
  has_role (tb_user_roles (tables pg)) uid "admin" = false ->
  exists pg',
    handleSubmitLeave env pg = (inl tt, pg')
    /\ tb_leave_requests (tables pg')
       = (tb_leave_requests (tables pg)
          ++ [submittedRow env uid (leaveForm pg)])%list
    /\ tb_notifications (tables pg') = tb_notifications (tables pg)
    /\ tb_attendance (tables pg') = tb_attendance (tables pg)
    /\ toasts pg' = (toasts pg ++ [submittedToast])%list
    /\ isLeaveDialogOpen pg' = false
    /\ leaveForm pg' = emptyForm
    /\ leaveLoading pg' = false.
Proof.
  intros Hu Hs He Hf Hrole.
  unfold handleSubmitLeave. rewrite Hu.
  assert (Ts : truthy (start_date (leaveForm pg)) = true)
    by (destruct (start_date (leaveForm pg)); [contradiction | reflexivity]).
  assert (Te : truthy (end_date (leaveForm pg)) = true)
    by (destruct (end_date (leaveForm pg)); [contradiction | reflexivity]).
  rewrite Ts, Te.
  unfold bind, tryCatchFinally, setLeaveLoading, insertLeave.
  cbn [tables]. rewrite Hf, own_leave_insert_allowed.
  unfold query, selectAdminRoles, throwIf, ret.
  cbn [tables setTables tb_user_roles].
  destruct (rolesSelectFails (faults env)).
  - eexists. split; [reflexivity|]. cbn. repeat split; reflexivity.
  - rewrite plain_user_sees_no_admin by exact Hrole. cbn [map].
    eexists. split; [reflexivity|]. cbn. repeat split; reflexivity.
Qed.

(** X15.  For a user with the admin role, an accepted submission
    also stores one notification "New Leave Request" for every user
    holding the admin role, the requester included; when the insert
    of the notifications is refused the request stays stored and the
    success toast is shown all the same. *)
Theorem X15_leave_of_admin_notifies_every_admin (env : Env) (pg : Page)
    (uid : string) :
  user env = Some uid ->
  start_date (leaveForm pg) <> EmptyString ->
  end_date (leaveForm pg) <> EmptyString ->
  leaveInsertFails (faults env) = None ->
  rolesSelectFails (faults env) = false ->
  has_role (tb_user_roles (tables pg)) uid "admin" = true ->
  exists pg',
    handleSubmitLeave env pg = (inl tt, pg')
    /\ tb_leave_requests (tables pg')
       = (tb_leave_requests (tables pg)
          ++ [submittedRow env uid (leaveForm pg)])%list
    /\ tb_notifications (tables pg')
       = match notifyInsertFails (faults env) with
         | Some _ => tb_notifications (tables pg)
         | None =>
             (tb_notifications (tables pg)
              ++ map (fun admin =>
                        notificationRowOf
                          (newRequestNotice (leaveForm pg)
                             (selectFullName env uid (tables pg))
                             (orNull (newId env)) admin))
                     (admins (tables pg)))%list
         end
    /\ In uid (admins (tables pg))
    /\ toasts pg' = (toasts pg ++ [submittedToast])%list
    /\ isLeaveDialogOpen pg' = false.
Proof.
  intros Hu Hs He Hf Hsel Hrole.
  unfold handleSubmitLeave. rewrite Hu.
  assert (Ts : truthy (start_date (leaveForm pg)) = true)
    by (destruct (start_date (leaveForm pg)); [contradiction | reflexivity]).
  assert (Te : truthy (end_date (leaveForm pg)) = true)
    by (destruct (end_date (leaveForm pg)); [contradiction | reflexivity]).
  rewrite Ts, Te.
  pose proof (has_role_in _ _ Hrole) as Hin.
  change (In uid (admins (tables pg))) in Hin.
  unfold bind, tryCatchFinally, setLeaveLoading, insertLeave.
  cbn [tables]. rewrite Hf, own_leave_insert_allowed.
  unfold query, selectAdminRoles, throwIf, ret.
  cbn [tables setTables tb_user_roles]. rewrite Hsel.
  rewrite admin_sees_every_admin by exact Hrole.
  fold (admins (tables pg)).
  destruct (admins (tables pg)) as [|a rest] eqn:Hadm; [contradiction|].
  unfold call, insertNotifications. cbn [tables tb_user_roles].
  destruct (notifyInsertFails (faults env)) as [e|].
  - eexists. split; [reflexivity|]. cbn. repeat split; try reflexivity; assumption.
  - rewrite forallb_const by exact Hrole.
    eexists. split; [reflexivity|].
    cbn [tables setTables tb_leave_requests tb_notifications toasts
         isLeaveDialogOpen fst snd setLeaveForm setIsLeaveDialogOpen toast
         setLeaveLoading].
    repeat split; try reflexivity; try assumption.
    rewrite map_map. reflexivity.
Qed.

Lemma own_rows_visible (roles : list RoleRow) (uid : string) (l h : Z)
    (rows : list Attendance) :
  filter (fun a =>
            attendanceSelect roles uid (at_user_id (ar_row a))
            && String.eqb (at_user_id (ar_row a)) uid
            && (l <=? at_check_in (ar_row a))
            && (at_check_in (ar_row a) <=? h)) rows
  = filter (fun a =>
              String.eqb (at_user_id (ar_row a)) uid
              && (l <=? at_check_in (ar_row a))
              && (at_check_in (ar_row a) <=? h)) rows.
Proof.
  apply filter_ext. intros a.
  unfold attendanceSelect, users_can_view_own_attendance.
  destruct (String.eqb (at_user_id (ar_row a)) uid); [reflexivity|].
  now rewrite andb_false_r.
Qed.

Lemma fetchData_run (env : Env) (pg : Page) (uid : string) :
  user env = Some uid ->
  0 <= YearFromTime (now env) <= 9999 ->
  exists pg',
    fetchData env pg = (inl tt, pg')
    /\ todayAttendance pg'
       = (if todaySelectFails (faults env) then None
          else single (rowsOfDay (serverOffset env) (now env) uid (tables pg)))
    /\ todaySchedule pg'
       = fetchTodaySchedule (tz env) (Some (later env))
           (scheduleSelectFails (faults env))
           (tb_attendance_schedule (tables pg))
    /\ tables pg' = tables pg
    /\ checkingIn pg' = checkingIn pg
    /\ toasts pg' = toasts pg
    /\ loading pg' = false.
Proof.
  intros Hu Hy.
  destruct (dateText_facts (now env) Hy) as (_ & Hsplit & _).
  destruct (today_window (serverOffset env) (now env) Hy) as [Hlo Hhi].
  unfold fetchData. rewrite Hu, Hsplit. cbn [LeaveRequests.interpolate].
  unfold tryCatchFinally, bind, query, selectToday, setTodayAttendance,
    setTodaySchedule, setLoading.
  rewrite Hlo, Hhi, own_rows_visible.
  eexists. split; [reflexivity|]. cbn.
  repeat split; reflexivity.
Qed.

(** X16.  [fetchData] searches today's attendance in the UTC day of
    the browser's clock, from 00:00:00 to 23:59:59 as the database
    reads these bounds: [todayAttendance] becomes the user's row of
    that window when there is exactly one, and null when there is
    none or more than one. *)
Theorem X16_refresh_finds_the_single_row_of_the_utc_day (env : Env)
    (pg : Page) (uid : string) :
  user env = Some uid ->
  0 <= YearFromTime (now env) <= 9999 ->
  todaySelectFails (faults env) = false ->
  exists pg',
    fetchData env pg = (inl tt, pg')
    /\ tables pg' = tables pg
    /\ todayAttendance pg'
       = single (rowsOfDay (serverOffset env) (now env) uid (tables pg))
    /\ (forall a, todayAttendance pg' = Some a ->
                  rowsOfDay (serverOffset env) (now env) uid (tables pg) = [a])
    /\ ((2 <= List.length
                (rowsOfDay (serverOffset env) (now env) uid (tables pg)))%nat ->
        todayAttendance pg' = None).
Proof.
  intros Hu Hy Hf.
  destruct (fetchData_run env pg uid Hu Hy)
    as (pg' & Hrun & Hta & _ & Htb & _).
  rewrite Hf in Hta.
  exists pg'. split; [exact Hrun|]. split; [exact Htb|]. split; [exact Hta|].
  rewrite Hta. unfold single.
  destruct (rowsOfDay _ _ _ _) as [|a [|b rest]]; split;
    try discriminate; cbn [List.length]; intros; try lia; try reflexivity.
  congruence.
Qed.

Lemma rowsOfDay_app (offset t : Z) (uid : string) (tb tb' : Tables)
    (new : list Attendance) :
  tb_attendance tb' = (tb_attendance tb ++ new)%list ->
  rowsOfDay offset t uid tb'
  = (rowsOfDay offset t uid tb
     ++ filter (fun a =>
                  String.eqb (at_user_id (ar_row a)) uid
                  && (Day t * msPerDay - offset <=? at_check_in (ar_row a))
                  && (at_check_in (ar_row a)
                      <=? Day t * msPerDay + 86399000 - offset)) new)%list.
Proof. intros H. unfold rowsOfDay. rewrite H. apply filter_app. Qed.

Lemma checkInRow_in_day (env : Env) (offset t : Z) (uid status : string) :
  Day t * msPerDay - offset <= serverNow env
  <= Day t * msPerDay + 86399000 - offset ->
  filter (fun a =>
            String.eqb (at_user_id (ar_row a)) uid
            && (Day t * msPerDay - offset <=? at_check_in (ar_row a))
            && (at_check_in (ar_row a)
                <=? Day t * msPerDay + 86399000 - offset))
         [checkInRow env uid status]
  = [checkInRow env uid status].
Proof.
  intros [Hlo Hhi]. cbn [filter checkInRow ar_row at_user_id at_check_in].
  rewrite String.eqb_refl.
  destruct (Z.leb_spec (Day t * msPerDay - offset) (serverNow env)); [|lia].
  destruct (Z.leb_spec (serverNow env) (Day t * msPerDay + 86399000 - offset));
    [|lia].
  reflexivity.
Qed.


(** X18.  Nothing in [handleCheckIn] looks at today's attendance:
    the Check In button stays enabled after a successful check-in
    until the refresh, and a second check-in stores a second row.
    With two rows in today's window the refresh finds no single row,
    so the card offers Check In and Request Leave again and no Check
    Out. *)
Theorem X18_second_check_in_brings_check_in_back (env1 env2 env' : Env)
    (pg : Page) (uid : string) :
  user env1 = Some uid -> user env2 = Some uid -> user env' = Some uid ->
  checkInFails (faults env1) = None ->
  checkInFails (faults env2) = None ->
  todaySelectFails (faults env') = false ->
  0 <= YearFromTime (now env') <= 9999 ->
  Day (now env') * msPerDay - serverOffset env' <= serverNow env1
  <= Day (now env') * msPerDay + 86399000 - serverOffset env' ->
  Day (now env') * msPerDay - serverOffset env' <= serverNow env2
  <= Day (now env') * msPerDay + 86399000 - serverOffset env' ->
  exists pg1 pg2 pg3 st1 st2,
    handleCheckIn env1 pg = (inl tt, pg1)
    /\ (In CheckIn (buttons pg) -> In CheckIn (buttons pg1))
    /\ handleCheckIn env2 pg1 = (inl tt, pg2)
    /\ tb_attendance (tables pg2)
       = (tb_attendance (tables pg)
          ++ [checkInRow env1 uid st1; checkInRow env2 uid st2])%list
    /\ fetchData env' pg2 = (inl tt, pg3)
    /\ todayAttendance pg3 = None
    /\ ((forall s, todaySchedule pg3 = Some s -> is_working_day s = true) ->
        buttons pg3 = [CheckIn; RequestLeave]).
Proof.
  intros Hu1 Hu2 Hu' Hf1 Hf2 Hsel Hy Hw1 Hw2.
  destruct (handleCheckIn_run env1 pg uid Hu1 Hf1)
    as (pg1 & t1 & Hrun1 & Ha1 & _ & _ & _ & _ & Hta1 & Hts1 & Hc1 & _).
  destruct (handleCheckIn_run env2 pg1 uid Hu2 Hf2)
    as (pg2 & t2 & Hrun2 & Ha2 & _ & _ & _ & _ & Hta2 & Hts2 & Hc2 & _).
  destruct (fetchData_run env' pg2 uid Hu' Hy)
    as (pg3 & Hrun3 & Hta & _ & _ & Hc3 & _).
  exists pg1, pg2, pg3. eexists _, _.
  split; [exact Hrun1|]. split.
  { unfold buttons, attendanceButtons. rewrite Hta1, Hts1, Hc1.
    destruct (todaySchedule pg) as [s|];
      [destruct (negb (is_working_day s)); [intros []|]|];
      (destruct (todayAttendance pg) as [a|];
       [destruct (at_check_out (ar_row a)), (checkingIn pg); cbn; intuition discriminate
       |intros _; now left]). }
  split; [exact Hrun2|]. split.
  { rewrite Ha2, Ha1, <- app_assoc. reflexivity. }
  split; [exact Hrun3|].
  assert (Hnone : todayAttendance pg3 = None).
  { rewrite Hta, Hsel.
    rewrite (rowsOfDay_app _ _ _ (tables pg1) (tables pg2) _ Ha2).
    rewrite (rowsOfDay_app _ _ _ (tables pg) (tables pg1) _ Ha1).
    rewrite !checkInRow_in_day by assumption.
    rewrite <- app_assoc. cbn [app].
    destruct (rowsOfDay (serverOffset env') (now env') uid (tables pg))
      as [|a [|b rest]]; reflexivity. }
  split; [exact Hnone|].
  intros Hwork. unfold buttons, attendanceButtons.
  rewrite Hnone, Hc3, Hc2. cbn [app].
  destruct (todaySchedule pg3) as [s|]; [|reflexivity].
  rewrite (Hwork s eq_refl). reflexivity.
Qed.

End EmployeeHandlers.

(** ** Durations *)

Section FloorOfQuotient.

Import Float64.

Local Open Scope Q_scope.

Lemma Qfloor_between (x : Q) (n : Z) :
  inject_Z n <= x -> x < inject_Z (n + 1) -> Qfloor x = n.
Proof.
  intros Hlo Hhi.
  pose proof (Qfloor_le x) as H1. pose proof (Qlt_floor x) as H2.
  assert (A : inject_Z n < inject_Z (Qfloor x + 1)) by lra.
  assert (B : inject_Z (Qfloor x) < inject_Z (n + 1)) by lra.
  rewrite <- Zlt_Qlt in A, B. lia.
Qed.

Lemma rne_ge_int (y : Q) (n : Z) : inject_Z n <= y -> (n <= rne y)%Z.
Proof.
  intros H.
  assert (Hf : (n <= Qfloor y)%Z).
  { rewrite <- (Qfloor_Z n). now apply Qfloor_resp_le. }
  unfold rne.
  destruct (Qcompare_spec (y - inject_Z (Qfloor y)) (1 # 2)) as [E|L|G];
    [destruct (Z.even (Qfloor y))| |]; lia.
Qed.

Lemma pow2_ge_1 (k : Z) : (0 <= k)%Z -> 1 <= pow2 k.
Proof.
  intros Hk. rewrite pow2_Z by exact Hk.
  change 1 with (inject_Z 1). rewrite <- Zle_Qle.
  pose proof (Z.pow_pos_nonneg 2 k ltac:(lia) Hk). lia.
Qed.

Lemma ilog2_below (q : Q) (k : Z) : 0 < q -> q < pow2 k -> (ilog2 q < k)%Z.
Proof.
  intros Hq Hk. pose proof (ilog2_le q Hq) as Hlo.
  destruct (Z_lt_ge_dec (ilog2 q) k) as [Hlt|Hge]; [exact Hlt|].
  exfalso.
  assert (E : pow2 (ilog2 q) == pow2 k * pow2 (ilog2 q - k)).
  { rewrite <- pow2_add. replace (k + (ilog2 q - k))%Z with (ilog2 q) by lia.
    reflexivity. }
  pose proof (pow2_ge_1 (ilog2 q - k) ltac:(lia)) as H1.
  pose proof (pow2_pos k) as Pk.
  assert (pow2 k * 1 <= pow2 k * pow2 (ilog2 q - k)).
  { rewrite !(Qmult_comm (pow2 k)). apply Qmult_le_compat_r; lra. }
  lra.
Qed.

(** Rounding does not go below an integer that the exact value
    reaches. *)
Lemma RN_ge_int (x : Q) (n : Z) :
  0 < x -> x < pow2 53 -> inject_Z n <= x -> inject_Z n <= RN x.
Proof.
  intros Hx H53 Hn. unfold RN.
  destruct (Qcompare_spec 0 x) as [E|L|G]; [lra | | lra].
  unfold roundPos.
  pose proof (ilog2_below x 53 Hx H53) as Hlog.
  set (e := ulpExp x).
  assert (He : (-1074 <= e <= 0)%Z) by (unfold e, ulpExp; lia).
  pose proof (pow2_pos e) as HP.
  assert (HPk : pow2 e * inject_Z (2 ^ (- e)) == 1).
  { rewrite <- pow2_Z by lia. rewrite <- pow2_add.
    replace (e + - e)%Z with 0%Z by lia. reflexivity. }
  set (P := pow2 e) in *. set (K := inject_Z (2 ^ (- e))) in *.
  assert (HK : 0 < K).
  { unfold K. change 0 with (inject_Z 0). rewrite <- Zlt_Qlt.
    apply Z.pow_pos_nonneg; lia. }
  assert (Hdiv : x / P == x * K).
  { field_simplify_eq; [|lra]. rewrite <- (Qmult_1_r x) at 1.
    rewrite <- HPk. ring. }
  assert (Hint : inject_Z (n * 2 ^ (- e)) <= x / P).
  { rewrite Hdiv, inject_Z_mult. fold K. apply Qmult_le_compat_r; lra. }
  apply rne_ge_int in Hint. rewrite Zle_Qle in Hint.
  rewrite inject_Z_mult in Hint. fold K in Hint.
  set (m := inject_Z (rne (x / P))) in *.
  assert (inject_Z n * K * P <= m * P) by (apply Qmult_le_compat_r; lra).
  assert (inject_Z n * K * P == inject_Z n).
  { rewrite <- Qmult_assoc, (Qmult_comm K P), HPk. ring. }
  lra.
Qed.

(** [Math.floor(a / b)] on integers within the range of exact
    integers is the integer quotient. *)
Lemma floor_div_exact (a b : Z) :
  (0 <= a)%Z -> (0 < b)%Z -> ((a / b + 1) * b < 2 ^ 53)%Z ->
  Qfloor (div (inject_Z a) (inject_Z b)) = (a / b)%Z.
Proof.
  intros Ha Hb Hrange. unfold div.
  assert (HB : 0 < inject_Z b)
    by (change 0 with (inject_Z 0); now rewrite <- Zlt_Qlt).
  destruct (Z.eq_dec a 0) as [->|Hpos].
  { rewrite RN_zero by (field; lra). reflexivity. }
  pose proof (Z.div_mod a b ltac:(lia)) as Hdm.
  pose proof (Z.mod_pos_bound a b Hb) as Hmod.
  assert (Hq0 : (0 <= a / b)%Z) by (apply Z.div_pos; lia).
  set (q := (a / b)%Z) in *.
  set (x := inject_Z a / inject_Z b).
  assert (HxB : x * inject_Z b == inject_Z a) by (unfold x; field; lra).
  assert (HA : 1 <= inject_Z a)
    by (change 1 with (inject_Z 1); rewrite <- Zle_Qle; lia).
  assert (Hx : 0 < x).
  { unfold x. apply Qlt_shift_div_l; [exact HB | lra]. }
  assert (HM : inject_Z ((q + 1) * b) < 9007199254740992).
  { change 9007199254740992 with (inject_Z (2 ^ 53)). now rewrite <- Zlt_Qlt. }
  assert (HaM : inject_Z a + 1 <= inject_Z ((q + 1) * b)).
  { change 1 with (inject_Z 1). rewrite <- inject_Z_plus, <- Zle_Qle. nia. }
  assert (HqB : inject_Z (q * b) <= inject_Z a) by (rewrite <- Zle_Qle; nia).
  rewrite !inject_Z_mult in HM, HaM, HqB. rewrite inject_Z_plus in HM, HaM.
  change (inject_Z 1) with 1 in HM, HaM.
  set (A := inject_Z a) in *. set (B := inject_Z b) in *.
  set (Qq := inject_Z q) in *.
  assert (HB1 : 1 <= B)
    by (unfold B; change 1 with (inject_Z 1); rewrite <- Zle_Qle; lia).
  assert (HQ0 : 0 <= Qq)
    by (unfold Qq; change 0 with (inject_Z 0); now rewrite <- Zle_Qle).
  assert (Hqx : Qq <= x).
  { unfold x. apply Qle_shift_div_l; [exact HB | exact HqB]. }
  assert (Hx53 : x < pow2 53).
  { change (pow2 53) with 9007199254740992.
    apply Qlt_shift_div_r; [exact HB|].
    assert (A < 9007199254740992) by lra.
    assert (9007199254740992 * 1 <= 9007199254740992 * B)
      by (rewrite !(Qmult_comm 9007199254740992); apply Qmult_le_compat_r; lra).
    lra. }
  assert (Htiny : pow2 (-1022) <= x).
  { pose proof tiny_le_normal as Ht.
    assert (1 # 9007199254740992 <= x).
    { unfold x. apply Qle_shift_div_l; [exact HB|].
      assert (B < 9007199254740992).
      { assert (1 * B <= (Qq + 1) * B) by (apply Qmult_le_compat_r; lra). lra. }
      lra. }
    lra. }
  pose proof (RN_error x Hx Htiny) as [_ Hhi].
  pose proof (RN_ge_int x q Hx Hx53 Hqx) as Hlo.
  apply Qfloor_between; [exact Hlo|].
  rewrite inject_Z_plus. change (inject_Z 1) with 1. fold Qq.
  set (R := RN x) in *.
  assert (HRB : R * B <= x * (1 + u) * B) by (apply Qmult_le_compat_r; lra).
  assert (E : x * (1 + u) * B == A * (1 + u)) by (rewrite <- HxB; ring).
  rewrite E in HRB. unfold u in HRB.
  assert (Hlt : R * B < (Qq + 1) * B) by lra.
  apply (Qmult_lt_r _ _ _ HB). exact Hlt.
Qed.

Lemma floor_RN_int (n : Z) :
  (0 <= n < 2 ^ 53)%Z -> Qfloor (RN (inject_Z n)) = n.
Proof.
  intros [Hn0 Hn]. destruct (Z.eq_dec n 0) as [->|Hpos]; [reflexivity|].
  assert (H1 : 1 <= inject_Z n)
    by (change 1 with (inject_Z 1); rewrite <- Zle_Qle; lia).
  assert (H53 : inject_Z n < 9007199254740992)
    by (change 9007199254740992 with (inject_Z (2 ^ 53)); now rewrite <- Zlt_Qlt).
  pose proof tiny_le_normal as Ht.
  pose proof (RN_error (inject_Z n) ltac:(lra) ltac:(lra)) as [_ Hhi].
  pose proof (RN_ge_int (inject_Z n) n ltac:(lra)
                ltac:(change (pow2 53) with 9007199254740992; lra)
                ltac:(lra)) as Hlo.
  apply Qfloor_between; [exact Hlo|].
  rewrite inject_Z_plus. change (inject_Z 1) with 1. unfold u in Hhi. lra.
Qed.

End FloorOfQuotient.

Section Durations.

Import JSDate Duration.

Lemma calculateDuration_missing (placeholder : string) (read : string -> Date)
    (checkIn : string) :
  calculateDurationWith placeholder read checkIn None = placeholder
  /\ calculateDurationWith placeholder read checkIn (Some EmptyString)
     = placeholder.
Proof. split; reflexivity. Qed.

(** X19.  For a check-out not before the check-in,
    [calculateDuration] shows the whole hours and the whole minutes of
    the remaining part of the elapsed time: the minutes are between 0
    and 59 and less than a minute of the elapsed time is dropped.
    The divisions are double-precision divisions followed by
    [Math.floor]; on these integers they give the integer
    quotients. *)
Theorem X19_duration_is_whole_hours_and_minutes (placeholder : string)
    (read : string -> Date) (checkIn checkOut : string) (s e : Z) :
  checkOut <> EmptyString ->
  read checkIn = Some s -> read checkOut = Some e ->
  s <= e -> e - s < 2 ^ 52 ->
  let d := e - s in
  let hours := d / 3600000 in
  let minutes := d mod 3600000 / 60000 in
  calculateDurationWith placeholder read checkIn (Some checkOut)
  = (decimal hours ++ "h " ++ decimal minutes ++ "m")%string
  /\ 0 <= hours /\ 0 <= minutes <= 59
  /\ hours * 3600000 + minutes * 60000 <= d
     < hours * 3600000 + minutes * 60000 + 60000.
Proof.
  intros Hne Hs He Hle Hrange d hours minutes.
  assert (Hd : 0 <= d < 2 ^ 52) by (unfold d; lia).
  assert (Hmath : 0 <= hours /\ 0 <= minutes <= 59
                  /\ hours * 3600000 + minutes * 60000 <= d
                     < hours * 3600000 + minutes * 60000 + 60000).
  { unfold hours, minutes. Z.div_mod_to_equations. lia. }
  split; [|exact Hmath].
  unfold calculateDurationWith.
  destruct checkOut as [|c rest]; [contradiction|].
  rewrite Hs, He.
  unfold minus. fold d.
  rewrite floor_RN_int by (change (2 ^ 53) with 9007199254740992;
                           change (2 ^ 52) with 4503599627370496 in Hd; lia).
  change (1000 * 60 * 60) with 3600000. change (1000 * 60) with 60000.
  rewrite Z.rem_mod_nonneg by lia.
  rewrite floor_div_exact;
    [| lia | lia
     | change (2 ^ 53) with 9007199254740992;
       change (2 ^ 52) with 4503599627370496 in Hd;
       Z.div_mod_to_equations; lia].
  rewrite floor_div_exact;
    [| Z.div_mod_to_equations; lia | lia
     | change (2 ^ 53) with 9007199254740992;
       Z.div_mod_to_equations; lia].
  reflexivity.
Qed.

End Durations.

(** ** The schedule page *)

Section Schedule.

Import JSDate Supabase EmployeeDashboard Handler SchedulePage.

Lemma saveDays_ok (env : Env) (days : list ScheduleRow) (pg : Page) :
  (forall d, In d days -> updateFails env d = None) ->
  saveDays env days pg
  = (inl tt, {| table := afterUpdates env days (table pg);
                schedule := schedule pg; saving := saving pg;
                toasts := toasts pg |}).
Proof.
  revert pg. induction days as [|d rest IH]; intros pg H.
  - destruct pg; reflexivity.
  - cbn [saveDays]. unfold bind at 1. unfold call, updateDay.
    rewrite (H d (or_introl eq_refl)). unfold bind at 1. cbn [throwIf ret].
    rewrite IH by (intros x Hx; apply H; now right). reflexivity.
Qed.

Lemma saveDays_stops (env : Env) (pre post : list ScheduleRow)
    (d : ScheduleRow) (e : Exn) (pg : Page) :
  (forall x, In x pre -> updateFails env x = None) ->
  updateFails env d = Some e ->
  saveDays env (pre ++ d :: post) pg
  = (inr e, {| table := afterUpdates env pre (table pg);
               schedule := schedule pg; saving := saving pg;
               toasts := toasts pg |}).
Proof.
  revert pg. induction pre as [|x rest IH]; intros pg H He.
  - cbn [app saveDays]. unfold bind at 1. unfold call, updateDay. rewrite He.
    destruct pg; reflexivity.
  - cbn [app saveDays]. unfold bind at 1. unfold call, updateDay.
    rewrite (H x (or_introl eq_refl)). unfold bind at 1. cbn [throwIf ret].
    rewrite IH by (try (intros y Hy; apply H; now right); exact He).
    reflexivity.
Qed.

(** The row [r] after the updates sent for [days]. *)
Lemma afterUpdates_rows (env : Env) (days tb : list ScheduleRow) :
  afterUpdates env days tb
  = map (fun r =>
           fold_left (fun r day => if String.eqb (sr_id r) (sr_id day)
                                   then stored env day r else r) days r) tb.
Proof.
  unfold afterUpdates. revert tb.
  induction days as [|d rest IH]; intros tb; cbn [fold_left].
  - now rewrite map_id.
  - rewrite IH, map_map. reflexivity.
Qed.

Lemma row_untouched (env : Env) (days : list ScheduleRow) (r : ScheduleRow) :
  ~ In (sr_id r) (map sr_id days) ->
  fold_left (fun r day => if String.eqb (sr_id r) (sr_id day)
                          then stored env day r else r) days r = r.
Proof.
  induction days as [|d rest IH]; intros H; [reflexivity|].
  cbn [fold_left].
  destruct (String.eqb_spec (sr_id r) (sr_id d)) as [E|_].
  - exfalso. apply H. left. now symmetry.
  - apply IH. intros Hin. apply H. now right.
Qed.

Lemma row_updated_once (env : Env) (days : list ScheduleRow)
    (d r : ScheduleRow) :
  NoDup (map sr_id days) -> In d days -> sr_id d = sr_id r ->
  fold_left (fun r day => if String.eqb (sr_id r) (sr_id day)
                          then stored env day r else r) days r
  = stored env d r.
Proof.
  revert r. induction days as [|x rest IH]; intros r Hnd Hin Hid; [contradiction|].
  cbn [map] in Hnd. inversion Hnd as [|? ? Hnot Hnd']; subst.
  cbn [fold_left]. destruct Hin as [->|Hin].
  - rewrite <- Hid, String.eqb_refl.
    apply row_untouched. cbn [stored sr_id]. now rewrite <- Hid.
  - destruct (String.eqb_spec (sr_id r) (sr_id x)) as [E|_].
    + exfalso. apply Hnot. rewrite <- E, <- Hid. now apply in_map.
    + now apply IH.
Qed.

(** X20.  [handleSave] sends one update per day, in the order of the
    page's list, and stops at the first one that the service refuses:
    the days before it stay saved, that day and the days after it are
    not written, the page's list is kept, one destructive toast shows
    the error and the button is released.  Nothing is rolled back. *)
Theorem X20_save_stops_at_the_first_refused_day (env : Env) (pg : Page)
    (pre post : list ScheduleRow) (d : ScheduleRow) (e : Exn) :
  schedule pg = (pre ++ d :: post)%list ->
  (forall x, In x pre -> updateFails env x = None) ->
  updateFails env d = Some e ->
  exists pg',
    handleSave env pg = (inl tt, pg')
    /\ table pg' = afterUpdates env pre (table pg)
    /\ schedule pg' = schedule pg
    /\ saving pg' = false
    /\ toasts pg' = (toasts pg ++ [saveErrorToast e])%list
    /\ List.length (table pg') = List.length (table pg)
    /\ (forall r, In r (table pg) -> ~ In (sr_id r) (map sr_id pre) ->
                  In r (table pg'))
    /\ (forall x r, NoDup (map sr_id pre) -> In x pre -> In r (table pg) ->
                    sr_id x = sr_id r -> In (stored env x r) (table pg')).
Proof.
  intros Hs Hpre He. unfold handleSave.
  replace (saveDays env (schedule pg)) with (saveDays env (pre ++ d :: post))
    by (now rewrite Hs).
  unfold bind at 1. unfold setSaving at 1. cbv beta iota.
  unfold tryCatchFinally. unfold bind at 1.
  rewrite (saveDays_stops env pre post d e _ Hpre He).
  cbn. eexists. split; [reflexivity|]. cbn.
  split; [reflexivity|]. split; [reflexivity|]. split; [reflexivity|].
  split; [reflexivity|]. rewrite afterUpdates_rows.
  split; [apply length_map|]. split.
  - intros r Hr Hnot. apply in_map_iff. exists r.
    split; [now apply row_untouched | exact Hr].
  - intros x r Hnd Hx Hr Hid. apply in_map_iff. exists r.
    split; [now apply row_updated_once | exact Hr].
Qed.

Lemma filter_map_comm {A B : Type} (f : A -> B) (p : B -> bool) (l : list A) :
  filter p (map f l) = map f (filter (fun x => p (f x)) l).
Proof.
  induction l as [|x rest IH]; [reflexivity|].
  cbn [map filter]. destruct (p (f x)); cbn [map]; now rewrite IH.
Qed.

Lemma gt_finite (a b : Z) :
  JS.gt (JS.toNumber (Some a)) (JS.Finite b) = (b <? a).
Proof. reflexivity. Qed.

(** X21.  When the admin sets the end of the check-in window of a
    weekday to HH:MM and saves, on a page in step with the table and
    with every update accepted, the success toast is shown and the
    employee's page, on a day of that weekday with a single schedule
    row, classifies a check-in as late exactly when the local minutes
    since midnight exceed 60 HH + MM, the column giving back
    HH:MM:00. *)
Theorem X21_saved_check_in_end_drives_the_classifier (env : Env) (pg : Page)
    (w h m : Z) (r0 : ScheduleRow) :
  NoDup (map sr_id (schedule pg)) ->
  Permutation (schedule pg) (table pg) ->
  (forall d, updateFails env d = None) ->
  0 <= h < 24 -> 0 <= m < 60 ->
  timeColumn env (hourMinute h m) = timeOfDay h m 0 ->
  filter (fun r => day_of_week (sr_day r) =? w) (table pg) = [r0] ->
  exists pg1 pg2,
    handleScheduleChange w (SetCheckInEnd (hourMinute h m)) pg = (inl tt, pg1)
    /\ handleSave env pg1 = (inl tt, pg2)
    /\ toasts pg2 = (toasts pg ++ [savedToast])%list
    /\ map sr_id (table pg2) = map sr_id (table pg)
    /\ forall (tz : TimeZone) (t : Z),
         WeekDay (LocalTime tz t) = w ->
         determineStatus tz
           (fetchTodaySchedule tz (Some t) false (map sr_day (table pg2)))
           (Some t)
         = if h * 60 + m <? minutesSinceMidnight tz t then "late" else "present".
Proof.
  intros Hnd Hperm Hok Hh Hm Htime Hday.
  set (c := SetCheckInEnd (hourMinute h m)).
  set (edit := fun day : ScheduleRow =>
                 if day_of_week (sr_day day) =? w then withField c day else day).
  assert (Hid : forall d, sr_id (edit d) = sr_id d).
  { intros d. unfold edit. destruct (_ =? _); reflexivity. }
  assert (Hnd1 : NoDup (map sr_id (map edit (schedule pg)))).
  { rewrite map_map. erewrite map_ext; [exact Hnd|]. exact Hid. }
  eexists _, _. split; [reflexivity|].
  unfold handleSave. cbn [schedule]. fold edit.
  unfold bind at 1. unfold setSaving at 1. cbv beta iota.
  unfold tryCatchFinally. unfold bind at 1.
  rewrite saveDays_ok by (intros; apply Hok).
  cbn [table schedule saving toasts toast setSaving].
  split; [reflexivity|]. cbn [table toasts].
  split; [reflexivity|].
  assert (Htable : afterUpdates env (map edit (schedule pg)) (table pg)
                   = map (fun r => stored env (edit r) r) (table pg)).
  { rewrite afterUpdates_rows. apply map_ext_in. intros r Hr.
    apply row_updated_once; [exact Hnd1 | | apply Hid].
    apply in_map. eapply Permutation_in; [apply Permutation_sym; exact Hperm|].
    exact Hr. }
  rewrite Htable. split.
  { rewrite map_map. reflexivity. }
  intros tz t Hw.
  unfold fetchTodaySchedule. cbn [getDay option_map]. rewrite Hw.
  rewrite !map_map.
  assert (Hfilter : filter (fun r => day_of_week r =? w)
                      (map (fun r => sr_day (stored env (edit r) r)) (table pg))
                    = map (fun r => sr_day (stored env (edit r) r))
                        (filter (fun r => day_of_week (sr_day r) =? w) (table pg))).
  { rewrite filter_map_comm. reflexivity. }
  rewrite Hfilter, Hday. cbn [map single].
  assert (Hr0 : (day_of_week (sr_day r0) =? w) = true).
  { assert (Hin : In r0 (filter (fun r => day_of_week (sr_day r) =? w) (table pg)))
      by (rewrite Hday; now left).
    apply filter_In in Hin. exact (proj2 Hin). }
  unfold determineStatus.
  rewrite (checkInEndMinutes_timeOfDay _ h m 0 Hh Hm ltac:(lia)).
  - rewrite currentMinutes_valid, gt_finite. reflexivity.
  - cbn [stored sr_day check_in_end]. unfold edit. rewrite Hr0.
    cbn [withField c sr_day check_in_end]. exact Htime.
Qed.

End Schedule.

(** ** The dates named in the notifications *)

Section NoticeTexts.

Import JSDate Supabase LeaveRequests LeaveDays NoticeDates.

Lemma same_day_same_date (t1 t2 : Z) :
  Day t1 = Day t2 ->
  MonthFromTime t1 = MonthFromTime t2 /\ DateFromTime t1 = DateFromTime t2.
Proof.
  intros H.
  assert (Y : YearFromTime t1 = YearFromTime t2)
    by (unfold YearFromTime; now rewrite H).
  assert (W : DayWithinYear t1 = DayWithinYear t2)
    by (unfold DayWithinYear; now rewrite H, Y).
  assert (L : InLeapYear t1 = InLeapYear t2)
    by (unfold InLeapYear; now rewrite Y).
  assert (M : MonthFromTime t1 = MonthFromTime t2)
    by (unfold MonthFromTime; now rewrite W, L).
  split; [exact M|]. unfold DateFromTime. now rewrite W, L, M.
Qed.

Lemma format_of_midnight (off : Z) (str : string) (s : Z) :
  - msPerDay < off < msPerDay ->
  String.length str = 10%nat -> parse str = Some s ->
  format_MMM_d (fixedZone off) (Some s) = Some (dayName (shownDay off s)).
Proof.
  intros Hoff L Hs.
  pose proof (date_only_is_midnight str s L Hs) as Hmid.
  unfold format_MMM_d, LocalTime, dayName. cbn [fixedZone LocalTZA].
  assert (HD : Day (s + off) = Day (shownDay off s)).
  { unfold shownDay, Day, TimeWithinDay in *.
    destruct (Z.ltb_spec off 0); unfold msPerDay in *;
      Z.div_mod_to_equations; lia. }
  destruct (same_day_same_date _ _ HD) as [-> ->]. reflexivity.
Qed.

(** X22.  The notifications of [handleApprove] and [handleDecline]
    name the two dates as the browser's local calendar shows the UTC
    midnights read from them.  At a fixed offset east of UTC or at
    UTC these are the request's own days; west of UTC each is the day
    before. *)
Theorem X22_notice_names_the_day_before_west_of_utc
    (off : Z) (fuel : nat) (env : Env) (request : LeaveRequest) (pg : Page)
    (uid : string) (s e : Z) :
  tz env = fixedZone off ->
  - msPerDay < off < msPerDay ->
  user env = Some uid ->
  leaveUpdateError (faults env) = None ->
  notificationInsertError (faults env) = None ->
  String.length (start_date request) = 10%nat ->
  String.length (end_date request) = 10%nat ->
  parse (start_date request) = Some s ->
  parse (end_date request) = Some e ->
  (dayCount s e <= fuel)%nat ->
  (exists r pg',
     handleApprove fuel env request pg = Some (r, pg')
     /\ notifications (db pg')
        = (notifications (db pg)
           ++ [notificationRowOf
                 (approvedNotice request (dayName (shownDay off s))
                    (dayName (shownDay off e)))])%list)
  /\ (exists r pg',
        handleDecline env request pg = Some (r, pg')
        /\ notifications (db pg')
           = (notifications (db pg)
              ++ [notificationRowOf
                    (declinedNotice request (dayName (shownDay off s))
                       (dayName (shownDay off e)))])%list).
Proof.
  intros Htz Hoff Hu Hfu Hfn Ls Le Hs He Hfuel.
  pose proof (leave_records_one_per_day_fixed_zone off request s e fuel Hs He Hfuel)
    as Hrecs.
  pose proof (format_of_midnight off _ s Hoff Ls Hs) as Fs.
  pose proof (format_of_midnight off _ e Hoff Le He) as Fe.
  destruct env as [z nw u [fs fu fa fn]]. destruct pg as [d rs pid ts].
  cbn [user faults leaveUpdateError notificationInsertError tz] in *.
  subst z u fu fn.
  split.
  - unfold handleApprove. cbn [user].
    unfold bind, tryCatchFinally, approveBody, bind, call, updateLeave,
      throwIf, setProcessingId, throw, ret.
    cbn [faults leaveUpdateError notificationInsertError attendanceInsertError
         tz now db requests processingId toasts fst snd].
    rewrite Hrecs, Hs, He.
    unfold insertAttendance, formatOrThrow, insertNotification, toast, throw, ret.
    cbn [faults attendanceInsertError notificationInsertError db requests
         processingId toasts].
    rewrite Fs, Fe.
    destruct (0 <? Z.of_nat (List.length _));
      [destruct fa as [ea|]; [|destruct (attendanceRowsOf nw _)]|];
      cbn; eexists _, _; (split; [reflexivity|]); reflexivity.
  - unfold handleDecline. cbn [user].
    unfold bind, tryCatchFinally, declineBody, bind, call, updateLeave,
      throwIf, setProcessingId, formatOrThrow, insertNotification, toast,
      throw, ret.
    cbn [faults leaveUpdateError notificationInsertError tz now db requests
         processingId toasts].
    rewrite Hs, He, Fs, Fe.
    cbn; eexists _, _; (split; [reflexivity|]); reflexivity.
Qed.

End NoticeTexts.

(** ** The attendance list *)

Section AttendanceLists.

Import AttendanceList.

Lemma includes_empty (s : string) : includes s EmptyString = true.
Proof. destruct s; reflexivity. Qed.

(** X23.  The list of the admin's attendance page shows only records
    whose profile was found: a record without [user] matches no
    search, not even the empty one, whatever the status filter; a
    listed record has the chosen status unless the filter is "all".
    With the empty search and the filter "all" the list is exactly
    the records that have a profile. *)
Theorem X23_records_without_profile_are_never_listed
    (toLowerCase : string -> string) (searchQuery statusFilter : string)
    (records : list AttendanceRecord) :
  (forall r, In r (filteredRecords toLowerCase searchQuery statusFilter records) ->
             In r records /\ user r <> None
             /\ (statusFilter = "all" \/ status r = statusFilter))
  /\ (toLowerCase EmptyString = EmptyString ->
      filteredRecords toLowerCase EmptyString "all" records
      = filter hasUser records).
Proof.
  split.
  - intros r Hr. unfold filteredRecords in Hr.
    apply filter_In in Hr as [Hin Hkeep]. split; [exact Hin|].
    apply andb_true_iff in Hkeep as [Hs Hst].
    split.
    + destruct (user r); [discriminate | discriminate Hs].
    + apply orb_true_iff in Hst as [H|H]; apply String.eqb_eq in H; auto.
  - intros Hlow. unfold filteredRecords. apply filter_ext. intros r.
    rewrite Hlow. unfold hasUser.
    destruct (user r) as [u|]; [|reflexivity].
    cbn [option_map]. rewrite includes_empty. reflexivity.
Qed.

End AttendanceLists.

(** ** User management *)

Section UserManagement.

Import Supabase Policies EmployeeDashboard EmployeePage ManageUser.

Lemma missing_false (x : option string) :
  missing x = false -> exists s, x = Some s /\ s <> EmptyString /\ JS.strOr x EmptyString = s.
Proof.
  destruct x as [[|c r]|]; try discriminate. intros _.
  eexists. split; [reflexivity|]. split; [discriminate | reflexivity].
Qed.

(** X24.  The function changes the backend only for a caller whose
    authorization the account service accepts and for whom the role
    query finds exactly one row, with the role admin.  A caller with
    two role rows is refused with status 403 even when one of them is
    admin, because the query asks for a single row. *)
Theorem X24_only_a_verified_admin_changes_the_backend (env : Env)
    (req : Request) (b : Backend) :
  (snd (serve env req b) <> b ->
   exists header caller r,
     authorization req = Some header /\ header <> EmptyString
     /\ getUser env header = Some caller
     /\ filter (fun r => String.eqb (ur_user_id r) caller)
               (tb_user_roles (tables b)) = [r]
     /\ ur_role r = "admin")
  /\ (forall header caller,
        method req <> "OPTIONS" ->
        authorization req = Some header -> header <> EmptyString ->
        getUser env header = Some caller ->
        (2 <= List.length
                (filter (fun r => String.eqb (ur_user_id r) caller)
                        (tb_user_roles (tables b))))%nat ->
        serve env req b = (respond 403 (Error "Admin access required"), b)).
Proof.
  split.
  - unfold serve.
    destruct (String.eqb (method req) "OPTIONS"); [intros H; now elim H|].
    destruct (missing (authorization req)) eqn:Hm; [intros H; now elim H|].
    destruct (missing_false _ Hm) as (header & Ha & Hne & ->).
    destruct (getUser env header) as [caller|] eqn:Hg; [|intros H; now elim H].
    unfold roleData.
    destruct (roleSelectFails env); [intros H; now elim H|].
    destruct (filter _ (tb_user_roles (tables b))) as [|r [|r' rest]] eqn:Hf;
      cbn [single negb]; try (intros H; now elim H).
    destruct (String.eqb_spec (ur_role r) "admin") as [Hr|Hr];
      cbn [negb]; [|intros H; now elim H].
    intros _. exists header, caller, r. repeat split; assumption.
  - intros header caller Hmeth Ha Hne Hg Hlen. unfold serve.
    destruct (String.eqb_spec (method req) "OPTIONS") as [E|_]; [contradiction|].
    rewrite Ha.
    assert (Hm : missing (Some header) = false)
      by (destruct header; [contradiction | reflexivity]).
    rewrite Hm.
    assert (Hs : JS.strOr (Some header) EmptyString = header)
      by (destruct header; [contradiction | reflexivity]).
    rewrite Hs, Hg. unfold roleData.
    destruct (roleSelectFails env); [reflexivity|].
    destruct (filter _ (tb_user_roles (tables b))) as [|r [|r' rest]];
      cbn [List.length] in Hlen; try lia. reflexivity.
Qed.

Lemma filter_twice {A : Type} (p : A -> bool) (l : list A) :
  filter p (filter p l) = filter p l.
Proof.
  induction l as [|x rest IH]; [reflexivity|].
  cbn [filter]. destruct (p x) eqn:Hp; [|exact IH].
  cbn [filter]. now rewrite Hp, IH.
Qed.

Lemma otherOpt_not (uid : string) (y : option string) (x : string) :
  otherOpt uid y = Some x -> Uuid.same x uid = false.
Proof.
  unfold otherOpt. destruct y as [s|]; [|discriminate].
  destruct (Uuid.same s uid) eqn:E; [discriminate|].
  intros H. injection H as <-. exact E.
Qed.

(** Two texts that denote the same value select the same rows. *)
Lemma same_value (u uid : string) :
  Uuid.same u uid = true -> forall x, Uuid.same x u = Uuid.same x uid.
Proof.
  unfold Uuid.same. intros H x.
  destruct (Uuid.read u) as [a|]; [|discriminate].
  destruct (Uuid.read uid) as [c|]; [|discriminate].
  apply String.eqb_eq in H. subst c. reflexivity.
Qed.

Lemma other_same (u uid : string) :
  Uuid.same u uid = true -> forall x, other u x = other uid x.
Proof. intros H x. unfold other. now rewrite (same_value u uid H). Qed.

Lemma otherOpt_same (u uid : string) :
  Uuid.same u uid = true -> forall x, otherOpt u x = otherOpt uid x.
Proof.
  intros H [s|]; [|reflexivity]. unfold otherOpt.
  now rewrite (same_value u uid H).
Qed.

Lemma purge_same (u uid : string) (st : Step) (b : Backend) :
  Uuid.same u uid = true -> purge st u b = purge st uid b.
Proof.
  intros H. pose proof (other_same u uid H) as Ho.
  pose proof (otherOpt_same u uid H) as Hp.
  destruct st; unfold purge, withTables;
    first [ erewrite filter_ext; [reflexivity | intros a; apply Ho]
          | f_equal; apply map_ext; intros t; now rewrite Hp ].
Qed.

Lemma cascade_same (u uid : string) (b : Backend) :
  Uuid.same u uid = true -> cascade u b = cascade uid b.
Proof.
  intros H. unfold cascade. rewrite !(purge_same u uid) by exact H.
  f_equal.
  - apply map_ext. intros t. now rewrite !(otherOpt_same u uid H).
  - apply filter_ext. intros a. apply (other_same u uid H).
Qed.

Ltac not_the_user :=
  match goal with
  | H : In _ (filter _ _) |- _ = false =>
      apply filter_In in H as [_ H]; unfold other in H;
      apply negb_true_iff in H; exact H
  end.

(** The backend after the eight statements of the purge. *)
Lemma purge_all (env : Env) (uid : string) (b : Backend) :
  (forall st, stepFails env st = false) ->
  let b8 := run env DeleteProfile uid
              (run env DeleteUserRoles uid
                 (run env DeleteUserSettings uid
                    (run env UnassignTasks uid
                       (run env DeleteLeaveRequests uid
                          (run env DeleteAttendance uid
                             (run env DeleteGpsLogs uid
                                (run env DeleteNotifications uid b))))))) in
  forgotten uid b8 /\ othersKept uid b b8 /\ users b8 = users b.
Proof.
  intros Hok b8. unfold b8, run. rewrite !Hok.
  destruct b as [[a g l r n p sc] tk us au].
  split; [|split].
  - unfold forgotten. cbn.
    split; [intros x Hx; not_the_user|].
    split; [intros x Hx; not_the_user|].
    split; [intros x Hx; not_the_user|].
    split; [intros x Hx; not_the_user|].
    split; [intros x Hx; not_the_user|].
    split; [intros x Hx; not_the_user|].
    split; [intros x Hx; not_the_user|].
    intros t x Ht Hx.
    apply in_map_iff in Ht as [t0 [<- _]]. cbn in Hx.
    exact (otherOpt_not _ _ _ Hx).
  - unfold othersKept. cbn. repeat split; try reflexivity.
    rewrite map_map. reflexivity.
  - reflexivity.
Qed.

(** X25.  For a verified admin, a deletion whose [user_id] is, letter
    for letter, the caller's id is refused with status 400 and changes
    nothing.  Any other [user_id], whose statements all succeed, leaves
    no row of the tables referring to the user that it denotes and no
    task assigned to that user, and keeps the rows of everybody else;
    the tables compare ids as uuid values, not as texts, so another
    spelling of the caller's own id (upper case, braces, no hyphens)
    is not refused and purges the caller.  When the account service
    then refuses to delete the account, status 400 is returned and the
    account stays, but the purge is not undone; when it deletes the
    account that [user_id] denotes, status 200 is returned and the
    account is gone. *)
Theorem X25_delete_purges_the_user_and_nobody_else (env : Env)
    (req : Request) (b : Backend) (header caller uid : string)
    (r : RoleRow) (payload : Payload) :
  method req <> "OPTIONS" ->
  authorization req = Some header -> header <> EmptyString ->
  getUser env header = Some caller ->
  roleData env caller b = Some r -> ur_role r = "admin" ->
  json req = inr payload ->
  action payload = Some "delete" ->
  user_id payload = Some uid -> uid <> EmptyString ->
  (uid = caller ->
   serve env req b
   = (respond 400 (Error "Cannot delete your own account"), b))
  /\ (uid <> caller ->
      (forall st, stepFails env st = false) ->
      (forall account, deleteAccount env uid = inr account ->
                       Uuid.same account uid = true) ->
      forgotten uid (snd (serve env req b))
      /\ othersKept uid b (snd (serve env req b))
      /\ match deleteAccount env uid with
         | inr _ =>
             fst (serve env req b) = respond 200 Success
             /\ users (snd (serve env req b)) = filter (other uid) (users b)
         | inl e =>
             fst (serve env req b) = respond 400 (Error (message e))
             /\ users (snd (serve env req b)) = users b
         end).
Proof.
  intros Hmeth Ha Hne Hg Hrole Hadmin Hjson Hact Huid Hune.
  assert (Hm : missing (Some header) = false)
    by (destruct header; [contradiction | reflexivity]).
  assert (Hs : JS.strOr (Some header) EmptyString = header)
    by (destruct header; [contradiction | reflexivity]).
  assert (Hmu : missing (Some uid) = false)
    by (destruct uid; [contradiction | reflexivity]).
  assert (Hsu : JS.strOr (Some uid) EmptyString = uid)
    by (destruct uid; [contradiction | reflexivity]).
  unfold serve.
  destruct (String.eqb_spec (method req) "OPTIONS") as [E|_]; [contradiction|].
  rewrite Ha, Hm, Hs, Hg, Hrole, Hadmin, Hjson, Hact, Huid, Hmu, Hsu.
  cbn [String.eqb Ascii.eqb Bool.eqb negb andb isText].
  split.
  - intros ->. now rewrite String.eqb_refl.
  - intros Hother Hok Hacc.
    destruct (String.eqb_spec uid caller) as [E|_]; [contradiction|].
    destruct (purge_all env uid b Hok) as (Hf & Hk & Hu).
    set (b8 := run env DeleteProfile uid _) in *.
    unfold deleteUser.
    destruct (deleteAccount env uid) as [e|account].
    + cbn [fst snd]. split; [exact Hf|]. split; [exact Hk|].
      split; [reflexivity | exact Hu].
    + cbn [fst snd].
      rewrite (cascade_same account uid b8 (Hacc account eq_refl)).
      unfold cascade.
      destruct b8 as [[a g l r' n p sc] tk us au].
      unfold forgotten, othersKept in *. cbn in *.
      destruct Hf as (F1 & F2 & F3 & F4 & F5 & F6 & F7 & F8).
      destruct Hk as (K1 & K2 & K3 & K4 & K5 & K6 & K7 & K8 & K9).
      subst a g l r' n p sc us au.
      rewrite !filter_twice.
      split; [|split; [|split; reflexivity]].
      * split; [intros x Hx; not_the_user|].
        split; [intros x Hx; not_the_user|].
        split; [exact F3|].
        split; [intros x Hx; not_the_user|].
        split; [intros x Hx; not_the_user|].
        split; [intros x Hx; not_the_user|].
        split; [intros x Hx; not_the_user|].
        intros t x Ht Hx.
        apply in_map_iff in Ht as [t0 [<- _]]. cbn in Hx.
        exact (otherOpt_not _ _ _ Hx).
      * repeat split; try reflexivity.
        rewrite map_map. cbn. exact K9.
Qed.

End UserManagement.

(** ** Leave days on the dashboard *)

Section LeaveOnDashboards.

Import JSDate Supabase AdminDashboard DashboardWindow LeaveOnDashboard.

Lemma midnight_in_local_day (off t ts c : Z) :
  - msPerDay < off < msPerDay ->
  TimeWithinDay (LocalTime (fixedZone off) ts) = 0 ->
  ts <= t < ts + msPerDay ->
  TimeWithinDay c = 0 ->
  ((ts <=? c) && (c <=? ts + msPerDay - 1)) = (Day c =? countedDay off t).
Proof.
  intros Hoff Hts Ht Hc.
  unfold countedDay, LocalTime, TimeWithinDay, Day in *.
  cbn [fixedZone LocalTZA] in *. unfold msPerDay in *.
  destruct (Z.ltb_spec off 0);
    destruct (Z.leb_spec ts c); destruct (Z.leb_spec c (ts + 86400000 - 1));
    cbn [andb];
    match goal with
    | |- true = _ => symmetry; apply Z.eqb_eq
    | |- false = _ => symmetry; apply Z.eqb_neq
    end;
    Z.div_mod_to_equations; lia.
Qed.

(** X26.  The leave rows are stamped with UTC midnights, while the
    dashboard counts the rows of the browser's local day.  At a fixed
    offset at or east of UTC, the counter of people on leave today
    counts the leave rows of today's date; west of UTC it counts the
    leave rows of tomorrow's date, so that every leave day shows a
    day early.  Only the leave rows are taken to be stamped with a UTC
    midnight, as [handleApprove] stamps them; the other rows of the
    table are check-ins at any instant. *)
Theorem X26_dashboard_counts_leave_a_day_early_west_of_utc (off t : Z)
    (f : Faults) (db : Database) :
  - msPerDay < off < msPerDay ->
  TimeFromYear 0 + 8 * msPerDay <= t ->
  t + 8 * msPerDay <= TimeFromYear 10000 ->
  todayFails f = false ->
  Forall (fun a => at_status a = "leave" -> TimeWithinDay (at_check_in a) = 0)
         (attendance db) ->
  exists stats,
    fetchDashboardData (fixedZone off) (Some t) f db = Some stats
    /\ onLeaveToday stats
       = Z.of_nat (List.length
                     (filter (leaveOfDay (countedDay off t)) (attendance db))).
Proof.
  intros Hoff Hlo Hhi Hf Hmid.
  assert (E0 : TimeFromYear 0 = -62167219200000) by (vm_compute; reflexivity).
  assert (E1 : TimeFromYear 10000 = 253402300800000) by (vm_compute; reflexivity).
  assert (HD : msPerDay = 86400000) by reflexivity.
  destruct (week_window_fixed_zone off t ltac:(lia))
    as (ws & we & Hws & Hwe & Wd & Wm & Ewe & Wt).
  destruct (day_window_fixed_zone off t ltac:(lia))
    as (ts & Hts & Hte & Dm & Dt).
  assert (Yts : 0 <= YearFromTime ts <= 9999) by (apply year_in_range; lia).
  assert (Yte : 0 <= YearFromTime (ts + msPerDay - 1) <= 9999)
    by (apply year_in_range; lia).
  unfold fetchDashboardData. rewrite Hws, Hwe, Hts, Hte.
  cbn [toISOString option_map].
  eexists. split; [reflexivity|]. cbn [onLeaveToday].
  rewrite Hf, statusBetween_written by assumption.
  rewrite countOr0_window. unfold countIn. f_equal. f_equal.
  apply filter_ext_in. intros a Ha.
  rewrite Forall_forall in Hmid. specialize (Hmid a Ha).
  unfold inWindow, leaveOfDay, isLeave.
  destruct (String.eqb_spec (at_status a) "leave") as [Hst|Hst].
  - rewrite (midnight_in_local_day off t ts (at_check_in a) Hoff Dm Dt (Hmid Hst)).
    apply andb_comm.
  - apply andb_false_r.
Qed.

End LeaveOnDashboards.

(** Instances of the properties above on the sample data. *)

Lemma X1_approve_stores_one_row_per_day_fixed_zone_witness :
  exists r pg',
    LeaveRequests.handleApprove 3
      (Sample.env (JSDate.fixedZone 19800000) Supabase.noFaults)
      (Sample.request "2024-01-10" "2024-01-12" "pending")
      (Sample.page "2024-01-10" "2024-01-12") = Some (r, pg')
    /\ Supabase.attendance (LeaveRequests.db pg')
       = map (LeaveDays.leaveRow
                (Sample.request "2024-01-10" "2024-01-12" "pending"))
             [1704844800000; 1704931200000; 1705017600000].
Proof.
  destruct (X1_approve_stores_one_row_per_day_fixed_zone 19800000 3
              (Sample.env (JSDate.fixedZone 19800000) Supabase.noFaults)
              (Sample.request "2024-01-10" "2024-01-12" "pending")
              (Sample.page "2024-01-10" "2024-01-12")
              "admin-1" 1704844800000 1705017600000
              eq_refl eq_refl eq_refl eq_refl eq_refl eq_refl
              ltac:(vm_compute; reflexivity) ltac:(vm_compute; reflexivity)
              ltac:(vm_compute; lia))
    as (r & pg' & H & Ha & _).
  exists r, pg'. split; [exact H|]. rewrite Ha. vm_compute. reflexivity.
Defined.

Lemma X2_approve_reversed_dates_stores_nothing_witness :
  exists pg',
    LeaveRequests.handleApprove 0
      (Sample.env JSDate.easternUS2024 Sample.attendanceInsertFails)
      (Sample.request "2024-01-12" "2024-01-10" "pending")
      (Sample.page "2024-01-12" "2024-01-10") = Some (inl tt, pg')
    /\ Supabase.attendance (LeaveRequests.db pg') = []
    /\ map Supabase.lr_status (Supabase.leave_requests (LeaveRequests.db pg'))
       = ["approved"].
Proof.
  destruct (X2_approve_reversed_dates_stores_nothing 0
              (Sample.env JSDate.easternUS2024 Sample.attendanceInsertFails)
              (Sample.request "2024-01-12" "2024-01-10" "pending")
              (Sample.page "2024-01-12" "2024-01-10")
              "admin-1" 1705017600000 1704844800000
              eq_refl eq_refl
              ltac:(vm_compute; reflexivity) ltac:(vm_compute; reflexivity)
              ltac:(lia))
    as (pg' & H & Ha & Hl & _).
  exists pg'. split; [exact H|]. split; [exact Ha|].
  rewrite Hl. vm_compute. reflexivity.
Defined.

Lemma X3_refused_update_changes_nothing_witness :
  LeaveRequests.handleDecline
    (Sample.env JSDate.utcZone
       {| Supabase.leaveSelectError := None;
          Supabase.leaveUpdateError := Some Sample.serviceError;
          Supabase.attendanceInsertError := None;
          Supabase.notificationInsertError := None |})
    (Sample.request "2024-01-10" "2024-01-12" "pending")
    (Sample.page "2024-01-10" "2024-01-12")
  = Some (inl tt,
          {| LeaveRequests.db := Sample.database "2024-01-10" "2024-01-12";
             LeaveRequests.requests :=
               LeaveRequests.requests (Sample.page "2024-01-10" "2024-01-12");
             LeaveRequests.processingId := None;
             LeaveRequests.toasts :=
               [{| LeaveRequests.title := "Error";
                   LeaveRequests.description := "Failed to decline leave request";
                   LeaveRequests.destructive := true |}] |}).
Proof.
  exact (proj2 (X3_refused_update_changes_nothing 0
                  (Sample.env JSDate.utcZone
                     {| Supabase.leaveSelectError := None;
                        Supabase.leaveUpdateError := Some Sample.serviceError;
                        Supabase.attendanceInsertError := None;
                        Supabase.notificationInsertError := None |})
                  (Sample.request "2024-01-10" "2024-01-12" "pending")
                  (Sample.page "2024-01-10" "2024-01-12")
                  "admin-1" Sample.serviceError eq_refl eq_refl)).
Defined.

Lemma X4_decided_request_loses_its_buttons_witness :
  exists pg1 pg2,
    Sample.after
      (LeaveRequests.perform 3 (Sample.env JSDate.utcZone Supabase.noFaults)
         (LeaveRequests.ClickApprove
            (Sample.request "2024-01-10" "2024-01-12" "pending")))
      (Sample.page "2024-01-10" "2024-01-12") = Some pg1
    /\ Sample.after
         (LeaveRequests.fetchLeaveRequests
            (Sample.env JSDate.utcZone Supabase.noFaults)) pg1 = Some pg2
    /\ map LeaveRequests.status (LeaveRequests.requests pg2) = ["approved"]
    /\ forall b, In b (LeaveRequests.offeredActions pg2) ->
                 LeaveRequests.id (LeaveRequests.target b) <> "req-1".
Proof.
  eexists _, _. split; [vm_compute; reflexivity|].
  split; [vm_compute; reflexivity|].
  split; [vm_compute; reflexivity|].
  eapply (proj2 (X4_decided_request_loses_its_buttons 3
                   (Sample.env JSDate.utcZone Supabase.noFaults)
                   (LeaveRequests.ClickApprove
                      (Sample.request "2024-01-10" "2024-01-12" "pending"))
                   (Sample.page "2024-01-10" "2024-01-12") _ _
                   "admin-1" (inl tt) (inl tt)
                   eq_refl eq_refl eq_refl
                   ltac:(vm_compute; reflexivity)
                   ltac:(vm_compute; reflexivity))).
Defined.

Lemma X5_tabs_partition_the_requests_witness :
  Permutation
    (LeaveRequests.pendingRequests
       [Sample.request "2024-01-10" "2024-01-12" "approved";
        Sample.request "2024-02-01" "2024-02-02" "pending";
        Sample.request "2024-03-01" "2024-03-02" "declined";
        Sample.request "2024-04-01" "2024-04-02" "pending"]
     ++ LeaveRequests.approvedRequests
       [Sample.request "2024-01-10" "2024-01-12" "approved";
        Sample.request "2024-02-01" "2024-02-02" "pending";
        Sample.request "2024-03-01" "2024-03-02" "declined";
        Sample.request "2024-04-01" "2024-04-02" "pending"]
     ++ LeaveRequests.declinedRequests
       [Sample.request "2024-01-10" "2024-01-12" "approved";
        Sample.request "2024-02-01" "2024-02-02" "pending";
        Sample.request "2024-03-01" "2024-03-02" "declined";
        Sample.request "2024-04-01" "2024-04-02" "pending"])%list
    [Sample.request "2024-01-10" "2024-01-12" "approved";
     Sample.request "2024-02-01" "2024-02-02" "pending";
     Sample.request "2024-03-01" "2024-03-02" "declined";
     Sample.request "2024-04-01" "2024-04-02" "pending"].
Proof.
  apply (proj1 (X5_tabs_partition_the_requests _)).
  unfold LeaveDays.validStatus.
  repeat (constructor; [cbn; auto|]). constructor.
Defined.

Lemma X6_today_counters_add_up_witness :
  AdminDashboard.presentToday Sample.crowdedStats
  + AdminDashboard.lateToday Sample.crowdedStats
  + AdminDashboard.onLeaveToday Sample.crowdedStats
  + AdminDashboard.absentToday Sample.crowdedStats
  = Z.max (AdminDashboard.totalEmployees Sample.crowdedStats) 12.
Proof.
  assert (H : AdminDashboard.fetchDashboardData JSDate.utcZone (Some Sample.noon)
                Sample.noDashboardFaults Sample.crowdedDay
              = Some Sample.crowdedStats) by (vm_compute; reflexivity).
  pose proof (X6_today_counters_add_up JSDate.utcZone (Some Sample.noon)
                Sample.noDashboardFaults Sample.crowdedDay Sample.crowdedStats
                "2024-01-10T00:00:00.000Z" "2024-01-10T23:59:59.999Z"
                H ltac:(vm_compute; reflexivity) ltac:(vm_compute; reflexivity))
    as Hsum.
  assert (Hrows : AdminDashboard.statusBetween
                    (AdminDashboard.todayFails Sample.noDashboardFaults)
                    "2024-01-10T00:00:00.000Z" "2024-01-10T23:59:59.999Z"
                    Sample.crowdedDay
                  = Some (repeat "present" 7 ++ repeat "late" 3
                          ++ repeat "leave" 2)%list)
    by (vm_compute; reflexivity).
  rewrite Hrows in Hsum. apply Hsum.
  unfold DashboardWindow.countedStatus. cbn [repeat app].
  repeat (constructor; [auto|]). constructor.
Defined.

Lemma X7_weekly_rate_bounds_witness :
  0 <= AdminDashboard.rateOf (Some 4) 27
  /\ 100 < AdminDashboard.rateOf (Some 4) 27
  /\ AdminDashboard.rateOf (Some 4) 20 = 100
  /\ AdminDashboard.rateOf (Some 4) 19 <= 100.
Proof.
  pose proof (X7_weekly_rate_bounds 4 27 ltac:(lia) ltac:(reflexivity)
                ltac:(split; [lia | reflexivity])) as (H0 & _ & _ & H3).
  pose proof (X7_weekly_rate_bounds 4 20 ltac:(lia) ltac:(reflexivity)
                ltac:(split; [lia | reflexivity])) as (_ & _ & H2 & _).
  pose proof (X7_weekly_rate_bounds 4 19 ltac:(lia) ltac:(reflexivity)
                ltac:(split; [lia | reflexivity])) as (_ & H1 & _ & _).
  split; [exact H0|]. split; [apply H3; lia|].
  split; [apply H2; reflexivity | apply H1; lia].
Defined.

Lemma X8_dashboard_counts_local_day_and_week_witness :
  exists ts ws stats,
    AdminDashboard.fetchDashboardData (JSDate.fixedZone 19800000)
      (Some Sample.noon) Sample.noDashboardFaults Sample.crowdedDay = Some stats
    /\ ts <= Sample.noon < ts + JSDate.msPerDay
    /\ JSDate.WeekDay (JSDate.LocalTime (JSDate.fixedZone 19800000) ws) = 1
    /\ AdminDashboard.presentToday stats
       = DashboardWindow.countIn ts (ts + JSDate.msPerDay - 1)
           AdminDashboard.isPresent Sample.crowdedDay
    /\ AdminDashboard.attendanceRate stats
       = AdminDashboard.rateOf (Some (AdminDashboard.totalEmployees stats))
           (DashboardWindow.countIn ws (ws + 7 * JSDate.msPerDay - 1)
              AdminDashboard.isPresentOrLate Sample.crowdedDay).
Proof.
  destruct (X8_dashboard_counts_local_day_and_week 19800000 Sample.noon
              Sample.noDashboardFaults Sample.crowdedDay
              ltac:(vm_compute; discriminate) ltac:(vm_compute; discriminate)
              ltac:(vm_compute; discriminate))
    as (ts & ws & stats & H & _ & Ht & _ & Hw & _ & Hday & Hweek).
  exists ts, ws, stats. split; [exact H|]. split; [exact Ht|].
  split; [exact Hw|].
  split; [exact (proj1 (Hday eq_refl)) | exact (Hweek eq_refl)].
Defined.

Section EmployeeInstances.

Import JSDate Supabase Policies EmployeeDashboard EmployeePage.

Lemma X9_check_in_stores_one_row_witness :
  exists pg' t,
    handleCheckIn (EmployeeSample.env "emp-1" "row-1" EmployeeSample.noFaults)
      EmployeeSample.page = (inl tt, pg')
    /\ tb_attendance (tables pg')
       = [checkInRow (EmployeeSample.env "emp-1" "row-1" EmployeeSample.noFaults)
            "emp-1" "late"]
    /\ toasts pg' = [t]
    /\ LeaveRequests.destructive t = true.
Proof.
  destruct (X9_check_in_stores_one_row
              (EmployeeSample.env "emp-1" "row-1" EmployeeSample.noFaults)
              EmployeeSample.page "emp-1" eq_refl eq_refl)
    as (pg' & t & H & _ & Ha & _ & _ & _ & Ht & Hd).
  exists pg', t. split; [exact H|].
  split; [rewrite Ha; vm_compute; reflexivity|].
  split; [exact Ht | rewrite Hd; vm_compute; reflexivity].
Defined.

Lemma X10_refused_check_in_stores_nothing_witness :
  exists pg',
    handleCheckIn (EmployeeSample.env "emp-1" "row-1" EmployeeSample.checkInRefused)
      EmployeeSample.page = (inl tt, pg')
    /\ tb_attendance (tables pg') = []
    /\ toasts pg'
       = [{| LeaveRequests.title := "Error";
             LeaveRequests.description := "Failed to check in";
             LeaveRequests.destructive := true |}].
Proof.
  destruct (X10_refused_check_in_stores_nothing
              (EmployeeSample.env "emp-1" "row-1" EmployeeSample.checkInRefused)
              EmployeeSample.page "emp-1" Sample.serviceError eq_refl eq_refl)
    as (pg' & H & Ha & _ & _ & _ & Ht).
  exists pg'. split; [exact H|]. split; [exact Ha | exact Ht].
Defined.

Lemma X11_check_out_of_plain_user_stores_nothing_witness :
  exists pg' time,
    handleCheckOut (EmployeeSample.env "emp-1" "row-1" EmployeeSample.noFaults)
      (EmployeeSample.checkedIn "emp-1") = (inl tt, pg')
    /\ tables pg' = tables (EmployeeSample.checkedIn "emp-1")
    /\ toasts pg' = [checkedOutToast time].
Proof.
  destruct (X11_check_out_of_plain_user_stores_nothing
              (EmployeeSample.env "emp-1" "row-1" EmployeeSample.noFaults)
              (EmployeeSample.checkedIn "emp-1") "emp-1" _
              eq_refl eq_refl eq_refl eq_refl
              ltac:(vm_compute; split; discriminate))
    as (pg' & time & H & Htb & _ & Ht).
  exists pg', time. split; [exact H|]. split; [exact Htb | exact Ht].
Defined.

Lemma X12_check_out_of_admin_is_stored_witness :
  exists pg' time,
    handleCheckOut (EmployeeSample.env "admin-1" "row-1" EmployeeSample.noFaults)
      (EmployeeSample.checkedIn "admin-1") = (inl tt, pg')
    /\ map (fun a => at_check_out (ar_row a)) (tb_attendance (tables pg'))
       = [Some 1704859860000]
    /\ toasts pg' = [checkedOutToast time].
Proof.
  destruct (X12_check_out_of_admin_is_stored
              (EmployeeSample.env "admin-1" "row-1" EmployeeSample.noFaults)
              (EmployeeSample.checkedIn "admin-1") "admin-1" _
              eq_refl eq_refl eq_refl eq_refl
              ltac:(vm_compute; split; discriminate))
    as (pg' & time & H & Ha & Ht).
  exists pg', time. split; [exact H|].
  split; [rewrite Ha; vm_compute; reflexivity | exact Ht].
Defined.

Lemma X13_incomplete_leave_form_is_refused_witness :
  exists pg',
    handleSubmitLeave (EmployeeSample.env "emp-1" "row-1" EmployeeSample.noFaults)
      (EmployeeSample.checkedIn "emp-1") = (inl tt, pg')
    /\ tables pg' = tables (EmployeeSample.checkedIn "emp-1")
    /\ map LeaveRequests.description (toasts pg')
       = ["Please fill in all required fields"].
Proof.
  destruct (X13_incomplete_leave_form_is_refused
              (EmployeeSample.env "emp-1" "row-1" EmployeeSample.noFaults)
              (EmployeeSample.checkedIn "emp-1")
              (or_intror (or_introl eq_refl)))
    as (pg' & H & Htb & _ & _ & Ht).
  exists pg'. split; [exact H|]. split; [exact Htb|].
  rewrite Ht. reflexivity.
Defined.

Lemma X14_leave_of_plain_user_notifies_nobody_witness :
  exists pg',
    handleSubmitLeave (EmployeeSample.env "emp-1" "req-9" EmployeeSample.noFaults)
      EmployeeSample.page = (inl tt, pg')
    /\ map (fun r => (lr_start_date r, lr_end_date r, lr_status r))
           (tb_leave_requests (tables pg'))
       = [("2024-01-12", "2024-01-10", "pending")]
    /\ tb_notifications (tables pg') = []
    /\ isLeaveDialogOpen pg' = false.
Proof.
  destruct (X14_leave_of_plain_user_notifies_nobody
              (EmployeeSample.env "emp-1" "req-9" EmployeeSample.noFaults)
              EmployeeSample.page "emp-1" eq_refl
              ltac:(discriminate) ltac:(discriminate) eq_refl eq_refl)
    as (pg' & H & Hl & Hn & _ & _ & Hd & _).
  exists pg'. split; [exact H|].
  split; [rewrite Hl; reflexivity|]. split; [exact Hn | exact Hd].
Defined.

Lemma X15_leave_of_admin_notifies_every_admin_witness :
  exists pg',
    handleSubmitLeave (EmployeeSample.env "admin-1" "req-9" EmployeeSample.noFaults)
      EmployeeSample.page = (inl tt, pg')
    /\ map (fun n => (nt_user_id n, nt_title n, nt_related_id n))
           (tb_notifications (tables pg'))
       = [("admin-1", "New Leave Request", Some "req-9");
          ("admin-2", "New Leave Request", Some "req-9")].
Proof.
  destruct (X15_leave_of_admin_notifies_every_admin
              (EmployeeSample.env "admin-1" "req-9" EmployeeSample.noFaults)
              EmployeeSample.page "admin-1" eq_refl
              ltac:(discriminate) ltac:(discriminate) eq_refl eq_refl eq_refl)
    as (pg' & H & _ & Hn & _).
  exists pg'. split; [exact H|]. rewrite Hn. vm_compute. reflexivity.
Defined.

Lemma X16_refresh_finds_the_single_row_of_the_utc_day_witness :
  exists pg',
    fetchData (EmployeeSample.env "emp-1" "row-1" EmployeeSample.noFaults)
      (EmployeeSample.checkedIn "emp-1") = (inl tt, pg')
    /\ todayAttendance pg' = Some EmployeeSample.earlier.
Proof.
  destruct (X16_refresh_finds_the_single_row_of_the_utc_day
              (EmployeeSample.env "emp-1" "row-1" EmployeeSample.noFaults)
              (EmployeeSample.checkedIn "emp-1") "emp-1" eq_refl
              ltac:(vm_compute; split; discriminate) eq_refl)
    as (pg' & H & _ & Hta & _).
  exists pg'. split; [exact H|]. rewrite Hta. vm_compute. reflexivity.
Defined.


Lemma X18_second_check_in_brings_check_in_back_witness :
  exists pg1 pg2 pg3,
    handleCheckIn (EmployeeSample.env "emp-1" "row-1" EmployeeSample.noFaults)
      EmployeeSample.page = (inl tt, pg1)
    /\ In CheckIn (buttons pg1)
    /\ handleCheckIn (EmployeeSample.env "emp-1" "row-2" EmployeeSample.noFaults)
         pg1 = (inl tt, pg2)
    /\ map ar_id (tb_attendance (tables pg2)) = ["row-1"; "row-2"]
    /\ fetchData (EmployeeSample.env "emp-1" "row-3" EmployeeSample.noFaults) pg2
       = (inl tt, pg3)
    /\ todayAttendance pg3 = None
    /\ buttons pg3 = [CheckIn; RequestLeave].
Proof.
  destruct (X18_second_check_in_brings_check_in_back
              (EmployeeSample.env "emp-1" "row-1" EmployeeSample.noFaults)
              (EmployeeSample.env "emp-1" "row-2" EmployeeSample.noFaults)
              (EmployeeSample.env "emp-1" "row-3" EmployeeSample.noFaults)
              EmployeeSample.page "emp-1" eq_refl eq_refl eq_refl eq_refl
              eq_refl eq_refl
              ltac:(vm_compute; split; discriminate)
              ltac:(vm_compute; split; discriminate)
              ltac:(vm_compute; split; discriminate))
    as (pg1 & pg2 & pg3 & st1 & st2 & H1 & Hb1 & H2 & Ha & H3 & Hta & Hb3).
  exists pg1, pg2, pg3. split; [exact H1|].
  split; [apply Hb1; left; reflexivity|].
  split; [exact H2|]. split; [rewrite Ha; reflexivity|].
  split; [exact H3|]. split; [exact Hta|].
  apply Hb3. intros s Hs.
  assert (E : todaySchedule pg3 = Some (defaultDay 3 true)).
  { clear - H1 H2 H3. vm_compute in H1. injection H1 as <-.
    vm_compute in H2. injection H2 as <-.
    vm_compute in H3. injection H3 as <-. reflexivity. }
  rewrite E in Hs. injection Hs as <-. reflexivity.
Defined.

Lemma X19_duration_is_whole_hours_and_minutes_witness :
  Duration.calculateDuration JSDate.parse "2024-01-10T04:11:00.250Z"
    (Some "2024-01-10T12:40:59.000Z") = "8h 29m".
Proof.
  destruct (X19_duration_is_whole_hours_and_minutes "In progress" JSDate.parse
              "2024-01-10T04:11:00.250Z" "2024-01-10T12:40:59.000Z"
              1704859860250 1704890459000
              ltac:(discriminate)
              ltac:(vm_compute; reflexivity) ltac:(vm_compute; reflexivity)
              ltac:(lia) ltac:(vm_compute; reflexivity))
    as [H _].
  unfold Duration.calculateDuration. rewrite H. vm_compute. reflexivity.
Defined.

End EmployeeInstances.

Section ScheduleInstances.

Import JSDate Supabase EmployeeDashboard Handler SchedulePage.

Lemma X20_save_stops_at_the_first_refused_day_witness :
  exists pg1 pg2,
    handleScheduleChange 1 (SetCheckInEnd "10:15") ScheduleSample.page
    = (inl tt, pg1)
    /\ handleScheduleChange 5 (SetCheckInEnd "10:15") pg1 = (inl tt, pg2)
    /\ exists pg',
         handleSave ScheduleSample.refusingWednesday pg2 = (inl tt, pg')
         /\ map (fun r => check_in_end (sr_day r)) (table pg')
            = ["09:30:00"; "10:15:00"; "09:30:00"; "09:30:00"; "09:30:00";
               "09:30:00"; "09:30:00"]
         /\ map LeaveRequests.description (toasts pg')
            = ["permission denied for table attendance"].
Proof.
  eexists _, _. split; [reflexivity|]. split; [reflexivity|].
  destruct (X20_save_stops_at_the_first_refused_day
              ScheduleSample.refusingWednesday
              (snd (handleScheduleChange 5 (SetCheckInEnd "10:15")
                      (snd (handleScheduleChange 1 (SetCheckInEnd "10:15")
                              ScheduleSample.page))))
              (firstn 3 (map (fun day => if day_of_week (sr_day day) =? 1
                                         then withField (SetCheckInEnd "10:15") day
                                         else day) ScheduleSample.rows))
              (skipn 4 (map (fun day => if day_of_week (sr_day day) =? 5
                                        then withField (SetCheckInEnd "10:15") day
                                        else day) ScheduleSample.rows))
              {| sr_id := "day-3"; sr_day := defaultDay 3 true |}
              Sample.serviceError eq_refl
              ltac:(intros x [<-|[<-|[<-|[]]]]; reflexivity)
              eq_refl)
    as (pg' & H & Htb & _ & _ & Ht & _).
  exists pg'. split; [exact H|].
  split; [rewrite Htb; vm_compute; reflexivity | rewrite Ht; reflexivity].
Defined.

Lemma X21_saved_check_in_end_drives_the_classifier_witness :
  exists pg1 pg2,
    handleScheduleChange 3 (SetCheckInEnd "10:15") ScheduleSample.page
    = (inl tt, pg1)
    /\ handleSave ScheduleSample.accepting pg1 = (inl tt, pg2)
    /\ determineStatus (fixedZone 19800000)
         (fetchTodaySchedule (fixedZone 19800000) (Some 1704859860000) false
            (map sr_day (table pg2)))
         (Some 1704859860000) = "present"
    /\ determineStatus (fixedZone 19800000)
         (fetchTodaySchedule (fixedZone 19800000) (Some 1704862800000) false
            (map sr_day (table pg2)))
         (Some 1704862800000) = "late".
Proof.
  destruct (X21_saved_check_in_end_drives_the_classifier
              ScheduleSample.accepting ScheduleSample.page 3 10 15
              {| sr_id := "day-3"; sr_day := defaultDay 3 true |}
              ltac:(vm_compute;
                    repeat (constructor;
                            [intros H; cbn in H; intuition discriminate|]);
                    constructor)
              (Permutation_refl _)
              ltac:(reflexivity) ltac:(lia) ltac:(lia) eq_refl eq_refl)
    as (pg1 & pg2 & H1 & H2 & _ & _ & Hst).
  exists pg1, pg2. split; [exact H1|]. split; [exact H2|].
  split; [rewrite Hst by reflexivity; reflexivity
         |rewrite Hst by reflexivity; reflexivity].
Defined.

End ScheduleInstances.

Lemma X22_notice_names_the_day_before_west_of_utc_witness :
  exists r pg',
    LeaveRequests.handleApprove 3
      (Sample.env (JSDate.fixedZone (-18000000)) Supabase.noFaults)
      (Sample.request "2024-01-10" "2024-01-12" "pending")
      (Sample.page "2024-01-10" "2024-01-12") = Some (r, pg')
    /\ map Supabase.nt_message (Supabase.notifications (LeaveRequests.db pg'))
       = ["Your leave request from Jan 9 to Jan 11 has been approved."].
Proof.
  destruct (proj1 (X22_notice_names_the_day_before_west_of_utc (-18000000) 3
              (Sample.env (JSDate.fixedZone (-18000000)) Supabase.noFaults)
              (Sample.request "2024-01-10" "2024-01-12" "pending")
              (Sample.page "2024-01-10" "2024-01-12")
              "admin-1" 1704844800000 1705017600000
              eq_refl ltac:(vm_compute; split; reflexivity) eq_refl eq_refl
              eq_refl eq_refl eq_refl
              ltac:(vm_compute; reflexivity) ltac:(vm_compute; reflexivity)
              ltac:(vm_compute; lia)))
    as (r & pg' & H & Hn).
  exists r, pg'. split; [exact H|]. rewrite Hn. vm_compute. reflexivity.
Defined.

Lemma X23_records_without_profile_are_never_listed_witness :
  AttendanceList.filteredRecords (fun s => s) EmptyString "all" AdminSample.records
  = [AdminSample.listed "a-1" "present" (Some AdminSample.dana);
     AdminSample.listed "a-3" "late" (Some AdminSample.dana)].
Proof.
  rewrite (proj2 (X23_records_without_profile_are_never_listed
                    (fun s => s) EmptyString "all" AdminSample.records) eq_refl).
  reflexivity.
Defined.

Lemma X24_only_a_verified_admin_changes_the_backend_witness :
  ManageUser.serve (AdminSample.service None)
    (AdminSample.deletion "admin-2" "emp-1") AdminSample.backend
  = (ManageUser.respond 403 (ManageUser.Error "Admin access required"),
     AdminSample.backend).
Proof.
  apply (proj2 (X24_only_a_verified_admin_changes_the_backend
                  (AdminSample.service None)
                  (AdminSample.deletion "admin-2" "emp-1") AdminSample.backend)
           "admin-2" "admin-2");
    [discriminate | reflexivity | discriminate | reflexivity
     | vm_compute; lia].
Defined.

Lemma X25_delete_purges_the_user_and_nobody_else_witness :
  ManageUser.serve (AdminSample.service None)
    (AdminSample.deletion AdminSample.ada AdminSample.ada) AdminSample.registry
  = (ManageUser.respond 400 (ManageUser.Error "Cannot delete your own account"),
     AdminSample.registry)
  /\ AdminSample.adaInCapitals <> AdminSample.ada
  /\ ManageUser.forgotten AdminSample.ada
       (snd (ManageUser.serve (AdminSample.service None)
               (AdminSample.deletion AdminSample.ada AdminSample.adaInCapitals)
               AdminSample.registry))
  /\ ManageUser.serve (AdminSample.service None)
       (AdminSample.deletion AdminSample.ada AdminSample.adaInCapitals)
       AdminSample.registry
     = (ManageUser.respond 200 ManageUser.Success, AdminSample.registryWithoutAda).
Proof.
  pose proof (X25_delete_purges_the_user_and_nobody_else
                (AdminSample.service None)
                (AdminSample.deletion AdminSample.ada AdminSample.ada)
                AdminSample.registry
                AdminSample.ada AdminSample.ada AdminSample.ada
                {| Policies.ur_user_id := AdminSample.ada;
                   Policies.ur_role := "admin" |}
                _
                ltac:(discriminate) eq_refl ltac:(discriminate) eq_refl
                eq_refl eq_refl eq_refl eq_refl eq_refl
                ltac:(discriminate)) as [Hself _].
  pose proof (X25_delete_purges_the_user_and_nobody_else
                (AdminSample.service None)
                (AdminSample.deletion AdminSample.ada AdminSample.adaInCapitals)
                AdminSample.registry
                AdminSample.ada AdminSample.ada AdminSample.adaInCapitals
                {| Policies.ur_user_id := AdminSample.ada;
                   Policies.ur_role := "admin" |}
                _
                ltac:(discriminate) eq_refl ltac:(discriminate) eq_refl
                eq_refl eq_refl eq_refl eq_refl eq_refl
                ltac:(discriminate)) as [_ Hother].
  specialize (Hother ltac:(discriminate) ltac:(reflexivity)).
  assert (Hacc : forall account,
             ManageUser.deleteAccount (AdminSample.service None)
               AdminSample.adaInCapitals = inr account ->
             Uuid.same account AdminSample.adaInCapitals = true).
  { intros account H. vm_compute in H. injection H as <-.
    vm_compute. reflexivity. }
  destruct (Hother Hacc) as (Hf & _ & _).
  split; [exact (Hself eq_refl)|].
  split; [discriminate|].
  split.
  - unfold ManageUser.forgotten in *.
    destruct Hf as (F1 & F2 & F3 & F4 & F5 & F6 & F7 & F8).
    assert (Hsame : Uuid.same AdminSample.ada AdminSample.adaInCapitals = true)
      by (vm_compute; reflexivity).
    assert (Hx : forall x, Uuid.same x AdminSample.adaInCapitals
                           = Uuid.same x AdminSample.ada).
    { intros x. unfold Uuid.same.
      replace (Uuid.read AdminSample.adaInCapitals)
        with (Uuid.read AdminSample.ada) by (vm_compute; reflexivity).
      reflexivity. }
    repeat split; intros; rewrite <- Hx; eauto.
  - vm_compute. reflexivity.
Defined.

Lemma X26_dashboard_counts_leave_a_day_early_west_of_utc_witness :
  exists stats,
    AdminDashboard.fetchDashboardData (JSDate.fixedZone (-18000000))
      (Some 1704823200000) Sample.noDashboardFaults
      {| Supabase.leave_requests := [];
         Supabase.attendance :=
           Sample.attendanceAt 1704877860000 "present"
           :: map (LeaveDays.leaveRow
                     (Sample.request "2024-01-10" "2024-01-12" "pending"))
                  [1704844800000; 1704931200000; 1705017600000];
         Supabase.notifications := [];
         Supabase.profiles := [] |} = Some stats
    /\ AdminDashboard.onLeaveToday stats = 1
    /\ JSDate.format_MMM_d (JSDate.fixedZone (-18000000)) (Some 1704823200000)
       = Some "Jan 9".
Proof.
  destruct (X26_dashboard_counts_leave_a_day_early_west_of_utc (-18000000)
              1704823200000 Sample.noDashboardFaults
              {| Supabase.leave_requests := [];
                 Supabase.attendance :=
                   Sample.attendanceAt 1704877860000 "present"
                   :: map (LeaveDays.leaveRow
                             (Sample.request "2024-01-10" "2024-01-12" "pending"))
                          [1704844800000; 1704931200000; 1705017600000];
                 Supabase.notifications := [];
                 Supabase.profiles := [] |}
              ltac:(vm_compute; split; reflexivity)
              ltac:(vm_compute; discriminate) ltac:(vm_compute; discriminate)
              eq_refl
              ltac:(repeat (constructor;
                              [first [intros _; reflexivity
                                     | intros Hs; vm_compute in Hs; discriminate Hs]|]);
                    constructor))
    as (stats & H & Hn).
  exists stats. split; [exact H|].
  split; [rewrite Hn; vm_compute; reflexivity | vm_compute; reflexivity].
Defined.
